(** * REST resource layer and reconciliation importer: a shallow embedding

  The development follows the Python sources of the repository:
  - [ffe_utils.py]       digest helpers ([md5_hash], [dict_from_paramslist]);
  - [ffe_time.py]        UTC time helpers;
  - [rest_resources.py]  [DataType], [Resource], [Catalog], [PublicResource],
                         [User], [UserResource];
  - [rest_interface.py]  [ResourceHandler] and [RestHandler];
  - [markup.py]          [XMLImporter].

  Python [str] values are byte strings, modelled by [string]; a [dict] is a
  [gmap]; [None] is [None]; an exception is the [Raise] branch of [Exc]. *)

From Stdlib Require Import ZArith Ascii String List Lia Bool.
From stdpp Require Import base option list gmap strings sorting.

Local Open Scope string_scope.
Local Open Scope Z_scope.
#[local] Set Warnings "-clear-no-such-hyp".

(** ** Python string primitives *)

Module PyStr.

Definition byte_of (c : ascii) : Z := Z.of_N (N_of_ascii c).

Definition in_range (lo hi : Z) (c : ascii) : bool :=
  (lo <=? byte_of c) && (byte_of c <=? hi).

(** [[0-9]] *)
Definition is_digit (c : ascii) : bool := in_range 48 57 c.
(** [[A-Z]] *)
Definition is_upper (c : ascii) : bool := in_range 65 90 c.
(** [\w] for a byte pattern without flags: [[a-zA-Z0-9_]] *)
Definition is_word (c : ascii) : bool :=
  in_range 97 122 c || in_range 65 90 c || in_range 48 57 c
  || (byte_of c =? 95).

Definition newline : ascii := ascii_of_nat 10.

(** the double quote, and a string between double quotes *)
Definition quote : ascii := ascii_of_nat 34.

(** [s.split(sep)] for a one-character separator: never the empty list. *)
Fixpoint split (sep : ascii) (s : string) : list string :=
  match s with
  | EmptyString => [EmptyString]
  | String c rest =>
      if Ascii.eqb c sep then EmptyString :: split sep rest
      else match split sep rest with
           | h :: t => String c h :: t
           | [] => [String c EmptyString]
           end
  end.

(** [sep.join(parts)] *)
Fixpoint join (sep : string) (parts : list string) : string :=
  match parts with
  | [] => ""
  | [p] => p
  | p :: rest => p ++ sep ++ join sep rest
  end.

Fixpoint chars (s : string) : list ascii :=
  match s with
  | EmptyString => []
  | String c r => c :: chars r
  end.

Fixpoint of_chars (l : list ascii) : string :=
  match l with
  | [] => EmptyString
  | c :: r => String c (of_chars r)
  end.

Definition digit_char (d : Z) : ascii := ascii_of_N (Z.to_N (48 + d)).

(** decimal digits of a non-negative number, most significant first;
    [fuel] bounds the number of digits *)
Fixpoint digits_aux (fuel : nat) (n : Z) (acc : string) : string :=
  match fuel with
  | O => acc
  | S f =>
      let acc' := String (digit_char (n mod 10)) acc in
      if n / 10 =? 0 then acc' else digits_aux f (n / 10) acc'
  end.

(** [str(n)] for an integer *)
Definition str_of_int (n : Z) : string :=
  if n <? 0 then String "-"%char (digits_aux (Z.to_nat (Z.log2 (- n)) + 1) (- n) "")
  else digits_aux (Z.to_nat (Z.log2 n) + 1) n "".

(** ["%0<w>d" % n] for [0 <= n] *)
Fixpoint zero_pad (w : nat) (n : Z) : string :=
  match w with
  | O => ""
  | S w' => zero_pad w' (n / 10) ++ String (digit_char (n mod 10)) ""
  end.

Definition fmt_0d (w : nat) (n : Z) : string :=
  if n <? 10 ^ Z.of_nat w then zero_pad w n else str_of_int n.

(** [int(s)] on a string of decimal digits, a trailing newline ignored
    (the only strings the identifier patterns let through) *)
Definition int_of_digits (s : string) : Z :=
  fold_left (fun acc c => if is_digit c then 10 * acc + (byte_of c - 48) else acc)
            (chars s) 0.

Definition quoted (s : string) : string := String quote (s ++ String quote "").

(** white space as [str.strip] and [int] see it: blank, tab, line feed,
    vertical tab, form feed, carriage return *)
Definition is_space (c : ascii) : bool :=
  (byte_of c =? 32) || ((9 <=? byte_of c) && (byte_of c <=? 13)).

Fixpoint lstrip (l : list ascii) : list ascii :=
  match l with
  | c :: r => if is_space c then lstrip r else l
  | [] => []
  end.

Definition strip (l : list ascii) : list ascii := rev (lstrip (rev (lstrip l))).

Definition digits_value (ds : list ascii) : Z :=
  fold_left (fun acc c => 10 * acc + (byte_of c - 48)) ds 0.

(** [int(s)] for a string: white space around an optional sign and a
    non-empty run of decimal digits; [None] stands for [ValueError] *)
Definition py_int (s : string) : option Z :=
  let body := strip (chars s) in
  let '(negative, ds) :=
    match body with
    | c :: r =>
        if Ascii.eqb c "-" then (true, r)
        else if Ascii.eqb c "+" then (false, r)
        else (false, body)
    | [] => (false, [])
    end in
  match ds with
  | [] => None
  | _ :: _ =>
      if forallb is_digit ds
      then Some (if negative : bool then - digits_value ds else digits_value ds)
      else None
  end.

End PyStr.

(** ** [hashlib.md5]: RFC 1321 over bytes, with 32-bit words as [Z] *)

Module MD5.

Definition mask32 : Z := 0xffffffff.
Definition w32 (x : Z) : Z := Z.land x mask32.
Definition add32 (x y : Z) : Z := w32 (x + y).
Definition not32 (x : Z) : Z := Z.lxor x mask32.
Definition rotl32 (x : Z) (c : Z) : Z :=
  w32 (Z.lor (Z.shiftl x c) (Z.shiftr x (32 - c))).

Definition K : list Z :=
  [ 0xd76aa478; 0xe8c7b756; 0x242070db; 0xc1bdceee;
    0xf57c0faf; 0x4787c62a; 0xa8304613; 0xfd469501;
    0x698098d8; 0x8b44f7af; 0xffff5bb1; 0x895cd7be;
    0x6b901122; 0xfd987193; 0xa679438e; 0x49b40821;
    0xf61e2562; 0xc040b340; 0x265e5a51; 0xe9b6c7aa;
    0xd62f105d; 0x02441453; 0xd8a1e681; 0xe7d3fbc8;
    0x21e1cde6; 0xc33707d6; 0xf4d50d87; 0x455a14ed;
    0xa9e3e905; 0xfcefa3f8; 0x676f02d9; 0x8d2a4c8a;
    0xfffa3942; 0x8771f681; 0x6d9d6122; 0xfde5380c;
    0xa4beea44; 0x4bdecfa9; 0xf6bb4b60; 0xbebfbc70;
    0x289b7ec6; 0xeaa127fa; 0xd4ef3085; 0x04881d05;
    0xd9d4d039; 0xe6db99e5; 0x1fa27cf8; 0xc4ac5665;
    0xf4292244; 0x432aff97; 0xab9423a7; 0xfc93a039;
    0x655b59c3; 0x8f0ccc92; 0xffeff47d; 0x85845dd1;
    0x6fa87e4f; 0xfe2ce6e0; 0xa3014314; 0x4e0811a1;
    0xf7537e82; 0xbd3af235; 0x2ad7d2bb; 0xeb86d391 ].

Definition S_ : list Z :=
  [ 7; 12; 17; 22; 7; 12; 17; 22; 7; 12; 17; 22; 7; 12; 17; 22;
    5; 9; 14; 20; 5; 9; 14; 20; 5; 9; 14; 20; 5; 9; 14; 20;
    4; 11; 16; 23; 4; 11; 16; 23; 4; 11; 16; 23; 4; 11; 16; 23;
    6; 10; 15; 21; 6; 10; 15; 21; 6; 10; 15; 21; 6; 10; 15; 21 ].

Definition nthZ (l : list Z) (i : Z) : Z := nth (Z.to_nat i) l 0.

(** little-endian bytes of a word *)
Fixpoint le_bytes (n : nat) (x : Z) : list Z :=
  match n with
  | O => []
  | S n' => Z.land x 255 :: le_bytes n' (Z.shiftr x 8)
  end.

Fixpoint le_word (bs : list Z) : Z :=
  match bs with
  | [] => 0
  | b :: r => Z.lor b (Z.shiftl (le_word r) 8)
  end.

(** message padding: 0x80, zeros up to 56 mod 64, 64-bit length in bits *)
Definition pad (msg : list Z) : list Z :=
  let len := Z.of_nat (length msg) in
  let zeros := (55 - len) mod 64 in
  msg ++ [128] ++ repeat 0 (Z.to_nat zeros) ++ le_bytes 8 (8 * len).

Fixpoint words (n : nat) (bs : list Z) : list Z :=
  match n with
  | O => []
  | S n' => le_word (firstn 4 bs) :: words n' (skipn 4 bs)
  end.

Definition round (M : list Z) (st : Z * Z * Z * Z) (i : Z) : Z * Z * Z * Z :=
  let '(A, B, C, D) := st in
  let '(F, g) :=
    if i <? 16 then (Z.lor (Z.land B C) (Z.land (not32 B) D), i)
    else if i <? 32 then (Z.lor (Z.land D B) (Z.land (not32 D) C), (5 * i + 1) mod 16)
    else if i <? 48 then (Z.lxor (Z.lxor B C) D, (3 * i + 5) mod 16)
    else (Z.lxor C (Z.lor B (not32 D)), (7 * i) mod 16) in
  let F' := add32 (add32 (add32 F A) (nthZ K i)) (nthZ M g) in
  (D, add32 B (rotl32 F' (nthZ S_ i)), B, C).

Definition rounds : list Z := map Z.of_nat (seq 0 64).

Definition chunk (st : Z * Z * Z * Z) (block : list Z) : Z * Z * Z * Z :=
  let M := words 16 block in
  let '(A, B, C, D) := fold_left (round M) rounds st in
  let '(a0, b0, c0, d0) := st in
  (add32 a0 A, add32 b0 B, add32 c0 C, add32 d0 D).

Fixpoint chunks (n : nat) (st : Z * Z * Z * Z) (bs : list Z) : Z * Z * Z * Z :=
  match n with
  | O => st
  | S n' => chunks n' (chunk st (firstn 64 bs)) (skipn 64 bs)
  end.

Definition digest (msg : list Z) : list Z :=
  let p := pad msg in
  let '(a, b, c, d) :=
    chunks (length p / 64)%nat (0x67452301, 0xefcdab89, 0x98badcfe, 0x10325476) p in
  le_bytes 4 a ++ le_bytes 4 b ++ le_bytes 4 c ++ le_bytes 4 d.

Definition hex_char (d : Z) : ascii :=
  if d <? 10 then ascii_of_N (Z.to_N (48 + d)) else ascii_of_N (Z.to_N (87 + d)).

Fixpoint hex (bs : list Z) : string :=
  match bs with
  | [] => ""
  | b :: r => String (hex_char (Z.shiftr b 4)) (String (hex_char (Z.land b 15)) (hex r))
  end.

(** [hashlib.md5(s).hexdigest()] *)
Definition hexdigest (s : string) : string :=
  hex (digest (map PyStr.byte_of (PyStr.chars s))).

End MD5.

(** ** [ffe_time.py] and the parts of [datetime] it relies on

    A naive UTC [datetime] is modelled by the number of microseconds it lies
    after 1970-01-01T00:00:00; [mark_utc] only attaches the UTC tzinfo, so
    aware values compare like their naive counterparts. *)

Module Time.

Definition datetime : Type := Z.

Definition us_per_second : Z := 1000000.

(** [timedelta(minutes=n)] and [timedelta(seconds=n)] *)
Definition timedelta_minutes (n : Z) : Z := n * 60 * us_per_second.
Definition timedelta_seconds (n : Z) : Z := n * us_per_second.

Definition epoch_seconds (t : datetime) : Z := t / us_per_second.

(** [dt.replace(microsecond=0)] *)
Definition replace_microsecond_0 (t : datetime) : datetime :=
  t - t mod us_per_second.

Definition mark_utc (t : datetime) : datetime := t.

Definition second (t : datetime) : Z := epoch_seconds t mod 60.
Definition minute (t : datetime) : Z := (epoch_seconds t / 60) mod 60.
Definition hour (t : datetime) : Z := (epoch_seconds t / 3600) mod 24.
Definition epoch_days (t : datetime) : Z := epoch_seconds t / 86400.

(** proleptic Gregorian (year, month, day) of a day count from 1970-01-01 *)
Definition civil_from_days (days : Z) : Z * Z * Z :=
  let z := days + 719468 in
  let era := z / 146097 in
  let doe := z - era * 146097 in
  let yoe := (doe - doe / 1460 + doe / 36524 - doe / 146096) / 365 in
  let doy := doe - (365 * yoe + yoe / 4 - yoe / 100) in
  let mp := (5 * doy + 2) / 153 in
  let d := doy - (153 * mp + 2) / 5 + 1 in
  let m := if mp <? 10 then mp + 3 else mp - 9 in
  let y := yoe + era * 400 + (if m <=? 2 then 1 else 0) in
  (y, m, d).

Definition year (t : datetime) : Z := (civil_from_days (epoch_days t)).1.1.
Definition month (t : datetime) : Z := (civil_from_days (epoch_days t)).1.2.
Definition day (t : datetime) : Z := (civil_from_days (epoch_days t)).2.

(** [t.strftime('%Y%m%d')] *)
Definition strftime_Ymd (t : datetime) : string :=
  PyStr.fmt_0d 4 (year t) ++ PyStr.fmt_0d 2 (month t) ++ PyStr.fmt_0d 2 (day t).

(** [t.strftime('%H')] *)
Definition strftime_H (t : datetime) : string := PyStr.zero_pad 2 (hour t).

(** [t.strftime('%Y%m%d%H')] *)
Definition strftime_YmdH (t : datetime) : string :=
  strftime_Ymd t ++ strftime_H t.

(** [t.strftime('%Y-%m-%dT%H:%M:%S')] *)
Definition strftime_iso (t : datetime) : string :=
  PyStr.fmt_0d 4 (year t) ++ "-" ++ PyStr.fmt_0d 2 (month t) ++ "-"
  ++ PyStr.fmt_0d 2 (day t) ++ "T" ++ PyStr.zero_pad 2 (hour t) ++ ":"
  ++ PyStr.zero_pad 2 (minute t) ++ ":" ++ PyStr.zero_pad 2 (second t).

(** [dt.weekday()]: Monday is 0; 1970-01-01 was a Thursday *)
Definition weekday (t : datetime) : Z := (epoch_days t + 3) mod 7.

Definition weekday_names : list string :=
  ["Mon"; "Tue"; "Wed"; "Thu"; "Fri"; "Sat"; "Sun"].
Definition month_names : list string :=
  ["Jan"; "Feb"; "Mar"; "Apr"; "May"; "Jun"; "Jul"; "Aug"; "Sep"; "Oct"; "Nov"; "Dec"].

(** [rfc1123_from_utc(dt)] *)
Definition rfc1123_from_utc (t : datetime) : string :=
  nth (Z.to_nat (weekday t)) weekday_names "" ++ ", "
  ++ PyStr.fmt_0d 2 (day t) ++ " "
  ++ nth (Z.to_nat (month t - 1)) month_names "" ++ " "
  ++ PyStr.fmt_0d 4 (year t) ++ " "
  ++ PyStr.fmt_0d 2 (hour t) ++ ":" ++ PyStr.fmt_0d 2 (minute t) ++ ":"
  ++ PyStr.fmt_0d 2 (second t) ++ " GMT".

End Time.

(** ** [ffe_utils.py] *)

Module Utils.

(** [md5_hash(components)]: hex MD5 of the colon-joined components *)
Definition md5_hash (components : list string) : string :=
  MD5.hexdigest (PyStr.join ":" components).

Definition is_value_char (c : ascii) : bool :=
  PyStr.is_word c || Ascii.eqb c "." || Ascii.eqb c "@" || Ascii.eqb c "/".

(** longest prefix of characters satisfying [p], and what follows it *)
Fixpoint span (p : ascii -> bool) (s : list ascii) : list ascii * list ascii :=
  match s with
  | c :: r => if p c then let '(a, b) := span p r in (c :: a, b) else ([], s)
  | [] => ([], [])
  end.

Definition skip_optional (c : ascii) (s : list ascii) : nat * list ascii :=
  match s with
  | c' :: r => if Ascii.eqb c c' then (1%nat, r) else (0%nat, s)
  | [] => (0%nat, s)
  end.

(** one match of the pattern of [dict_from_paramslist] anchored at the head
    of [s]: a run of word characters, [=], an optional space, an optional
    double quote, a run of value characters ([\w.@/]) and an optional double
    quote.  The result holds the two groups and the number of characters
    consumed.  Every quantifier is followed by a character outside its
    class, so the greedy choice is the only one that can succeed. *)
Definition match_param (s : list ascii) : option (string * string * nat) :=
  let '(k, r1) := span PyStr.is_word s in
  match k, r1 with
  | _ :: _, eq :: r2 =>
      if Ascii.eqb eq "=" then
        let '(n1, r3) := skip_optional " " r2 in
        let '(n2, r4) := skip_optional PyStr.quote r3 in
        let '(v, r5) := span is_value_char r4 in
        match v with
        | [] => None
        | _ :: _ =>
            let '(n3, _) := skip_optional PyStr.quote r5 in
            Some (PyStr.of_chars k, PyStr.of_chars v,
                  (length k + 1 + n1 + n2 + length v + n3)%nat)
        end
      else None
  | _, _ => None
  end.

(** [reg.findall(s)]: leftmost non-overlapping matches; [skip] counts the
    characters of the previous match still to be stepped over *)
Fixpoint findall (skip : nat) (s : list ascii) : list (string * string) :=
  match s with
  | [] => []
  | _ :: r =>
      match skip with
      | S k => findall k r
      | O =>
          match match_param s with
          | Some (k, v, n) => (k, v) :: findall (n - 1) r
          | None => findall 0 r
          end
      end
  end.

(** [dict(pairs)]: a later pair overrides an earlier one with the same key *)
Definition dict_of_pairs (l : list (string * string)) : gmap string string :=
  fold_left (fun m kv => <[kv.1 := kv.2]> m) l ∅.

Definition dict_from_paramslist (paramslist : string) : gmap string string :=
  dict_of_pairs (findall 0 (PyStr.chars paramslist)).

(** [paramslist_from_dict], over the items in the order the dict yields them *)
Definition paramslist_from_dict (items : list (string * string)) : string :=
  PyStr.join ", " (map (fun kv => kv.1 ++ "=" ++ PyStr.quoted kv.2) items).

End Utils.

(** ** Exceptions *)

Inductive Error : Type :=
  | NoValidIdentifierError
  | InvalidUpdateDataError
  | KeyError
  | TypeError
  | ValueError
  | AttributeError.

Inductive Exc (A : Type) : Type :=
  | Ok (a : A)
  | Raise (e : Error).
Arguments Ok {A} a.
Arguments Raise {A} e.

Global Instance Error_eq_dec : EqDecision Error.
Proof. solve_decision. Defined.

(** ** [rest_resources.py]: data types, identifiers and the store *)

Module DataType.

(** [xml, json = range(2)] *)
Definition xml : nat := 0%nat.
Definition json : nat := 1%nat.

Definition s : list string := ["application/xml"; "application/json"].

Fixpoint scan (index : nat) (names : list string) (str : string) : option nat :=
  match names with
  | [] => None
  | n :: rest => if String.eqb str n then Some index else scan (S index) rest str
  end.

(** [DataType.type_for_string(string)]: the first index whose name is [string] *)
Definition type_for_string (str : string) : option nat := scan 0 s str.

End DataType.

Module Res.

(** identifiers of datastore keys: strings or integers *)
Inductive Ident : Type :=
  | IdStr (s : string)
  | IdInt (n : Z).

Global Instance Ident_eq_dec : EqDecision Ident.
Proof. solve_decision. Defined.

Global Instance Ident_countable : Countable Ident.
Proof.
  refine (inj_countable' (fun i => match i with IdStr s => inl s | IdInt n => inr n end)
                         (fun x => match x with inl s => IdStr s | inr n => IdInt n end) _).
  by intros [].
Defined.

(** an [ndb.Key]: kind (class name) and identifier *)
Definition Key : Type := string * Ident.

(** the class a resource class derives its behaviour from *)
Inductive Base : Type :=
  | BaseResource
  | BaseCatalog
  | BasePublicResource
  | BaseUser
  | BaseUserResource.

(** a compiled [identifier_regex]: an optional leading class, then between
    one and [max_rep] characters of [body], then [$] *)
Record Pattern : Type := mkPattern {
  lead : option (ascii -> bool);
  body : ascii -> bool;
  max_rep : nat
}.

(** [$]: the end of the string, or just before a newline that ends it *)
Definition at_end (s : string) : bool :=
  match s with
  | EmptyString => true
  | String c EmptyString => Ascii.eqb c PyStr.newline
  | _ => false
  end.

(** [p{0,n}$] *)
Fixpoint rep_end (p : ascii -> bool) (n : nat) (s : string) : bool :=
  at_end s ||
  match n, s with
  | S n', String c r => p c && rep_end p n' r
  | _, _ => false
  end.

(** [pattern.match(s)], as a truth value *)
Definition regex_match (pat : Pattern) (s : string) : bool :=
  let rep1 (s : string) :=
    match s with
    | String c r => body pat c && rep_end (body pat) (max_rep pat - 1) r
    | EmptyString => false
    end in
  match lead pat with
  | None => rep1 s
  | Some q =>
      match s with
      | String c r => q c && rep1 r
      | EmptyString => false
      end
  end.

(** ['[0-9]{1,19}$'], ['[A-Z]\w{1,19}$'] and ['\w{1,19}$'] *)
Definition identifier_regex (b : Base) : Pattern :=
  match b with
  | BaseCatalog => mkPattern (Some PyStr.is_upper) PyStr.is_word 19
  | BasePublicResource => mkPattern None PyStr.is_word 19
  | BaseResource | BaseUser | BaseUserResource => mkPattern None PyStr.is_digit 19
  end.

Definition is_publication (b : Base) : bool :=
  match b with BasePublicResource => true | _ => false end.

(** [str(identifier)] *)
Definition str (i : Ident) : string :=
  match i with IdStr s => s | IdInt n => PyStr.str_of_int n end.

(** [Resource.valid_identifier] *)
Definition Resource_valid_identifier (b : Base) (identifier : option Ident)
  : Exc (option Ident) :=
  match identifier with
  | None => Raise NoValidIdentifierError
  | Some i =>
      if regex_match (identifier_regex b) (str i) then Ok (Some i)
      else Raise NoValidIdentifierError
  end.

(** [cls.valid_identifier]: [User] and [UserResource] let [None] through and
    turn a validated identifier into an integer *)
Definition valid_identifier (b : Base) (identifier : option Ident)
  : Exc (option Ident) :=
  match b with
  | BaseUser | BaseUserResource =>
      match identifier with
      | None => Ok None
      | Some i =>
          match Resource_valid_identifier b (Some (IdStr (str i))) with
          | Ok _ => Ok (Some (IdInt (PyStr.int_of_digits (str i))))
          | Raise e => Raise e
          end
      end
  | _ => Resource_valid_identifier b identifier
  end.

(** one dictionary [{'id': ..., 'lm': ...}] of the catalog array.  The text
    property holds [json.dumps] of the array; the model keeps the array that
    is dumped. *)
Record CatalogEntry : Type := mkCatalogEntry {
  entry_id : Ident;
  entry_lm : string
}.

(** a stored model instance; the properties a class does not declare stay
    at their defaults *)
Record Entity : Type := mkEntity {
  key : Key;
  last_modified : option Time.datetime; (* [DateTimeProperty(auto_now=True)] *)
  ha1 : option string;                  (* [User.ha1] *)
  owner_key_property : option Key;      (* [UserResource.owner_key] *)
  class_module : string;                (* [Catalog.class_module] *)
  catalog : option (list CatalogEntry); (* [Catalog.catalog] *)
  fields : gmap string string           (* properties of concrete subclasses *)
}.

Definition id_ (e : Entity) : Ident := (key e).2.

(** [last_modified_utc]: [mark_utc(self.last_modified.replace(microsecond=0))];
    an instance that was never put has no [last_modified] to call [replace] on *)
Definition last_modified_utc (e : Entity) : Exc Time.datetime :=
  match last_modified e with
  | Some t => Ok (Time.mark_utc (Time.replace_microsecond_0 t))
  | None => Raise AttributeError
  end.

(** the datastore and the memcache entries ['<class>_ids'] *)
Record World : Type := mkWorld {
  datastore : gmap Key Entity;
  memcache : gmap string (list Ident)
}.

(** state of the stores, with exceptions *)
Definition M (A : Type) : Type := World -> Exc A * World.

Definition ret {A} (a : A) : M A := fun w => (Ok a, w).
Definition raise {A} (e : Error) : M A := fun w => (Raise e, w).
Definition bind {A B} (m : M A) (f : A -> M B) : M B :=
  fun w => match m w with
           | (Ok a, w') => f a w'
           | (Raise e, w') => (Raise e, w')
           end.
Definition lift {A} (x : Exc A) : M A := fun w => (x, w).
Definition try_except {A} (m : M A) (e : Error) (handler : M A) : M A :=
  fun w => match m w with
           | (Raise e', w') => if decide (e' = e) then handler w' else (Raise e', w')
           | r => r
           end.

End Res.

Notation "x <- m ;; k" := (Res.bind m (fun x => k))
  (at level 100, m at next level, right associativity).
Notation "m ;;; k" := (Res.bind m (fun _ => k))
  (at level 100, right associativity).

(** ** [rest_resources.py]: classes and object lifecycle *)

Module Model.
Import Res.

(** What a concrete resource class declares.  The hooks stand for the
    methods subclasses override and for the parsers they are fed by:
    [update_with_dictionary] is [json.loads] followed by the method of that
    name, [update_with_xml] is [xml.sax.parseString] with the class's
    handler, [serialization_json] is [json.dumps(dictionary_from_object())]. *)
Record ResourceClass : Type := mkClass {
  base : Base;
  class_name : string;
  module_name : string;
  url_name : option string;
  readable_data_types : list nat;
  writable_data_types : list nat;
  update_with_dictionary : string -> Entity -> Time.datetime -> M (bool * Entity);
  update_with_xml : string -> Time.datetime -> M unit;
  serialization_json : Entity -> string;
  has_admin_privileges : Entity -> bool;
  realm : string
}.

(** a fresh instance [cls(id=...)], nothing stored yet *)
Definition instance (kind : string) (i : Ident) : Entity :=
  mkEntity (kind, i) None None None "" None ∅.

Definition set_last_modified (t : Time.datetime) (e : Entity) : Entity :=
  mkEntity (key e) (Some t) (ha1 e) (owner_key_property e) (class_module e)
           (catalog e) (fields e).

Definition set_catalog (c : option (list CatalogEntry)) (e : Entity) : Entity :=
  mkEntity (key e) (last_modified e) (ha1 e) (owner_key_property e)
           (class_module e) c (fields e).

Definition set_class_module (m : string) (e : Entity) : Entity :=
  mkEntity (key e) (last_modified e) (ha1 e) (owner_key_property e) m
           (catalog e) (fields e).

(** *** The store: [ndb] and [memcache] *)

(** [Model.put]: stamps [last_modified] ([auto_now]) and writes the entity *)
Definition ndb_put (now : Time.datetime) (e : Entity) : M Entity :=
  fun w =>
    let e' := set_last_modified now e in
    (Ok e', mkWorld (<[key e := e']> (datastore w)) (memcache w)).

(** [key.delete()] *)
Definition key_delete (k : Key) : M unit :=
  fun w => (Ok tt, mkWorld (delete k (datastore w)) (memcache w)).

(** [cls.get_by_id(id)] *)
Definition get_by_id (kind : string) (i : Ident) : M (option Entity) :=
  fun w => (Ok (datastore w !! ((kind, i) : Key)), w).

(** [cls.reset_ids()]: [memcache.delete('%s_ids' % cls.__name__)] *)
Definition reset_ids (kind : string) : M unit :=
  fun w => (Ok tt, mkWorld (datastore w) (delete (kind ++ "_ids") (memcache w))).

Definition newer_first (a b : Entity) : Prop :=
  match last_modified a, last_modified b with
  | Some ta, Some tb => tb <= ta
  | Some _, None => True
  | None, Some _ => False
  | None, None => True
  end.

Global Instance newer_first_dec a b : Decision (newer_first a b).
Proof. unfold newer_first. destruct (last_modified a), (last_modified b); apply _. Defined.

(** [cls.query()]: the stored instances of a kind *)
Definition query (kind : string) (w : World) : list Entity :=
  filter (fun e => (key e).1 = kind) (snd <$> map_to_list (datastore w)).

(** [cls.query().order(-Resource.last_modified).fetch(limit)] *)
Definition query_newest_first (kind : string) (limit : nat) : M (list Entity) :=
  fun w => (Ok (take limit (merge_sort newer_first (query kind w))), w).

(** *** [Catalog] *)

Definition Catalog_kind : string := "Catalog".

(** [Catalog.new(cataloged_class)] *)
Definition Catalog_new (cataloged_class : ResourceClass) (now : Time.datetime)
  : M Entity :=
  let self := instance Catalog_kind (IdStr (class_name cataloged_class)) in
  let self := set_class_module (module_name cataloged_class) self in
  ndb_put now self.

(** [Catalog.get(cataloged_class, create=True)] *)
Definition Catalog_get (cataloged_class : ResourceClass) (now : Time.datetime)
  : M Entity :=
  self <- get_by_id Catalog_kind (IdStr (class_name cataloged_class)) ;;
  match self with
  | Some c => ret c
  | None => Catalog_new cataloged_class now
  end.

(** [Catalog.invalidate] *)
Definition Catalog_invalidate (self : Entity) (now : Time.datetime) : M Entity :=
  match catalog self with
  | Some _ => ndb_put now (set_catalog None self)
  | None => ret self
  end.

(** the dictionary appended for one entry of the query *)
Definition catalog_entry (entry : Entity) : Exc CatalogEntry :=
  match last_modified_utc entry with
  | Ok t => Ok (mkCatalogEntry (id_ entry) (Time.strftime_iso t))
  | Raise e => Raise e
  end.

Fixpoint catalog_array (entries : list Entity) : Exc (list CatalogEntry) :=
  match entries with
  | [] => Ok []
  | entry :: rest =>
      match catalog_entry entry with
      | Ok d =>
          match catalog_array rest with
          | Ok array => Ok (d :: array)
          | Raise e => Raise e
          end
      | Raise e => Raise e
      end
  end.

(** [Catalog.serialization_of_type]: the value returned and [self] afterwards;
    the cataloged class is the one named by the catalog's own identifier *)
Definition Catalog_serialization_of_type (self : Entity) (data_type : nat)
    (now : Time.datetime) : M (option (list CatalogEntry) * Entity) :=
  if decide (data_type = DataType.json) then
    match catalog self with
    | None =>
        entries <- query_newest_first (str (id_ self)) 1000 ;;
        array <- lift (catalog_array entries) ;;
        self' <- ndb_put now (set_catalog (Some array) self) ;;
        ret (catalog self', self')
    | Some c => ret (Some c, self)
    end
  else ret (None, self).

(** *** Object lifecycle of resource classes *)

(** [PublicResource.invalidate_catalog] *)
Definition invalidate_catalog (cls : ResourceClass) (now : Time.datetime) : M unit :=
  c <- Catalog_get cls now ;;
  Catalog_invalidate c now ;;;
  ret tt.

(** [Resource.new]; the instance gets the validated identifier, when there
    is one *)
Definition Resource_new (cls : ResourceClass) (identifier : option Ident)
  : M (option Ident) :=
  i <- lift (valid_identifier (base cls) identifier) ;;
  reset_ids (class_name cls) ;;;
  ret i.

(** [cls.new(identifier)]: the identifier of the new instance *)
Definition new (cls : ResourceClass) (identifier : option Ident)
    (now : Time.datetime) : M (option Ident) :=
  match base cls with
  | BasePublicResource =>
      invalidate_catalog cls now ;;;
      Resource_new cls identifier
  | BaseUserResource =>
      match identifier with
      | Some _ => raise NoValidIdentifierError
      | None => Resource_new cls None
      end
  | _ => Resource_new cls identifier
  end.

(** [self.put()] *)
Definition put (cls : ResourceClass) (self : Entity) (now : Time.datetime)
  : M Entity :=
  match base cls with
  | BasePublicResource =>
      self' <- ndb_put now self ;;
      invalidate_catalog cls now ;;;
      ret self'
  | _ => ndb_put now self
  end.

(** [Resource.delete] *)
Definition Resource_delete (cls : ResourceClass) (self : Entity) : M unit :=
  key_delete (key self) ;;;
  reset_ids (class_name cls).

(** [self.delete()] *)
Definition delete (cls : ResourceClass) (self : Entity) (now : Time.datetime)
  : M unit :=
  match base cls with
  | BasePublicResource =>
      Resource_delete cls self ;;;
      invalidate_catalog cls now
  | _ => Resource_delete cls self
  end.

(** [cls.get(identifier)] for an identifier that is not [None] *)
Definition get (cls : ResourceClass) (identifier : Ident) : M (option Entity) :=
  i <- lift (valid_identifier (base cls) (Some identifier)) ;;
  match i with
  | Some i => get_by_id (class_name cls) i
  | None => ret None
  end.

(** [Resource.update_with_string] *)
Definition update_with_string (cls : ResourceClass) (self : Entity)
    (update_string : string) (data_type : nat) (now : Time.datetime) : M Entity :=
  if decide (data_type = DataType.json) then
    r <- update_with_dictionary cls update_string self now ;;
    if r.1 then put cls r.2 now else ret r.2
  else if decide (data_type = DataType.xml) then
    update_with_xml cls update_string now ;;;
    ret self
  else ret self.

(** [Resource.serialization_of_type] *)
Definition serialization_of_type (cls : ResourceClass) (self : Entity)
    (data_type : nat) : option string :=
  if decide (data_type = DataType.xml) then None
  else if decide (data_type = DataType.json) then Some (serialization_json cls self)
  else None.

(** [resource.owner_key], when the class has that attribute: [User] answers
    with its own key, [UserResource] with the stored property *)
Definition owner_key (cls : ResourceClass) (self : Entity) : option (option Key) :=
  match base cls with
  | BaseUser => Some (Some (key self))
  | BaseUserResource => Some (owner_key_property self)
  | _ => None
  end.

(** *** Finding instances *)

(** the keys a keys-only query of the kind yields *)
Definition stored_ids (kind : string) (w : World) : list Ident :=
  (fun k : Key => k.2)
    <$> filter (fun k : Key => k.1 = kind) (fst <$> map_to_list (datastore w)).

(** [cls.all_ids()]: the list kept in memcache when it is there and not
    empty, otherwise the ids of the stored instances, which are then kept *)
Definition all_ids (cls : ResourceClass) : M (list Ident) :=
  fun w =>
    let memcache_key := class_name cls ++ "_ids" in
    match memcache w !! memcache_key with
    | Some (i :: ids) => (Ok (i :: ids), w)
    | _ =>
        let ids_list := stored_ids (class_name cls) w in
        (Ok ids_list, mkWorld (datastore w) (<[memcache_key := ids_list]> (memcache w)))
    end.

(** *** [User] *)

Definition set_ha1 (h : option string) (e : Entity) : Entity :=
  mkEntity (key e) (last_modified e) h (owner_key_property e) (class_module e)
           (catalog e) (fields e).

Definition set_field (name value : string) (e : Entity) : Entity :=
  mkEntity (key e) (last_modified e) (ha1 e) (owner_key_property e)
           (class_module e) (catalog e) (<[name := value]> (fields e)).

(** [User.username] *)
Definition username (self : Entity) : string := str (id_ self).

(** the [User.password] setter *)
Definition set_password (cls : ResourceClass) (new_value : string) (self : Entity)
  : Entity :=
  set_ha1 (Some (Utils.md5_hash [username self; realm cls; new_value])) self.

(** [User.password_equals] *)
Definition password_equals (cls : ResourceClass) (value : string) (self : Entity)
  : bool :=
  bool_decide (Some (Utils.md5_hash [username self; realm cls; value]) = ha1 self).

(** a value of the dictionary that counts as true: present and not empty *)
Definition given (v : option string) : option string :=
  match v with
  | Some s => if String.eqb s "" then None else Some s
  | None => None
  end.

(** [User.update_with_dictionary], on a dictionary of strings, for an
    instance that has its key: what is returned and [self] afterwards *)
Definition User_update_with_dictionary (cls : ResourceClass)
    (dictionary : gmap string string) (self : Entity) (now : Time.datetime)
  : M (bool * Entity) :=
  r <- match ha1 self with
       | None =>
           let user_realm := dictionary !! "realm" in
           match given (dictionary !! "token") with
           | Some password =>
               if bool_decide (user_realm = Some (realm cls)) then
                 self' <- put cls self now ;;
                 ret (false, set_password cls password self')
               else raise InvalidUpdateDataError
           | None => raise InvalidUpdateDataError
           end
       | Some _ =>
           let old_password := default "" (dictionary !! "old-password") in
           match given (dictionary !! "new-password") with
           | Some new_password =>
               if password_equals cls old_password self
               then ret (true, set_password cls new_password self)
               else ret (false, self)
           | None => ret (false, self)
           end
       end ;;
  let r1 :=
    match given (dictionary !! "name") with
    | Some name => (true, set_field "name" name r.2)
    | None => r
    end in
  let r2 :=
    match given (dictionary !! "email") with
    | Some email => (true, set_field "email" email r1.2)
    | None => r1
    end in
  ret r2.

End Model.

(** ** [rest_interface.py] *)

Module Handler.
Import Res Model.

Record Request : Type := mkRequest {
  method : string;
  path : string;
  authorization : option string;        (* header [Authorization] *)
  if_modified_since : option string;    (* header [If-Modified-Since] *)
  if_unmodified_since : option string;  (* header [If-Unmodified-Since] *)
  accept : option string;               (* header [Accept] *)
  content_type : option string;         (* header [Content-Type] *)
  body : string
}.

(** what is written to [response.out] *)
Inductive Payload : Type :=
  | Text (s : option string)
  | CatalogText (c : option (list CatalogEntry)).

Record Response : Type := mkResponse {
  status_int : Z;
  headers : list (string * string);
  response_content_type : option string;
  out : option Payload
}.

(** a handler class: [resource_class] and [user_class] *)
Record Handler : Type := mkHandler {
  resource_class : ResourceClass;
  user_class : ResourceClass
}.

(** [_valid_class_url], [_valid_resource_id] and [_resource_id] after
    [parse_request_path] *)
Record Parsed : Type := mkParsed {
  valid_class_url : bool;
  valid_resource_id : bool;
  _resource_id : option Ident
}.

(** [ResourceHandler.parse_request_path] *)
Definition parse_request_path (cls : ResourceClass) (request_path : string)
  : Exc Parsed :=
  let comps := PyStr.split "/" request_path in
  if (length comps <? 3)%nat then Ok (mkParsed false false None)
  else if negb (bool_decide (Some (nth 2 comps "") = url_name cls))
  then Ok (mkParsed false false None)
  else if (length comps =? 3)%nat then Ok (mkParsed true false None)
  else if (length comps =? 4)%nat then
    let identifier := nth 3 comps "" in
    match valid_identifier (base cls) (Some (IdStr identifier)) with
    | Ok i => Ok (mkParsed false true i)
    | Raise NoValidIdentifierError => Ok (mkParsed false false None)
    | Raise e => Raise e
    end
  else Ok (mkParsed false false None).

(** the [resource_id] property *)
Definition resource_id (p : Parsed) : option Ident :=
  if valid_resource_id p then _resource_id p else None.

(** the [resource] property: fetched when the path names a valid identifier *)
Definition resource (cls : ResourceClass) (p : Parsed) : M (option Entity) :=
  if valid_resource_id p then
    match resource_id p with
    | Some i => Model.get cls i
    | None => ret None
    end
  else ret None.

(** [self.error(code)] *)
Definition error (code : Z) : Response :=
  mkResponse code [] (Some "text/html") None.

(** [RestHandler.opaque_from_nonce] *)
Definition date_string (now : Time.datetime) : string :=
  Time.strftime_YmdH now ++ PyStr.str_of_int (Time.minute now / 12).

Definition opaque_from_nonce (nonce : string) (now : Time.datetime) : string :=
  Utils.md5_hash [date_string now; nonce; "FDhgfliubnw"].

(** the nonce test of [authenticate]: the opaque of now, else the opaque of
    five minutes ago *)
Definition opaque_is_current (nonce opaque : string) (now : Time.datetime) : bool :=
  if negb (String.eqb opaque (opaque_from_nonce nonce now)) then
    let now' := now - Time.timedelta_minutes 5 in
    if negb (String.eqb opaque (opaque_from_nonce nonce now')) then false
    else true
  else true.

(** [md5_hash] over components of which the first may be [None] *)
Definition md5_hash_ha1 (ha1 : option string) (rest : list string) : Exc string :=
  match ha1 with
  | Some h => Ok (Utils.md5_hash (h :: rest))
  | None => Raise TypeError
  end.

(** [RestHandler.authenticate]: the truth value returned and [self.user] *)
Definition authenticate (h : Handler) (now : Time.datetime) (req : Request)
  : M (bool * option Entity) :=
  match authorization req with
  | None => ret (false, None)
  | Some auth_header =>
    if String.eqb auth_header "" then ret (false, None) else
    let params := Utils.dict_from_paramslist auth_header in
    match params !! "username", params !! "nonce", params !! "cnonce",
          params !! "nc", params !! "realm", params !! "qop",
          params !! "uri", params !! "opaque", params !! "response" with
    | Some username, Some nonce, Some cnonce, Some nc, Some realm_, Some qop,
      Some uri, Some opaque, Some response =>
        if negb (String.eqb realm_ (realm (user_class h))) then ret (false, None)
        else if negb (opaque_is_current nonce opaque now) then ret (false, None)
        else
          user <- try_except (Model.get (user_class h) (IdStr username))
                             NoValidIdentifierError (ret None) ;;
          match user with
          | None => ret (false, None)
          | Some u =>
              if negb (String.eqb uri (path req)) then ret (false, Some u)
              else
                let ha2 := Utils.md5_hash [method req; uri] in
                ref_response <- lift (md5_hash_ha1 (ha1 u) [nonce; nc; cnonce; qop; ha2]) ;;
                if negb (String.eqb response ref_response) then ret (false, Some u)
                else ret (true, Some u)
          end
    | _, _, _, _, _, _, _, _, _ => ret (false, None)
    end
  end.

(** [RestHandler.require_authentication]; [rnd] is the number drawn by
    [random.randint(0, 999999)] *)
Definition require_authentication (h : Handler) (now : Time.datetime) (rnd : Z)
  : M Response :=
  let nonce := PyStr.str_of_int rnd in
  let params := [("realm", realm (user_class h)); ("qop", "auth"); ("nonce", nonce);
                 ("opaque", opaque_from_nonce nonce now)] in
  let auth_header := "Digest " ++ Utils.paramslist_from_dict params in
  ret (mkResponse 401 [("WWW-Authenticate", auth_header)] (Some "text/html") None).

(** [RestHandler.resource_is_authorized] *)
Definition resource_is_authorized (h : Handler) (user : option Entity)
    (res : option Entity) : bool :=
  match user with
  | None => false
  | Some u =>
      if has_admin_privileges (user_class h) u then true
      else match res with
           | None => false
           | Some r =>
               match owner_key (resource_class h) r with
               | Some k => bool_decide (k = Some (key u))
               | None => false
               end
           end
  end.

(** [RestHandler.input_data_type] *)
Definition input_data_type (cls : ResourceClass) (req : Request) : option nat :=
  match content_type req with
  | None => None
  | Some type_string =>
      let components := PyStr.split ";" type_string in
      match DataType.type_for_string (nth 0 components "") with
      | Some data_type =>
          if bool_decide (data_type ∈ readable_data_types cls) then Some data_type
          else None
      | None => None
      end
  end.

(** the list [acceptable_types] built by [output_data_type] *)
Fixpoint acceptable_types (accept_list : list string) : list nat :=
  match accept_list with
  | [] => []
  | accept :: rest =>
      let components := PyStr.split ";" accept in
      match DataType.type_for_string (nth 0 components "") with
      | Some data_type => data_type :: acceptable_types rest
      | None => acceptable_types rest
      end
  end.

Fixpoint first_writable (writable : list nat) (types : list nat) : option nat :=
  match types with
  | [] => None
  | data_type :: rest =>
      if bool_decide (data_type ∈ writable) then Some data_type
      else first_writable writable rest
  end.

(** [RestHandler.output_data_type(target_class)], given the writable types of
    the target class *)
Definition output_data_type (writable : list nat) (req : Request) : option nat :=
  match accept req with
  | None => None
  | Some accept_string =>
      first_writable writable (acceptable_types (PyStr.split "," accept_string))
  end.

(** [resource.last_modified_http] *)
Definition last_modified_http (e : Entity) : Exc string :=
  match last_modified e with
  | Some t => Ok (Time.rfc1123_from_utc t)
  | None => Raise AttributeError
  end.

(** [write_output(resource, data_type)] for an instance of the resource
    class; [status] is the status the response carries at the end *)
Definition write_output (cls : ResourceClass) (res : Entity) (data_type : nat)
    (status : Z) : M Response :=
  lm <- lift (last_modified_http res) ;;
  ret (mkResponse status [("Last-Modified", lm)] (DataType.s !! data_type)
                  (Some (Text (serialization_of_type cls res data_type)))).

(** [write_output(resource, data_type)] for the catalog of the class *)
Definition write_output_catalog (c : Entity) (data_type : nat)
    (now : Time.datetime) : M Response :=
  lm <- lift (last_modified_http c) ;;
  r <- Catalog_serialization_of_type c data_type now ;;
  ret (mkResponse 200 [("Last-Modified", lm)] (DataType.s !! data_type)
                  (Some (CatalogText r.1))).

(** a header that is present and not empty *)
Definition truthy_header (v : option string) : option string :=
  match v with
  | Some s => if String.eqb s "" then None else Some s
  | None => None
  end.

Section Requests.

(** [utc_from_rfc1123]: [datetime.strptime(string, '%a, %d %b %Y %H:%M:%S GMT')]
    marked as UTC; the parser belongs to the [datetime] library and raises
    [ValueError] on what it rejects. *)
Variable utc_from_rfc1123 : string -> Exc Time.datetime.

(** [resource.last_modified_utc <= utc_from_rfc1123(header)] *)
Definition not_modified_after (res : Entity) (header : string) : Exc bool :=
  match last_modified_utc res with
  | Ok lm =>
      match utc_from_rfc1123 header with
      | Ok t => Ok (lm <=? t)
      | Raise e => Raise e
      end
  | Raise e => Raise e
  end.

(** what [get] serves: the catalog of the class or an instance of it *)
Inductive Target : Type :=
  | TCatalog (c : Entity)
  | TInstance (r : Entity).

Definition target_entity (t : Target) : Entity :=
  match t with TCatalog c => c | TInstance r => r end.

(** [RestHandler.get] *)
Definition get (h : Handler) (now : Time.datetime) (rnd : Z) (req : Request)
  : M Response :=
  let cls := resource_class h in
  let pub := is_publication (base cls) in
  a <- (if pub then ret (true, None) else authenticate h now req) ;;
  if negb (pub || a.1) then require_authentication h now rnd else
  p <- lift (parse_request_path cls (path req)) ;;
  if valid_class_url p && negb pub then ret (error 405) else
  t1 <- (if valid_class_url p then c <- Catalog_get cls now ;; ret (Some (TCatalog c))
         else ret None) ;;
  self_resource <- resource cls p ;;
  let t2 := if valid_resource_id p then TInstance <$> self_resource else t1 in
  match t2 with
  | None => ret (error 404)
  | Some target =>
      if negb (pub || resource_is_authorized h a.2 self_resource) then ret (error 401)
      else
        not_modified <-
          match truthy_header (if_modified_since req) with
          | Some modified_since =>
              lift (not_modified_after (target_entity target) modified_since)
          | None => ret false
          end ;;
        if (not_modified : bool) then ret (mkResponse 304 [] None None)
        else
          let writable :=
            match target with
            | TCatalog _ => [DataType.json]
            | TInstance _ => writable_data_types cls
            end in
          match output_data_type writable req with
          | None => ret (error 406)
          | Some data_type =>
              match target with
              | TCatalog c => write_output_catalog c data_type now
              | TInstance r => write_output cls r data_type 200
              end
          end
  end.

(** [RestHandler.put] *)
Definition put (h : Handler) (now : Time.datetime) (rnd : Z) (req : Request)
  : M Response :=
  let cls := resource_class h in
  a <- authenticate h now req ;;
  if negb a.1 then require_authentication h now rnd else
  match input_data_type cls req with
  | None => ret (error 415)
  | Some data_type =>
      p <- lift (parse_request_path cls (path req)) ;;
      self_resource <- resource cls p ;;
      match self_resource with
      | Some r =>
          if negb (resource_is_authorized h a.2 self_resource) then ret (error 401)
          else
            match truthy_header (if_unmodified_since req) with
            | None => ret (error 409)
            | Some unmodified_since =>
                ok <- lift (not_modified_after r unmodified_since) ;;
                if (ok : bool) then
                  r' <- update_with_string cls r (body req) data_type now ;;
                  write_output cls r' data_type 200
                else ret (error 412)
            end
      | None =>
          if is_publication (base cls) then
            match a.2 with
            | None => raise AttributeError
            | Some user =>
                if negb (has_admin_privileges (user_class h) user) then ret (error 401)
                else
                  created <- try_except
                               (i <- Model.new cls (resource_id p) now ;; ret (Some i))
                               NoValidIdentifierError (ret None) ;;
                  match created with
                  | None => ret (error 400)
                  | Some None => raise TypeError
                  | Some (Some i) =>
                      r' <- update_with_string cls (instance (class_name cls) i)
                                               (body req) data_type now ;;
                      write_output cls r' data_type 201
                  end
            end
          else ret (error 404)
      end
  end.

End Requests.

(** [RestHandler.delete] *)
Definition delete (h : Handler) (now : Time.datetime) (rnd : Z) (req : Request)
  : M Response :=
  let cls := resource_class h in
  a <- authenticate h now req ;;
  if negb a.1 then require_authentication h now rnd else
  p <- lift (parse_request_path cls (path req)) ;;
  self_resource <- resource cls p ;;
  match self_resource with
  | Some r =>
      if negb (resource_is_authorized h a.2 self_resource) then ret (error 401)
      else
        Model.delete cls r now ;;;
        ret (mkResponse 204 [] None None)
  | None => ret (error 404)
  end.

(** [ffe_utils.auth_header]: the [Authorization] header a client answers a
    401 response with, from the [WWW-Authenticate] header of that response.
    The parameters are written in the order the map yields them, the order
    of a dict being unspecified. *)
Definition auth_header (method uri : string) (www_authenticate : string)
    (user : Entity) : Exc string :=
  let auth_params := Utils.dict_from_paramslist www_authenticate in
  let ha2 := Utils.md5_hash [method; uri] in
  match auth_params !! "nonce" with
  | None => Raise KeyError
  | Some nonce =>
      let nc := "00000001" in
      let cnonce := "0a4f113b" in
      match auth_params !! "qop" with
      | None => Raise KeyError
      | Some qop =>
          match md5_hash_ha1 (ha1 user) [nonce; nc; cnonce; qop; ha2] with
          | Raise e => Raise e
          | Ok response_hash =>
              let auth_params :=
                <["response" := response_hash]>
                  (<["cnonce" := cnonce]>
                     (<["nc" := nc]>
                        (<["uri" := uri]>
                           (<["username" := username user]> auth_params)))) in
              Ok ("Digest " ++ Utils.paramslist_from_dict (map_to_list auth_params))
          end
      end
  end.

End Handler.

(** ** [markup.py]: [XMLImporter] *)

Module Importer.

(** the calls a SAX parser makes between [startDocument] and [endDocument] *)
Inductive Event : Type :=
  | StartElement (name : string) (attrs : list (string * string))
  | EndElement (name : string)
  | Characters (chars : string).

Section XMLImporter.

(** Keys of the dictionaries, references to the objects they hold, and the
    state a subclass keeps (the data read from the elements and the contents
    of the objects, which [update_object] changes in place). *)
Context {K : Type} `{!EqDecision K, !Countable K}.
Variables (Obj Sub : Type).

(** the methods a subclass implements; those that run while elements are
    read also see [self.data], the character data collected so far *)
Variable active : string -> bool.                    (* [name in self.active_xml_tags()] *)
Variable existing_objects_dictionary : Sub -> gmap K Obj.
Variable key_for_current_object : list string -> Sub -> option K.
Variable create_new_object : K -> list string -> Sub -> Obj * Sub.
Variable start_xml_element : string -> list (string * string) -> Sub -> Sub.
Variable end_xml_element : string -> list string -> Sub -> Sub.
(** [update_object] answers whether it set [self.changes] *)
Variable update_object : Obj -> string -> list string -> Sub -> bool * Sub.
(** the truth value of an object in a condition *)
Variable truthy : Sub -> Obj -> bool.

Record State : Type := mkState {
  data : list string;
  changes : bool;
  old_objects : gmap K Obj;
  updated_objects : gmap K Obj;
  new_objects : gmap K Obj;
  sub : Sub
}.

(** [startDocument] *)
Definition startDocument (s : Sub) : State :=
  mkState [] false (existing_objects_dictionary s) ∅ ∅ s.

(** [startElement] *)
Definition startElement (name : string) (attrs : list (string * string))
    (st : State) : State :=
  mkState [] (changes st) (old_objects st) (updated_objects st) (new_objects st)
          (start_xml_element name attrs (sub st)).

(** [characters] *)
Definition characters (chars : string) (st : State) : State :=
  mkState (data st ++ [chars]) (changes st) (old_objects st) (updated_objects st)
          (new_objects st) (sub st).

(** the truth value of what [dict.get] returned *)
Definition is_true (s : Sub) (current_object : option Obj) : bool :=
  match current_object with
  | Some o => truthy s o
  | None => false
  end.

(** [pop_from_old_objects(key)] *)
Definition pop_from_old_objects (key : K) (st : State) : option Obj * State :=
  let current_object := old_objects st !! key in
  if is_true (sub st) current_object then
    (current_object,
     mkState (data st) (changes st) (delete key (old_objects st))
             (updated_objects st) (new_objects st) (sub st))
  else (new_objects st !! key, st).

(** [endElement] *)
Definition endElement (name : string) (st : State) : State :=
  let st1 :=
    if active name then
      match key_for_current_object (data st) (sub st) with
      | Some key =>
          let '(popped, st') := pop_from_old_objects key st in
          let '(current_object, s1) :=
            match popped with
            | Some o =>
                if truthy (sub st') o then (o, sub st')
                else create_new_object key (data st') (sub st')
            | None => create_new_object key (data st') (sub st')
            end in
          let '(changed, s2) := update_object current_object name (data st') s1 in
          mkState (data st') changed (old_objects st')
                  (if changed then <[key := current_object]> (updated_objects st')
                   else updated_objects st')
                  (<[key := current_object]> (new_objects st')) s2
      | None => st
      end
    else st in
  mkState (data st1) (changes st1) (old_objects st1) (updated_objects st1)
          (new_objects st1) (end_xml_element name (data st1) (sub st1)).

Definition step (st : State) (ev : Event) : State :=
  match ev with
  | StartElement name attrs => startElement name attrs st
  | EndElement name => endElement name st
  | Characters chars => characters chars st
  end.

(** a complete pass: [startDocument], the events of the feed in order, and
    the populations [endDocument] hands to [save_objects] *)
Definition run (feed : list Event) (s : Sub) : State :=
  fold_left step feed (startDocument s).

(** the key a closing tag yields, if it yields one *)
Definition yielded_key (ev : Event) (st : State) : option K :=
  match ev with
  | EndElement name =>
      if active name then key_for_current_object (data st) (sub st) else None
  | _ => None
  end.

(** the keys the feed yields when it is read from state [st] on *)
Fixpoint feed_keys (feed : list Event) (st : State) : list K :=
  match feed with
  | [] => []
  | ev :: rest =>
      match yielded_key ev st with
      | Some key => key :: feed_keys rest (step st ev)
      | None => feed_keys rest (step st ev)
      end
  end.

End XMLImporter.

End Importer.

(** ** [markup.py]: elements and their text *)

Module Markup.

(** what an element holds: a string, or an [XMLElement] with its type, its
    attributes (in the order the dict yields them) and its content *)
#[local] Set Warnings "-register-all".
Inductive Node : Type :=
  | Text (s : string)
  | Element (type : string) (attributes : list (string * string))
            (content : list Node).
#[local] Set Warnings "register-all".

(** [ATTRIBUTE_TEMPLATE % (key, value)] *)
Definition attribute (kv : string * string) : string :=
  kv.1 ++ "=" ++ PyStr.quoted kv.2.

(** ['\n' + depth * ' '] *)
Definition indent (depth : nat) : string :=
  String PyStr.newline (PyStr.of_chars (repeat " "%char depth)).

(** [XMLElement.write(depth, lf)] on an element, and [unicode(...)] on a
    string of the content; [None] stands for the exception raised beyond
    depth 10 *)
Fixpoint write (depth : nat) (lf : bool) (n : Node) {struct n} : option string :=
  match n with
  | Text s => Some s
  | Element type attributes content =>
      if (10 <? depth)%nat then None
      else
        let attributed_type := PyStr.join " " (type :: map attribute attributes) in
        match content with
        | [] => Some ("<" ++ attributed_type ++ "/>")
        | _ :: _ =>
            match
              (fix write_all (l : list Node) : option (list string) :=
                 match l with
                 | [] => Some []
                 | element :: rest =>
                     match write (S depth) lf element with
                     | Some theString =>
                         match write_all rest with
                         | Some strings => Some (theString :: strings)
                         | None => None
                         end
                     | None => None
                     end
                 end) content
            with
            | Some strings =>
                Some (PyStr.join (if lf then indent depth else "")
                        (("<" ++ attributed_type ++ ">")
                         :: app strings ["</" ++ type ++ ">"]))
            | None => None
            end
        end
  end.

(** [anchor(href, content)] *)
Definition anchor (href : string) (content : Node) : Node :=
  Element "a" [("href", href)] [content].

(** [paragraph(text)] *)
Definition paragraph (text : string) : Node := Element "p" [] [Text text].

Section Navigator.

(** [format % page], the address of a page *)
Variable url_format : Z -> string.

(** [link_to_page(format, page)] *)
Definition link_to_page (page : Z) : Node :=
  anchor (url_format page) (Text (PyStr.str_of_int page)).

(** [page_navigator(currentPage, lastPage, urlFormat)]: what is added to the
    paragraph, in order *)
Definition navigator_content (currentPage lastPage : Z) : list Node :=
  let before := currentPage - 1 in
  let after := lastPage - currentPage in
  concat
    [ if 1 <? before then [link_to_page 1; Text " "] else [];
      if 2 <? before then [Text "... "] else [];
      if 0 <? before then [link_to_page (currentPage - 1); Text " "] else [];
      [Text ("<strong>" ++ PyStr.str_of_int currentPage ++ "</strong>")];
      if 0 <? after then [Text " "; link_to_page (currentPage + 1)] else [];
      if 2 <? after then [Text " ..."] else [];
      if 1 <? after then [Text " "; link_to_page lastPage] else [] ].

Definition page_navigator (currentPage lastPage : Z) : Node :=
  Element "p" [] (Text "pagina: " :: navigator_content currentPage lastPage).

End Navigator.

End Markup.

(** ** [gae.py]: issuing tasks *)

Module Gae.

(** [issue_tasks(tasks)]: the arguments of the calls of [Queue().add], in
    order; a [TaskAlreadyExistsError] of one call is logged and the next
    batch follows *)
Definition issue_tasks {T : Type} (tasks : list T) : list (list T) :=
  match tasks with
  | [] => []
  | _ :: _ =>
      let batchlength := (length tasks / 100 + 1)%nat in
      map (fun batch =>
             let start := (batch * 100)%nat in
             take 100 (drop start tasks))
          (seq 0 batchlength)
  end.

End Gae.

(** ** [ffe_time.py]: minutes and month names *)

Module Clock.

(** [index_for_string(string, array)] *)
Fixpoint index_for_string_from (index : nat) (s : string) (array : list string)
  : option nat :=
  match array with
  | [] => None
  | a :: rest =>
      if String.eqb s a then Some index else index_for_string_from (S index) s rest
  end.

Definition index_for_string (s : string) (array : list string) : option nat :=
  index_for_string_from 0 s array.

Definition MONTHS_NL : list string :=
  ["januari"; "februari"; "maart"; "april"; "mei"; "juni"; "juli"; "augustus";
   "september"; "oktober"; "november"; "december"].

(** [number_for_nl_month(month)] *)
Definition number_for_nl_month (month : string) : option Z :=
  match index_for_string month MONTHS_NL with
  | None => None
  | Some index => Some (Z.of_nat index + 1)
  end.

(** [nl_month_for_number(number)]; [None] stands for the failed assertion *)
Definition nl_month_for_number (number : Z) : option string :=
  if (0 <? number) && (number <=? 12)
  then MONTHS_NL !! Z.to_nat (number - 1)
  else None.

(** [string_from_minutes(minutes)]: ['%d:%02d' % (minutes // 60, minutes % 60)] *)
Definition string_from_minutes (minutes : Z) : string :=
  PyStr.str_of_int (minutes / 60) ++ ":" ++ PyStr.fmt_0d 2 (minutes mod 60).

(** [minutes_from_string(string)]; [None] stands for the [ValueError] of
    [int] or the [IndexError] of a string without a colon *)
Definition minutes_from_string (s : string) : option Z :=
  let components := PyStr.split ":" s in
  match components with
  | c0 :: c1 :: _ =>
      match PyStr.py_int c0, PyStr.py_int c1 with
      | Some h, Some m => Some (60 * h + m)
      | _, _ => None
      end
  | _ => None
  end.

End Clock.

(** ** A concrete deployment, for running the model

    The repository ships the abstract classes only.  The classes below are
    minimal subclasses of [PublicResource] and [User], and [strptime_rfc1123]
    reads the timestamps in the canonical form [rfc1123_from_utc] writes. *)

Module Scenario.
Import Res Model Handler.

Definition all_digits (s : string) : bool :=
  forallb PyStr.is_digit (PyStr.chars s).

Definition index_of (names : list string) (s : string) : option Z :=
  (fun r => Z.of_nat r.1) <$> list_find (fun n => n = s) names.

(** day count from 1970-01-01 of a proleptic Gregorian date *)
Definition days_from_civil (y m d : Z) : Z :=
  let y' := if m <=? 2 then y - 1 else y in
  let era := y' / 400 in
  let yoe := y' - era * 400 in
  let doy := (153 * (if 2 <? m then m - 3 else m + 9) + 2) / 5 + d - 1 in
  let doe := yoe * 365 + yoe / 4 - yoe / 100 + doy in
  era * 146097 + doe - 719468.

(** ["%a, %d %b %Y %H:%M:%S GMT"] with every field at its full width *)
Definition strptime_rfc1123 (s : string) : Exc Time.datetime :=
  let f := fun n m : Z => substring (Z.to_nat n) (Z.to_nat m) s in
  let num := fun n m => PyStr.int_of_digits (f n m) in
  if (Z.of_nat (String.length s) =? 29)
     && String.eqb (f 3 2) ", " && String.eqb (f 7 1) " " && String.eqb (f 11 1) " "
     && String.eqb (f 16 1) " " && String.eqb (f 19 1) ":" && String.eqb (f 22 1) ":"
     && String.eqb (f 25 4) " GMT"
     && all_digits (f 5 2) && all_digits (f 12 4) && all_digits (f 17 2)
     && all_digits (f 20 2) && all_digits (f 23 2)
     && (1 <=? num 5 2) && (num 5 2 <=? 31) && (num 17 2 <? 24)
     && (num 20 2 <? 60) && (num 23 2 <? 62)
  then
    match index_of Time.weekday_names (f 0 3), index_of Time.month_names (f 8 3) with
    | Some _, Some m =>
        Ok ((((days_from_civil (num 12 4) (m + 1) (num 5 2) * 24
               + num 17 2) * 60 + num 20 2) * 60 + num 23 2)
            * Time.us_per_second)
    | _, _ => Raise ValueError
    end
  else Raise ValueError.

(** a publication class: the body of a JSON update becomes the title *)
Definition Book : ResourceClass :=
  mkClass BasePublicResource "Book" "library" (Some "books")
          [DataType.json] [DataType.json]
          (fun update_string self now =>
             ret (true, mkEntity (key self) (last_modified self) (ha1 self)
                                 (owner_key_property self) (class_module self)
                                 (catalog self)
                                 (<["title" := update_string]> (fields self))))
          (fun _ _ => ret tt)
          (fun self => "{" ++ PyStr.quoted "id" ++ ": " ++ PyStr.quoted (str (id_ self)) ++ "}")
          (fun _ => false)
          "".

(** the user class; an account whose [role] field is [admin] has
    administrator privileges *)
Definition Account : ResourceClass :=
  mkClass BaseUser "Account" "library" (Some "accounts")
          [DataType.json] [DataType.json]
          (fun _ self _ => ret (false, self))
          (fun _ _ => ret tt)
          (fun self => "{" ++ PyStr.quoted "username" ++ ": "
                       ++ PyStr.quoted (str (id_ self)) ++ "}")
          (fun self => bool_decide (fields self !! "role" = Some "admin"))
          "tests@firstflamingo.com".

Definition books : Handler := mkHandler Book Account.
Definition accounts : Handler := mkHandler Account Account.

(** 2014-05-06 12:00:00 UTC and a few instants after it *)
Definition noon : Time.datetime := 1399377600 * Time.us_per_second.
Definition after_noon (minutes seconds : Z) : Time.datetime :=
  noon + Time.timedelta_minutes minutes + Time.timedelta_seconds seconds.

Definition user_entity (n : Z) (password role : string) (t : Time.datetime) : Entity :=
  mkEntity ("Account", IdInt n) (Some t)
           (Some (Utils.md5_hash [PyStr.str_of_int n; realm Account; password]))
           None "" None {["role" := role]}.

Definition book_entity (name title : string) (t : Time.datetime) : Entity :=
  mkEntity ("Book", IdStr name) (Some t) None None "" None {["title" := title]}.

Definition admin : Entity := user_entity 1 "secret" "admin" noon.
Definition reader : Entity := user_entity 2 "hunter2" "member" noon.
Definition moby : Entity := book_entity "moby" "Moby Dick" (after_noon 1 0 + 250000).
Definition emma : Entity := book_entity "emma" "Emma" (after_noon 2 0).

Definition store_of (l : list Entity) : gmap Key Entity :=
  list_to_map (map (fun e => (key e, e)) l).

Definition library : World := mkWorld (store_of [admin; reader; moby; emma]) ∅.

(** a class with 1001 instances, instance [n] last modified [n] seconds
    after noon *)
Definition numbered_book (n : nat) : Entity :=
  book_entity ("b" ++ PyStr.str_of_int (Z.of_nat n)) "untitled"
              (after_noon 0 (Z.of_nat n)).

Definition crowd : World := mkWorld (store_of (map numbered_book (seq 0 1001))) ∅.

(** the catalog of [Book], before anything is cached in it *)
Definition empty_book_catalog : Entity :=
  set_class_module "library" (instance Catalog_kind (IdStr "Book")).

(** the [Authorization] header a client builds from a challenge
    ([ffe_utils.auth_header]) *)
Definition digest_header (user : Entity) (method uri nonce opaque : string) : string :=
  let ha2 := Utils.md5_hash [method; uri] in
  let nc := "00000001" in
  let cnonce := "0a4f113b" in
  let response :=
    Utils.md5_hash [default "" (ha1 user); nonce; nc; cnonce; "auth"; ha2] in
  "Digest " ++ Utils.paramslist_from_dict
    [("realm", realm Account); ("qop", "auth"); ("nonce", nonce); ("opaque", opaque);
     ("username", str (id_ user)); ("uri", uri); ("nc", nc); ("cnonce", cnonce);
     ("response", response)].

(** *** An importer of stations

    Objects are numbered; the subclass state holds their names, the next
    free number, the stations known before the import and the [id]
    attribute of the element being read. *)

Record Stations : Type := mkStations {
  names : gmap nat string;
  next_object : nat;
  known : gmap string nat;
  current_id : option string
}.

Definition station_active (name : string) : bool := String.eqb name "station".

Definition station_start (name : string) (attrs : list (string * string))
    (s : Stations) : Stations :=
  if station_active name
  then mkStations (names s) (next_object s) (known s)
                  (snd <$> List.find (fun kv => String.eqb kv.1 "id") attrs)
  else s.

Definition station_create (k : string) (chars : list string) (s : Stations)
  : nat * Stations :=
  (next_object s,
   mkStations (<[next_object s := ""]> (names s)) (S (next_object s)) (known s)
              (current_id s)).

Definition station_update (o : nat) (name : string) (chars : list string)
    (s : Stations) : bool * Stations :=
  if bool_decide (names s !! o = Some (String.concat "" chars)) then (false, s)
  else (true, mkStations (<[o := String.concat "" chars]> (names s)) (next_object s)
                         (known s) (current_id s)).

(** stations A (object 0) and C (object 1) exist before the import *)
Definition two_stations : Stations :=
  mkStations {[0%nat := "Alpha"; 1%nat := "Gamma"]} 2 {["A" := 0%nat; "C" := 1%nat]} None.

Definition station (id name : string) : list Importer.Event :=
  [Importer.StartElement "station" [("id", id)]; Importer.Characters name;
   Importer.EndElement "station"].

(** a feed with stations A and B, and B a second time under another name *)
Definition stations_feed : list Importer.Event :=
  [Importer.StartElement "stations" []]
  ++ station "A" "Alpha" ++ station "B" "Beta" ++ station "B" "Bravo"
  ++ [Importer.EndElement "stations"].

Definition import_stations (feed : list Importer.Event) (s : Stations)
  : @Importer.State string _ _ nat Stations :=
  Importer.run nat Stations station_active known (fun _ s => current_id s)
               station_create station_start (fun _ _ s => s) station_update
               (fun _ _ => true) feed s.

End Scenario.

(** ** [ffe_time.py]: the time zones

    An aware [datetime] is its wall-clock reading, a [Time.datetime], in a
    zone that the context names; a zone is its [utcoffset] and [dst]. *)

Module Zone.

Definition timedelta_days (n : Z) : Z := n * 86400 * Time.us_per_second.
Definition timedelta_hours (n : Z) : Z := n * 3600 * Time.us_per_second.

(** [datetime(year, month, day)] *)
Definition midnight (year month day : Z) : Time.datetime :=
  Scenario.days_from_civil year month day * 86400 * Time.us_per_second.

(** [UTC.utcoffset] and [UTC.dst] *)
Definition UTC_utcoffset (dt : Time.datetime) : Z := 0.
Definition UTC_dst (dt : Time.datetime) : Z := 0.

(** [self.dston] and [self.dstoff] as [CET.dst] sets them for a year *)
Definition dston (year : Z) : Time.datetime :=
  let d := midnight year 4 1 in
  d - timedelta_days (Time.weekday d + 1).

Definition dstoff (year : Z) : Time.datetime :=
  let d := midnight year 11 1 in
  d - timedelta_days (Time.weekday d + 1).

(** [CET.dst(dt)] *)
Definition CET_dst (dt : Time.datetime) : Z :=
  if (dston (Time.year dt) <=? dt) && (dt <? dstoff (Time.year dt))
  then timedelta_hours 1
  else 0.

(** [CET.utcoffset(dt)] *)
Definition CET_utcoffset (dt : Time.datetime) : Z := timedelta_hours 1 + CET_dst dt.

(** [tzinfo.fromutc(dt)], which neither zone overrides: the standard offset
    is added, then the daylight saving time found at the result *)
Definition fromutc (utcoffset dst : Time.datetime -> Z) (dt : Time.datetime)
  : Time.datetime :=
  let dtoff := utcoffset dt in
  let dtdst := dst dt in
  let delta := dtoff - dtdst in
  if delta =? 0 then dt + dtdst
  else
    let dt := dt + delta in
    dt + dst dt.

(** [dt.astimezone(tz)] for a [dt] whose own zone gives it [myoffset] *)
Definition astimezone (myoffset : Z) (utcoffset dst : Time.datetime -> Z)
    (dt : Time.datetime) : Time.datetime :=
  fromutc utcoffset dst (dt - myoffset).

(** [cet_from_utc(a_time)] *)
Definition cet_from_utc (a_time : Time.datetime) : Time.datetime :=
  astimezone (UTC_utcoffset a_time) CET_utcoffset CET_dst a_time.

(** [utc_from_cet(a_time)] *)
Definition utc_from_cet (a_time : Time.datetime) : Time.datetime :=
  astimezone (CET_utcoffset a_time) UTC_utcoffset UTC_dst a_time.

End Zone.

(** * Vocabulary of the properties

    What the statements below speak of: readings of the headers, runs of
    operations, the relations between stores and catalog texts, and the
    requests used to run the model on the deployment above. *)

Import Res Model Handler Scenario.

(** the media types the [Accept] header lists, in the order it lists them:
    each comma-separated element up to its first [;] *)
Definition accept_entries (req : Request) : list string :=
  match accept req with
  | None => []
  | Some accept_string =>
      map (fun a => nth 0 (PyStr.split ";" a) "") (PyStr.split "," accept_string)
  end.

(** What [get] guarantees about the output type, for the response [resp] to
    request [req]: with [writable] the writable types of what is served (the
    catalog, written as JSON, for a class-level path; the resource class for
    an instance),
    - a 406 response means that no entry of the Accept list has a writable
      type;
    - a 200 response carries the type of the first entry of the Accept list
      that is writable;
    - when no entry is writable, the request ends with 406 unless one of the
      earlier checks of [get] already ended it (401, 405, 404 or 304). *)
Definition negotiated (h : Handler) (req : Request) (resp : Response) : Prop :=
  ∃ p, parse_request_path (resource_class h) (path req) = Ok p ∧
    let writable := if valid_class_url p then [DataType.json]
                    else writable_data_types (resource_class h) in
    (status_int resp = 406 →
       ∀ e dt, e ∈ accept_entries req → DataType.type_for_string e = Some dt →
               dt ∉ writable)
    ∧ (status_int resp = 200 →
       ∃ before e after dt,
         accept_entries req = (before ++ e :: after)%list
         ∧ DataType.type_for_string e = Some dt ∧ dt ∈ writable
         ∧ (∀ e' dt', e' ∈ before → DataType.type_for_string e' = Some dt' →
                      dt' ∉ writable)
         ∧ response_content_type resp = DataType.s !! dt)
    ∧ ((∀ e dt, e ∈ accept_entries req → DataType.type_for_string e = Some dt →
                dt ∉ writable) →
       status_int resp ∈ [401; 405; 404; 304; 406]).

(** an anonymous GET of a book, preferring HTML over JSON *)
Definition get_moby : Request :=
  mkRequest "GET" "/api/books/moby" None None None
            (Some "text/html,application/json;q=0.9") None "".

Definition moby_as_json : Response :=
  mkResponse 200 [("Last-Modified", "Tue, 06 May 2014 12:01:00 GMT")]
             (Some "application/json")
             (Some (Text (Some ("{" ++ PyStr.quoted "id" ++ ": " ++ PyStr.quoted "moby" ++ "}")))).

(** the nonce test of [authenticate] on the parameters of the header of a
    request, at time [now] *)
Definition header_opaque_is_current (req : Request) (now : Time.datetime) : bool :=
  match authorization req with
  | Some auth_header =>
      let params := Utils.dict_from_paramslist auth_header in
      match params !! "nonce", params !! "opaque" with
      | Some nonce, Some opaque => opaque_is_current nonce opaque now
      | _, _ => false
      end
  | None => false
  end.

(** the validation calls made for one and the same request at the given
    times, one after the other *)
Fixpoint validate_many (h : Handler) (req : Request) (times : list Time.datetime)
    (w : World) : list (Exc (bool * option Entity)) * World :=
  match times with
  | [] => ([], w)
  | now :: later =>
      let '(r, w1) := authenticate h now req w in
      let '(rs, w2) := validate_many h req later w1 in
      (r :: rs, w2)
  end.

(** the request of the administrator, answering a challenge issued at noon
    with nonce 123 *)
Definition put_moby_header : string :=
  digest_header admin "PUT" "/api/books/moby" "123" (opaque_from_nonce "123" noon).

Definition replayed_put : Request :=
  mkRequest "PUT" "/api/books/moby" (Some put_moby_header) None None None
            (Some "application/json") "White Whale".

(** the twelve-minute bucket a time falls in, counted from the epoch; hours
    are whole multiples of it *)
Definition bucket (t : Time.datetime) : Z := Time.epoch_seconds t / 720.

(** the text whose MD5 digest is the opaque of [nonce] at time [t]: the
    components [md5_hash] joins with colons *)
Definition opaque_text (nonce : string) (t : Time.datetime) : string :=
  date_string t ++ ":" ++ nonce ++ ":" ++ "FDhgfliubnw".

(** the administrator's PUT of a new title, with the given
    [If-Unmodified-Since] header *)
Definition put_moby (unmodified_since : string) : Request :=
  mkRequest "PUT" "/api/books/moby" (Some put_moby_header) None
            (Some unmodified_since) None (Some "application/json") "White Whale".

(** where the catalog of a class is stored *)
Definition catalog_key (cls : ResourceClass) : Key :=
  (Catalog_kind, IdStr (class_name cls)).

(** a stored instance of the kind *)
Definition live (kind : string) (w : World) (e : Entity) : Prop :=
  (key e).1 = kind ∧ ∃ k, datastore w !! k = Some e.

(** the catalog dictionary of an instance: its identifier and its
    last-modified time cut to the second *)
Definition entry_of (e : Entity) (entry : CatalogEntry) : Prop :=
  entry_id entry = id_ e
  ∧ ∃ lm, last_modified e = Some lm
          ∧ entry_lm entry = Time.strftime_iso (Time.replace_microsecond_0 lm).

(** [array] is what the catalog builder writes for the stored instances of
    the kind, taken newest first (instances modified at the same instant in
    any order) *)
Definition serializes (kind : string) (w : World) (array : list CatalogEntry) : Prop :=
  ∃ l, l ≡ₚ query kind w ∧ StronglySorted newer_first l
       ∧ catalog_array (take 1000 l) = Ok array.

(** What a JSON read of a catalog [c] without cached text does at time [now]
    in stores [w]: the instances [listed] are the first 1000 stored
    instances of the cataloged class, newest first;  the array returned has
    one dictionary per listed instance, in that order, with its identifier
    and its last-modified time at second precision;  every listed instance
    is a stored instance of the class, and all of them are listed when the
    class has at most 1000;  the array is stored in the catalog under the
    catalog's key, and later reads, also through [Catalog.get] of the class
    the key names, return it as it is. *)
Definition catalog_rebuilt (c : Entity) (now : Time.datetime) (w : World) : Prop :=
  let kind := str (id_ c) in
  ∃ listed array c' w',
    Catalog_serialization_of_type c DataType.json now w = (Ok (Some array, c'), w')
    ∧ listed = take 1000 (merge_sort newer_first (query kind w))
    ∧ Forall2 entry_of listed array
    ∧ StronglySorted newer_first listed
    ∧ (∀ e, e ∈ listed → live kind w e)
    ∧ length listed = (1000 `min` length (query kind w))%nat
    ∧ ((length (query kind w) <= 1000)%nat → listed ≡ₚ query kind w)
    ∧ key c' = key c ∧ catalog c' = Some array
    ∧ datastore w' !! key c = Some c'
    ∧ (∀ now', Catalog_serialization_of_type c' DataType.json now' w'
               = (Ok (Some array, c'), w'))
    ∧ (∀ cls now', key c = catalog_key cls →
         (c0 <- Catalog_get cls now' ;;
          Catalog_serialization_of_type c0 DataType.json now') w'
         = (Ok (Some array, c'), w')).

(** what can be done to the instances of a publication class and to its
    catalog: the three mutations and a JSON read of the catalog *)
Inductive Op : Type :=
  | OpNew (identifier : option Ident)
  | OpPut (self : Entity)
  | OpDelete (self : Entity)
  | OpRead.

Definition is_mutation (op : Op) : bool :=
  match op with OpRead => false | _ => true end.

Definition apply_op (cls : ResourceClass) (now : Time.datetime) (op : Op) : M unit :=
  match op with
  | OpNew identifier => Model.new cls identifier now ;;; ret tt
  | OpPut self => Model.put cls self now ;;; ret tt
  | OpDelete self => Model.delete cls self now
  | OpRead =>
      c <- Catalog_get cls now ;;
      Catalog_serialization_of_type c DataType.json now ;;;
      ret tt
  end.

(** the stores after a sequence of operations, each at its own time; an
    operation that raises leaves the stores as they are at that point *)
Fixpoint run_ops (cls : ResourceClass) (ops : list (Time.datetime * Op))
    (w : World) : World :=
  match ops with
  | [] => w
  | (now, op) :: rest => run_ops cls rest (apply_op cls now op w).2
  end.

(** every entity is stored under its own key *)
Definition well_keyed (w : World) : Prop :=
  ∀ k e, datastore w !! k = Some e → key e = k.

(** the catalog of the class is stored and holds no text *)
Definition cleared (cls : ResourceClass) (w : World) : Prop :=
  ∃ c, datastore w !! catalog_key cls = Some c ∧ catalog c = None.

(** the text a stored catalog holds, if it holds one, is the serialization
    of the instances stored now *)
Definition catalog_fresh (cls : ResourceClass) (w : World) : Prop :=
  ∀ c array, datastore w !! catalog_key cls = Some c → catalog c = Some array →
             serializes (class_name cls) w array.

(** the state of the stations import when the second [B] is about to close *)
Definition before_second_B : @Importer.State string _ _ nat Stations :=
  import_stations
    ([Importer.StartElement "stations" []] ++ station "A" "Alpha"
     ++ station "B" "Beta"
     ++ [Importer.StartElement "station" [("id", "B")]; Importer.Characters "Bravo"])
    two_stations.

Definition end_station (st : @Importer.State string _ _ nat Stations)
  : @Importer.State string _ _ nat Stations :=
  Importer.endElement nat Stations station_active (fun _ s => current_id s)
                      station_create (fun _ _ s => s) station_update
                      (fun _ _ => true) "station" st.

(** ** Vocabulary of the further properties *)

(** the number of elements nested in each other along the deepest branch of
    a node; a string counts for nothing *)
Fixpoint height (n : Markup.Node) : nat :=
  match n with
  | Markup.Text _ => 0
  | Markup.Element _ _ content => S (list_max (map height content))
  end.

Definition is_element (n : Markup.Node) : bool :=
  match n with
  | Markup.Element _ _ _ => true
  | Markup.Text _ => false
  end.

(** a non-empty string of characters of one class *)
Definition is_token (p : ascii -> bool) (s : string) : bool :=
  negb (String.eqb s "") && forallb p (PyStr.chars s).

(** a parameter that [paramslist_from_dict] writes and [dict_from_paramslist]
    reads back whole: the key a word, the value made of word characters,
    [.], [@] and [/] *)
Definition plain_param (key value : string) : Prop :=
  is_token PyStr.is_word key = true ∧ is_token Utils.is_value_char value = true.

(** a request sent again with the given [Authorization] header *)
Definition answered (req : Request) (header : string) : Request :=
  mkRequest (method req) (path req) (Some header) (if_modified_since req)
            (if_unmodified_since req) (accept req) (content_type req) (body req).

(** the administrator's DELETE of a book, answering a challenge issued at
    noon with nonce 123 *)
Definition delete_moby : Request :=
  mkRequest "DELETE" "/api/books/moby"
            (Some (digest_header admin "DELETE" "/api/books/moby" "123"
                                 (opaque_from_nonce "123" noon)))
            None None None None "".

(** a reader's GET of their own account with the given [If-Modified-Since]
    header, answering a challenge issued at noon with nonce 123 *)
Definition get_own_account (modified_since : string) : Request :=
  mkRequest "GET" "/api/accounts/2"
            (Some (digest_header reader "GET" "/api/accounts/2" "123"
                                 (opaque_from_nonce "123" noon)))
            (Some modified_since) None (Some "application/json") None "".

(** * Properties *)

(** ** Resource locator *)

(** [valid_identifier] on a string succeeds exactly when the class pattern
    matches it, and then yields an identifier. *)
Lemma valid_identifier_string (b : Base) (s : string) :
  (regex_match (identifier_regex b) s = true
   ∧ ∃ i, valid_identifier b (Some (IdStr s)) = Ok (Some i))
  ∨ (regex_match (identifier_regex b) s = false
     ∧ valid_identifier b (Some (IdStr s)) = Raise NoValidIdentifierError).
Proof.
  destruct (regex_match (identifier_regex b) s) eqn:Hm; [left | right];
    (split; [reflexivity |]);
    destruct b; cbn [valid_identifier Resource_valid_identifier str];
    rewrite Hm; eauto.
Qed.

Ltac flags_settled :=
  eexists; split; [reflexivity |]; cbn;
  repeat match goal with
         | |- _ ∧ _ => split
         | |- _ ↔ _ => split
         | |- ¬ _ => intros [? ?]
         | |- is_Some (Some _) => eauto
         | |- _ → _ => intros ?
         | H : _ ∧ _ |- _ => destruct H
         | H : is_Some None |- _ => destruct H as [? ?]
         end;
  try lia; try discriminate; try congruence; try tauto.

(** [parse_request_path] returns, with at most one of the two flags set *)
Lemma parse_request_path_total (cls : ResourceClass) (request_path : string) :
  ∃ p, parse_request_path cls request_path = Ok p
    ∧ ¬ (valid_class_url p = true ∧ valid_resource_id p = true).
Proof.
  unfold parse_request_path.
  destruct (length (PyStr.split "/" request_path) <? 3)%nat; [flags_settled |].
  destruct (negb (bool_decide (Some (nth 2 (PyStr.split "/" request_path) "")
                               = url_name cls))); [flags_settled |].
  destruct (length (PyStr.split "/" request_path) =? 3)%nat; [flags_settled |].
  destruct (length (PyStr.split "/" request_path) =? 4)%nat; [| flags_settled].
  destruct (valid_identifier_string (base cls)
              (nth 3 (PyStr.split "/" request_path) ""))
    as [[Hm [i Hi]] | [Hm Hi]]; rewrite Hi; flags_settled.
Qed.

(** C6: [parse_request_path] never raises; the path is a class-level request
    exactly when it has three components and the class segment is the
    class's [url_name]; it is an instance request exactly when it has four
    components, the class segment matches and the identifier passes the
    class pattern; every other path (fewer than three components, another
    class segment, more than four components, a rejected identifier) sets
    neither flag; an identifier is only available for instance requests. *)
Theorem parse_request_path_outcomes (cls : ResourceClass) (request_path : string) :
  ∃ p, parse_request_path cls request_path = Ok p
    ∧ (valid_class_url p = true ↔
         length (PyStr.split "/" request_path) = 3%nat
         ∧ Some (nth 2 (PyStr.split "/" request_path) "") = url_name cls)
    ∧ (valid_resource_id p = true ↔
         length (PyStr.split "/" request_path) = 4%nat
         ∧ Some (nth 2 (PyStr.split "/" request_path) "") = url_name cls
         ∧ regex_match (identifier_regex (base cls))
                       (nth 3 (PyStr.split "/" request_path) "") = true)
    ∧ ¬ (valid_class_url p = true ∧ valid_resource_id p = true)
    ∧ (is_Some (resource_id p) ↔ valid_resource_id p = true).
Proof.
  unfold parse_request_path.
  set (comps := PyStr.split "/" request_path).
  destruct (length comps <? 3)%nat eqn:Hlt;
    [apply Nat.ltb_lt in Hlt; flags_settled | apply Nat.ltb_ge in Hlt].
  destruct (bool_decide (Some (nth 2 comps "") = url_name cls)) eqn:Hseg; cbn [negb];
    [apply bool_decide_eq_true in Hseg
    | apply bool_decide_eq_false in Hseg; flags_settled].
  destruct (length comps =? 3)%nat eqn:H3;
    [apply Nat.eqb_eq in H3; flags_settled | apply Nat.eqb_neq in H3].
  destruct (length comps =? 4)%nat eqn:H4;
    [apply Nat.eqb_eq in H4 | apply Nat.eqb_neq in H4; flags_settled].
  destruct (valid_identifier_string (base cls) (nth 3 comps ""))
    as [[Hm [i Hi]] | [Hm Hi]]; rewrite Hi; flags_settled.
Qed.

(** paths of the library: a class-level request, an instance request, a
    rejected identifier, a path that is too long and one that is too short;
    an account number is read as an integer *)
Example parse_request_path_examples :
  parse_request_path Book "/api/books" = Ok (mkParsed true false None)
  ∧ parse_request_path Book "/api/books/moby"
    = Ok (mkParsed false true (Some (IdStr "moby")))
  ∧ parse_request_path Book "/api/books/moby-dick" = Ok (mkParsed false false None)
  ∧ parse_request_path Book "/api/books/" = Ok (mkParsed false false None)
  ∧ parse_request_path Book "/api/books/moby/1" = Ok (mkParsed false false None)
  ∧ parse_request_path Book "/api/shelves/moby" = Ok (mkParsed false false None)
  ∧ parse_request_path Book "/api" = Ok (mkParsed false false None)
  ∧ parse_request_path Account "/api/accounts/007"
    = Ok (mkParsed false true (Some (IdInt 7))).
Proof. vm_compute. repeat split. Qed.

(** ** Content negotiation *)

Lemma acceptable_types_omap (accept_list : list string) :
  acceptable_types accept_list
  = omap DataType.type_for_string
         (map (fun a => nth 0 (PyStr.split ";" a) "") accept_list).
Proof.
  induction accept_list as [| a l IH]; [reflexivity |].
  cbn [acceptable_types map omap].
  destruct (DataType.type_for_string (nth 0 (PyStr.split ";" a) "")) eqn:E;
    cbn [omap list_omap]; rewrite E; by rewrite IH.
Qed.

Lemma first_writable_omap (writable : list nat) (entries : list string) :
  match first_writable writable (omap DataType.type_for_string entries) with
  | Some dt =>
      ∃ before e after,
        entries = (before ++ e :: after)%list
        ∧ DataType.type_for_string e = Some dt ∧ dt ∈ writable
        ∧ ∀ e' dt', e' ∈ before → DataType.type_for_string e' = Some dt' →
                    dt' ∉ writable
  | None =>
      ∀ e dt, e ∈ entries → DataType.type_for_string e = Some dt → dt ∉ writable
  end.
Proof.
  induction entries as [| e l IH]; cbn [omap list_omap first_writable].
  - intros e dt He. by apply elem_of_nil in He.
  - destruct (DataType.type_for_string e) as [dt |] eqn:He;
      cbn [first_writable].
    + destruct (bool_decide (dt ∈ writable)) eqn:Hw.
      * apply bool_decide_eq_true in Hw.
        exists [], e, l. repeat split; try done.
        intros e' dt' Hin. by apply elem_of_nil in Hin.
      * apply bool_decide_eq_false in Hw. fold (omap DataType.type_for_string l).
        destruct (first_writable writable (omap DataType.type_for_string l)) as [dt0 |].
        -- destruct IH as (before & e0 & after & -> & Ht & Hin & Hbefore).
           exists (e :: before), e0, after. repeat split; try done.
           intros e' dt' [-> | Hin']%elem_of_cons Ht'; [congruence | eauto].
        -- intros e' dt' [-> | Hin']%elem_of_cons Ht'; [congruence | eauto].
    + fold (omap DataType.type_for_string l).
      destruct (first_writable writable (omap DataType.type_for_string l)) as [dt0 |].
      * destruct IH as (before & e0 & after & -> & Ht & Hin & Hbefore).
        exists (e :: before), e0, after. repeat split; try done.
        intros e' dt' [-> | Hin']%elem_of_cons Ht'; [congruence | eauto].
      * intros e' dt' [-> | Hin']%elem_of_cons Ht'; [congruence | eauto].
Qed.

(** the choice made by [output_data_type]: the first entry of the Accept
    list whose type is writable, and none when no entry has a writable type *)
Lemma output_data_type_first (writable : list nat) (req : Request) :
  match output_data_type writable req with
  | Some dt =>
      ∃ before e after,
        accept_entries req = (before ++ e :: after)%list
        ∧ DataType.type_for_string e = Some dt ∧ dt ∈ writable
        ∧ ∀ e' dt', e' ∈ before → DataType.type_for_string e' = Some dt' →
                    dt' ∉ writable
  | None =>
      ∀ e dt, e ∈ accept_entries req → DataType.type_for_string e = Some dt →
              dt ∉ writable
  end.
Proof.
  unfold output_data_type, accept_entries.
  destruct (accept req) as [a |].
  - rewrite acceptable_types_omap. apply first_writable_omap.
  - intros e dt He. by apply elem_of_nil in He.
Qed.

Ltac run_handler H :=
  repeat (simplify_eq;
          match type of H with
          | context [let (_, _) := ?x in _] => destruct x as [? ?] eqn:?
          | context [match ?x with _ => _ end] => destruct x eqn:?
          | context [if ?x then _ else _] => destruct x eqn:?
          end; cbn beta iota zeta delta [fst snd] in H).



(** entries are compared as they stand: the list order decides, whatever
    the [q] values say, and an entry that starts with a blank names no type *)
Example output_data_type_examples :
  let asking a := mkRequest "GET" "/api/books/moby" None None None (Some a) None "" in
  output_data_type [DataType.json; DataType.xml]
                   (asking "application/xml;q=0.1,application/json") = Some DataType.xml
  ∧ output_data_type [DataType.json] (asking "application/xml,application/json")
    = Some DataType.json
  ∧ output_data_type [DataType.json] (asking "text/html, application/json") = None
  ∧ output_data_type [DataType.json] (asking "*/*") = None.
Proof. vm_compute. repeat split. Qed.

(** ** Digest authentication *)

(** [cls.get] reads the store and leaves it as it is. *)
Lemma get_readonly (cls : ResourceClass) (i : Ident) (w : World) :
  (Model.get cls i w).2 = w.
Proof.
  unfold Model.get, bind, lift, get_by_id, ret.
  destruct (valid_identifier (base cls) (Some i)) as [[i' |] | e]; reflexivity.
Qed.

(** [authenticate] leaves the stores as they are. *)
Lemma authenticate_readonly (h : Handler) (now : Time.datetime) (req : Request)
    (w : World) :
  (authenticate h now req w).2 = w.
Proof.
  unfold authenticate, bind, lift, ret, try_except.
  repeat case_match; simplify_eq/=; try reflexivity;
    match goal with
    | H : Model.get ?c ?i ?w = (_, ?w') |- _ =>
        pose proof (get_readonly c i w) as Hro; rewrite H in Hro; exact Hro
    end.
Qed.

(** [authenticate] depends on the time only through the nonce test. *)
Lemma authenticate_time (h : Handler) (now now' : Time.datetime) (req : Request)
    (w : World) :
  header_opaque_is_current req now = header_opaque_is_current req now' →
  authenticate h now req w = authenticate h now' req w.
Proof.
  unfold header_opaque_is_current, authenticate.
  destruct (authorization req) as [auth_header |]; [| reflexivity].
  destruct (String.eqb auth_header ""); [reflexivity |]. cbv zeta.
  destruct (Utils.dict_from_paramslist auth_header !! "username"); [| reflexivity].
  destruct (Utils.dict_from_paramslist auth_header !! "nonce"); [| reflexivity].
  destruct (Utils.dict_from_paramslist auth_header !! "cnonce"); [| reflexivity].
  destruct (Utils.dict_from_paramslist auth_header !! "nc"); [| reflexivity].
  destruct (Utils.dict_from_paramslist auth_header !! "realm"); [| reflexivity].
  destruct (Utils.dict_from_paramslist auth_header !! "qop"); [| reflexivity].
  destruct (Utils.dict_from_paramslist auth_header !! "uri"); [| reflexivity].
  destruct (Utils.dict_from_paramslist auth_header !! "opaque"); [| reflexivity].
  destruct (Utils.dict_from_paramslist auth_header !! "response"); [| reflexivity].
  intros ->. reflexivity.
Qed.

(** a successful [authenticate] found the nonce current *)
Lemma authenticate_accepts_current (h : Handler) (now : Time.datetime)
    (req : Request) (w : World) (u : option Entity) :
  (authenticate h now req w).1 = Ok (true, u) →
  header_opaque_is_current req now = true.
Proof.
  unfold header_opaque_is_current, authenticate, bind, lift, ret, try_except.
  repeat case_match; simplify_eq/=; try discriminate; try done;
    intros; simplify_eq; try done.
  all: by destruct (opaque_is_current _ _ now).
Qed.

(** C3 (as the code has it): authentication keeps no nonce state - neither
    [authenticate] nor [require_authentication] changes the stores - and
    consequently a Digest header that is accepted once is accepted at every
    validation call made while its opaque is current (the opaque of the
    present time or of five minutes earlier), however many calls there are:
    replay is bounded by time only, not by count. *)
Theorem authenticate_stateless_replay
    (h : Handler) (req : Request) (w : World) (now : Time.datetime)
    (u : option Entity) (times : list Time.datetime)
    (Haccepted : (authenticate h now req w).1 = Ok (true, u))
    (Hcurrent : Forall (fun t => header_opaque_is_current req t = true) times) :
  (∀ t, (authenticate h t req w).2 = w)
  ∧ (∀ t rnd, (require_authentication h t rnd w).2 = w)
  ∧ validate_many h req times w = (map (fun _ => Ok (true, u)) times, w).
Proof.
  split; [intros t; apply authenticate_readonly |].
  split; [reflexivity |].
  pose proof (authenticate_accepts_current h now req w u Haccepted) as Hnow.
  induction Hcurrent as [| t later Ht _ IH]; [reflexivity |].
  cbn [validate_many map].
  rewrite (authenticate_time h t now req w) by congruence.
  pose proof (authenticate_readonly h now req w) as Hro.
  destruct (authenticate h now req w) as [r w1]. cbn in Hro, Haccepted. subst.
  by rewrite IH.
Qed.

Lemma authenticate_stateless_replay_witness :
  validate_many books replayed_put
                [after_noon 0 1; after_noon 0 2; after_noon 3 0; after_noon 16 59]
                library
  = (map (fun _ => Ok (true, Some admin))
         [after_noon 0 1; after_noon 0 2; after_noon 3 0; after_noon 16 59],
     library).
Proof.
  apply (authenticate_stateless_replay books replayed_put library noon (Some admin)).
  - vm_compute; reflexivity.
  - repeat constructor; vm_compute; reflexivity.
Defined.

(** C3, counterexample to the claim as stated: the identical header is
    accepted three times in a row, within three seconds of the challenge. *)
Lemma replay_accepted_three_times :
  ¬ (∀ (h : Handler) (req : Request) (w : World) (t1 t2 t3 : Time.datetime),
       header_opaque_is_current req t1 = true →
       header_opaque_is_current req t2 = true →
       header_opaque_is_current req t3 = true →
       ¬ (∃ u, validate_many h req [t1; t2; t3] w
               = ([Ok (true, u); Ok (true, u); Ok (true, u)], w))).
Proof.
  intros Hclaim.
  apply (Hclaim books replayed_put library
                (after_noon 0 1) (after_noon 0 2) (after_noon 0 3));
    try (vm_compute; reflexivity).
  exists (Some admin). vm_compute; reflexivity.
Qed.

(** *** The time bucket of an opaque *)

Lemma minute_bucket (t : Time.datetime) : Time.minute t / 12 = bucket t mod 5.
Proof.
  unfold Time.minute, bucket. generalize (Time.epoch_seconds t). intros s.
  Z.div_mod_to_equations. lia.
Qed.

(** the string hashed into the opaque is the same all over a bucket *)
Lemma date_string_bucket (t1 t2 : Time.datetime) :
  bucket t1 = bucket t2 → date_string t1 = date_string t2.
Proof.
  intros Hb.
  assert (Hd : Time.epoch_days t1 = Time.epoch_days t2).
  { unfold bucket, Time.epoch_days in *.
    revert Hb. generalize (Time.epoch_seconds t1) (Time.epoch_seconds t2).
    intros s1 s2 Hb. Z.div_mod_to_equations. lia. }
  assert (Hh : Time.hour t1 = Time.hour t2).
  { unfold bucket, Time.hour in *.
    revert Hb. generalize (Time.epoch_seconds t1) (Time.epoch_seconds t2).
    intros s1 s2 Hb. Z.div_mod_to_equations. lia. }
  unfold date_string, Time.strftime_YmdH, Time.strftime_Ymd, Time.strftime_H,
    Time.year, Time.month, Time.day.
  by rewrite !minute_bucket, Hd, Hh, Hb.
Qed.

Lemma opaque_bucket (nonce : string) (t1 t2 : Time.datetime) :
  bucket t1 = bucket t2 → opaque_from_nonce nonce t1 = opaque_from_nonce nonce t2.
Proof. intros Hb. unfold opaque_from_nonce. by rewrite (date_string_bucket t1 t2). Qed.

Lemma opaque_is_current_here (nonce : string) (t now : Time.datetime) :
  bucket now = bucket t ∨ bucket (now - Time.timedelta_minutes 5) = bucket t →
  opaque_is_current nonce (opaque_from_nonce nonce t) now = true.
Proof.
  intros [Hb | Hb]; unfold opaque_is_current;
    rewrite <- (opaque_bucket nonce _ _ Hb).
  - by rewrite String.eqb_refl.
  - destruct (String.eqb _ (opaque_from_nonce nonce now)); [reflexivity |].
    cbn. by rewrite String.eqb_refl.
Qed.

Lemma epoch_seconds_shift (t : Time.datetime) (m s : Z) :
  Time.epoch_seconds (t + Time.timedelta_minutes m + Time.timedelta_seconds s)
  = Time.epoch_seconds t + (60 * m + s).
Proof.
  unfold Time.epoch_seconds, Time.timedelta_minutes, Time.timedelta_seconds,
    Time.us_per_second.
  replace (t + m * 60 * 1000000 + s * 1000000) with (t + (60 * m + s) * 1000000) by lia.
  by rewrite Z.div_add.
Qed.

Lemma bucket_shift (t : Time.datetime) (m s : Z) :
  bucket (t + Time.timedelta_minutes m + Time.timedelta_seconds s)
  = (Time.epoch_seconds t + (60 * m + s)) / 720.
Proof. unfold bucket. by rewrite epoch_seconds_shift. Qed.

Lemma bucket_shift_minutes (t : Time.datetime) (m : Z) :
  bucket (t + Time.timedelta_minutes m) = (Time.epoch_seconds t + 60 * m) / 720.
Proof.
  replace (t + Time.timedelta_minutes m)
    with (t + Time.timedelta_minutes m + Time.timedelta_seconds 0)
    by (unfold Time.timedelta_seconds; lia).
  rewrite bucket_shift. f_equal. lia.
Qed.

Lemma chars_app (a b : string) :
  PyStr.chars (a ++ b) = (PyStr.chars a ++ PyStr.chars b)%list.
Proof. induction a as [| c a IH]; simpl; [reflexivity | f_equal; exact IH]. Qed.

Lemma chars_inj (a b : string) : PyStr.chars a = PyStr.chars b → a = b.
Proof.
  revert b. induction a as [| c a IH]; intros [| d b] H; cbn in H;
    try discriminate; [reflexivity |].
  injection H as -> H. by rewrite (IH b H).
Qed.

Lemma append_cancel_r (a b tail : string) : a ++ tail = b ++ tail → a = b.
Proof.
  intros H. apply chars_inj.
  apply (f_equal PyStr.chars) in H. rewrite !chars_app in H.
  by apply app_inv_tail in H.
Qed.

Lemma append_last_inj (a b : string) (c d : ascii) :
  a ++ String c "" = b ++ String d "" → c = d.
Proof.
  intros H. apply (f_equal PyStr.chars) in H. rewrite !chars_app in H.
  cbn in H. apply app_inj_tail in H. tauto.
Qed.

Lemma small_digit (n : Z) :
  0 <= n < 5 → PyStr.str_of_int n = String (PyStr.digit_char n) "".
Proof.
  intros Hn.
  assert (n = 0 ∨ n = 1 ∨ n = 2 ∨ n = 3 ∨ n = 4) as [-> | [-> | [-> | [-> | ->]]]]
    by lia; reflexivity.
Qed.

Lemma small_digit_inj (n m : Z) :
  0 <= n < 5 → 0 <= m < 5 → PyStr.digit_char n = PyStr.digit_char m → n = m.
Proof.
  intros Hn Hm.
  assert (n = 0 ∨ n = 1 ∨ n = 2 ∨ n = 3 ∨ n = 4) as [-> | [-> | [-> | [-> | ->]]]]
    by lia;
  assert (m = 0 ∨ m = 1 ∨ m = 2 ∨ m = 3 ∨ m = 4) as [-> | [-> | [-> | [-> | ->]]]]
    by lia; vm_compute; congruence.
Qed.

(** the strings hashed for two times differ when the buckets of the times
    differ within the hour *)
Lemma date_string_differs (t1 t2 : Time.datetime) :
  bucket t1 mod 5 ≠ bucket t2 mod 5 → date_string t1 ≠ date_string t2.
Proof.
  intros Hb Heq. apply Hb. unfold date_string in Heq.
  rewrite !minute_bucket in Heq.
  rewrite !small_digit in Heq by (apply Z.mod_pos_bound; lia).
  apply append_last_inj in Heq.
  apply small_digit_inj in Heq; [exact Heq | |]; apply Z.mod_pos_bound; lia.
Qed.

(** the opaque is the MD5 digest of [opaque_text] *)
Lemma opaque_text_digest (nonce : string) (t : Time.datetime) :
  opaque_from_nonce nonce t = MD5.hexdigest (opaque_text nonce t).
Proof. reflexivity. Qed.

(** the texts hashed for two times differ when the buckets of the times
    differ within the hour *)
Lemma opaque_text_differs (nonce : string) (t1 t2 : Time.datetime) :
  bucket t1 mod 5 ≠ bucket t2 mod 5 → opaque_text nonce t1 ≠ opaque_text nonce t2.
Proof.
  intros Hb Hm. apply append_cancel_r in Hm. by apply date_string_differs in Hm.
Qed.

(** the test of [authenticate], in terms of the digests it compares *)
Lemma opaque_is_current_digests (nonce : string) (t now : Time.datetime) :
  opaque_is_current nonce (opaque_from_nonce nonce t) now = true
  ↔ MD5.hexdigest (opaque_text nonce t) = MD5.hexdigest (opaque_text nonce now)
    ∨ MD5.hexdigest (opaque_text nonce t)
      = MD5.hexdigest (opaque_text nonce (now - Time.timedelta_minutes 5)).
Proof.
  unfold opaque_is_current. rewrite !opaque_text_digest.
  destruct (String.eqb_spec (MD5.hexdigest (opaque_text nonce t))
                            (MD5.hexdigest (opaque_text nonce now))) as [E1 | E1];
    cbn [negb]; [tauto |].
  destruct (String.eqb_spec (MD5.hexdigest (opaque_text nonce t))
              (MD5.hexdigest (opaque_text nonce (now - Time.timedelta_minutes 5))))
    as [E2 | E2]; cbn [negb]; [tauto |].
  split; [discriminate | tauto].
Qed.

(** the opaque of nonce 123 in the [j]-th bucket from noon on *)
Lemma opaque_of_bucket (t : Time.datetime) (j : Z) :
  bucket t = bucket noon + j →
  opaque_from_nonce "123" t = opaque_from_nonce "123" (after_noon (12 * j) 0).
Proof.
  intros Hb. apply opaque_bucket. rewrite Hb. unfold after_noon.
  rewrite bucket_shift. unfold bucket.
  replace (Time.epoch_seconds noon) with (1399377600) by (vm_compute; reflexivity).
  Z.div_mod_to_equations. lia.
Qed.

Lemma noon_hour_seconds (T : Time.datetime) :
  noon <= T < noon + Time.timedelta_minutes 60 →
  1399377600 <= Time.epoch_seconds T < 1399377600 + 3600.
Proof.
  unfold Time.epoch_seconds, noon, Time.timedelta_minutes, Time.us_per_second.
  intros HT. Z.div_mod_to_equations. lia.
Qed.

(** the digests of the deployment tell the buckets from noon on apart: an
    opaque of nonce 123 issued in the hour from noon is rejected 25 minutes
    later *)
Lemma rejected_after_25_minutes (T : Time.datetime) :
  noon <= T < noon + Time.timedelta_minutes 60 →
  opaque_is_current "123" (opaque_from_nonce "123" T) (T + Time.timedelta_minutes 25)
  = false.
Proof.
  intros Hs%noon_hour_seconds.
  assert (Hn : bucket noon = 1943580) by (vm_compute; reflexivity).
  set (j := bucket T - bucket noon).
  set (j1 := bucket (T + Time.timedelta_minutes 25) - bucket noon).
  set (j2 := bucket (T + Time.timedelta_minutes 25 - Time.timedelta_minutes 5)
             - bucket noon).
  assert (Hj : 0 <= j < 5).
  { subst j. rewrite Hn. unfold bucket. Z.div_mod_to_equations. lia. }
  assert (Hj1 : j + 2 <= j1 <= j + 3).
  { subst j j1. rewrite bucket_shift_minutes, Hn. unfold bucket.
    Z.div_mod_to_equations. lia. }
  assert (Hj2 : j + 1 <= j2 <= j + 2).
  { subst j j2.
    replace (T + Time.timedelta_minutes 25 - Time.timedelta_minutes 5)
      with (T + Time.timedelta_minutes 20)
      by (unfold Time.timedelta_minutes; lia).
    rewrite bucket_shift_minutes, Hn. unfold bucket.
    Z.div_mod_to_equations. lia. }
  unfold opaque_is_current.
  rewrite (opaque_of_bucket T j) by (subst j; lia).
  rewrite (opaque_of_bucket (T + Time.timedelta_minutes 25) j1) by (subst j1; lia).
  rewrite (opaque_of_bucket (T + Time.timedelta_minutes 25 - Time.timedelta_minutes 5) j2)
    by (subst j2; lia).
  clearbody j j1 j2. clear -Hj Hj1 Hj2.
  assert (j = 0 ∨ j = 1 ∨ j = 2 ∨ j = 3 ∨ j = 4) as [-> | [-> | [-> | [-> | ->]]]]
    by lia;
  (assert (j1 = 2 ∨ j1 = 3 ∨ j1 = 4 ∨ j1 = 5 ∨ j1 = 6 ∨ j1 = 7)
     as [-> | [-> | [-> | [-> | [-> | ->]]]]] by lia);
  try lia;
  (assert (j2 = 1 ∨ j2 = 2 ∨ j2 = 3 ∨ j2 = 4 ∨ j2 = 5 ∨ j2 = 6)
     as [-> | [-> | [-> | [-> | [-> | ->]]]]] by lia);
  try lia; vm_compute; reflexivity.
Qed.

(** and, when issued later than five minutes into its bucket, already
    11m59s later *)
Lemma rejected_after_11m59s (T : Time.datetime) :
  noon <= T < noon + Time.timedelta_minutes 60 →
  300 < Time.epoch_seconds T mod 720 →
  opaque_is_current "123" (opaque_from_nonce "123" T)
    (T + Time.timedelta_minutes 11 + Time.timedelta_seconds 59) = false.
Proof.
  intros Hs%noon_hour_seconds Hlate.
  assert (Hn : bucket noon = 1943580) by (vm_compute; reflexivity).
  set (j := bucket T - bucket noon).
  assert (Hj : 0 <= j < 5).
  { subst j. rewrite Hn. unfold bucket. Z.div_mod_to_equations. lia. }
  unfold opaque_is_current.
  rewrite (opaque_of_bucket T j) by (subst j; lia).
  rewrite (opaque_of_bucket (T + Time.timedelta_minutes 11 + Time.timedelta_seconds 59)
             (j + 1)).
  2: { subst j. rewrite bucket_shift, Hn. unfold bucket.
       Z.div_mod_to_equations. lia. }
  rewrite (opaque_of_bucket (T + Time.timedelta_minutes 11 + Time.timedelta_seconds 59
                             - Time.timedelta_minutes 5) (j + 1)).
  2: { subst j.
       replace (T + Time.timedelta_minutes 11 + Time.timedelta_seconds 59
                - Time.timedelta_minutes 5)
         with (T + Time.timedelta_minutes 6 + Time.timedelta_seconds 59)
         by (unfold Time.timedelta_minutes; lia).
       rewrite bucket_shift, Hn. unfold bucket. Z.div_mod_to_equations. lia. }
  clearbody j. clear -Hj.
  assert (j = 0 ∨ j = 1 ∨ j = 2 ∨ j = 3 ∨ j = 4) as [-> | [-> | [-> | [-> | ->]]]]
    by lia; vm_compute; reflexivity.
Qed.

(** C2 (as the code has it): an opaque computed at time [T] is accepted at
    [T], and at any time that lies, itself or five minutes earlier, in the
    twelve-minute bucket of [T]; at [T] + 11m59s it is therefore accepted
    when [T] is at most five minutes into its bucket.  Acceptance at any
    time is the equality of the MD5 digest of the text hashed at [T] with
    the digest of the text hashed then or of the one hashed five minutes
    before; when [T] is later in its bucket, at [T] + 11m59s, and in every
    case at [T] + 25m, both of these texts differ from the text hashed at
    [T], so that the opaque is accepted there only if MD5 gives two of these
    different texts the same digest.  For nonce 123 and every [T'] in the hour from
    noon of the deployment it does not: the opaque is rejected at [T'] + 25m,
    and at [T'] + 11m59s when [T'] is later than five minutes into its bucket. *)
Theorem opaque_validity_window (nonce : string) (T : Time.datetime) :
  let opaque := opaque_from_nonce nonce T in
  let T_11m59s := T + Time.timedelta_minutes 11 + Time.timedelta_seconds 59 in
  let T_25m := T + Time.timedelta_minutes 25 in
  let five_minutes := Time.timedelta_minutes 5 in
  let digest t := MD5.hexdigest (opaque_text nonce t) in
  opaque_is_current nonce opaque T = true
  ∧ (∀ now, bucket now = bucket T ∨ bucket (now - five_minutes) = bucket T →
            opaque_is_current nonce opaque now = true)
  ∧ (Time.epoch_seconds T mod 720 <= 300 →
     opaque_is_current nonce opaque T_11m59s = true)
  ∧ (∀ now, opaque_is_current nonce opaque now = true
            ↔ digest T = digest now ∨ digest T = digest (now - five_minutes))
  ∧ (300 < Time.epoch_seconds T mod 720 →
     opaque_text nonce T ≠ opaque_text nonce T_11m59s
     ∧ opaque_text nonce T ≠ opaque_text nonce (T_11m59s - five_minutes))
  ∧ (opaque_text nonce T ≠ opaque_text nonce T_25m
     ∧ opaque_text nonce T ≠ opaque_text nonce (T_25m - five_minutes))
  ∧ (∀ T', noon <= T' < noon + Time.timedelta_minutes 60 →
       opaque_is_current "123" (opaque_from_nonce "123" T')
         (T' + Time.timedelta_minutes 25) = false
       ∧ (300 < Time.epoch_seconds T' mod 720 →
          opaque_is_current "123" (opaque_from_nonce "123" T')
            (T' + Time.timedelta_minutes 11 + Time.timedelta_seconds 59) = false)).
Proof.
  cbv zeta. split; [| split; [| split; [| split; [| split; [| split]]]]].
  - apply opaque_is_current_here. by left.
  - intros now. apply opaque_is_current_here.
  - intros Hearly. apply opaque_is_current_here. right.
    replace (T + Time.timedelta_minutes 11 + Time.timedelta_seconds 59
             - Time.timedelta_minutes 5)
      with (T + Time.timedelta_minutes 6 + Time.timedelta_seconds 59)
      by (unfold Time.timedelta_minutes; lia).
    rewrite bucket_shift. unfold bucket.
    revert Hearly. generalize (Time.epoch_seconds T). intros s Hs.
    Z.div_mod_to_equations. lia.
  - intros now. apply opaque_is_current_digests.
  - intros Hlate. split; apply opaque_text_differs; apply not_eq_sym.
    + rewrite bucket_shift. unfold bucket.
      revert Hlate. generalize (Time.epoch_seconds T). intros s Hs.
      Z.div_mod_to_equations. lia.
    + replace (T + Time.timedelta_minutes 11 + Time.timedelta_seconds 59
               - Time.timedelta_minutes 5)
        with (T + Time.timedelta_minutes 6 + Time.timedelta_seconds 59)
        by (unfold Time.timedelta_minutes; lia).
      rewrite bucket_shift. unfold bucket.
      revert Hlate. generalize (Time.epoch_seconds T). intros s Hs.
      Z.div_mod_to_equations. lia.
  - split; apply opaque_text_differs; apply not_eq_sym.
    + rewrite bucket_shift_minutes. unfold bucket.
      generalize (Time.epoch_seconds T). intros s.
      Z.div_mod_to_equations. lia.
    + replace (T + Time.timedelta_minutes 25 - Time.timedelta_minutes 5)
        with (T + Time.timedelta_minutes 20)
        by (unfold Time.timedelta_minutes; lia).
      rewrite bucket_shift_minutes. unfold bucket.
      generalize (Time.epoch_seconds T). intros s.
      Z.div_mod_to_equations. lia.
  - intros T' HT'. split.
    + by apply rejected_after_25_minutes.
    + by apply rejected_after_11m59s.
Qed.

(** C2, counterexample to the claim as stated: an opaque computed eleven
    minutes into a bucket (12:11:00) is rejected 11m59s later (12:22:59). *)
Lemma opaque_rejected_before_twelve_minutes :
  ¬ (∀ (nonce : string) (T : Time.datetime),
       opaque_is_current nonce (opaque_from_nonce nonce T) T = true
       ∧ opaque_is_current nonce (opaque_from_nonce nonce T)
           (T + Time.timedelta_minutes 11 + Time.timedelta_seconds 59) = true
       ∧ opaque_is_current nonce (opaque_from_nonce nonce T)
           (T + Time.timedelta_minutes 25) = false).
Proof.
  intros Hclaim.
  destruct (Hclaim "123" (after_noon 11 0)) as (_ & Haccepted & _).
  vm_compute in Haccepted. discriminate.
Qed.

(** ** Optimistic concurrency: [put] *)

Lemma resource_readonly (cls : ResourceClass) (p : Parsed) (w : World) :
  (resource cls p w).2 = w.
Proof.
  unfold resource. destruct (valid_resource_id p); [| reflexivity].
  destruct (resource_id p); [apply get_readonly | reflexivity].
Qed.



(** what the accepted PUT does: the title is replaced, the instance is
    stamped with the time of the request and the catalog of the class is
    created empty *)
Example put_moby_applied :
  let '(r, w) := put strptime_rfc1123 books (after_noon 3 0) 0
                     (put_moby "Tue, 06 May 2014 12:01:00 GMT") library in
  (status_int <$> (match r with Ok x => Some x | Raise _ => None end)) = Some 200
  ∧ (fields <$> datastore w !! ("Book", IdStr "moby")) = Some {["title" := "White Whale"]}
  ∧ (last_modified <$> datastore w !! ("Book", IdStr "moby")) = Some (Some (after_noon 3 0))
  ∧ (catalog <$> datastore w !! ("Catalog", IdStr "Book")) = Some None.
Proof. vm_compute. repeat split. Qed.

(** ** Authorization over user resources *)

(** C10: a [User] resource answers [owner_key] with its own key.  Hence, for
    a principal without administrator privileges, a stored user resource is
    authorized exactly when it is the principal's own: among the stored
    users the principal is authorized for one, themselves, and every other
    principal without administrator privileges is denied. *)
Theorem user_is_its_own_owner
    (h : Handler) (w : World) (principal : Entity)
    (Huser : base (resource_class h) = BaseUser)
    (Hplain : has_admin_privileges (user_class h) principal = false)
    (Hkeys : ∀ k e, datastore w !! k = Some e → key e = k)
    (Hstored : datastore w !! key principal = Some principal) :
  (∀ r, owner_key (resource_class h) r = Some (Some (key r)))
  ∧ (∀ r, resource_is_authorized h (Some principal) (Some r) = true
          ↔ key r = key principal)
  ∧ (∀ k r, datastore w !! k = Some r →
            (resource_is_authorized h (Some principal) (Some r) = true
             ↔ r = principal)).
Proof.
  assert (Hown : ∀ r, owner_key (resource_class h) r = Some (Some (key r))).
  { intros r. unfold owner_key. by rewrite Huser. }
  assert (Hauth : ∀ r, resource_is_authorized h (Some principal) (Some r) = true
                       ↔ key r = key principal).
  { intros r. unfold resource_is_authorized. rewrite Hplain, Hown.
    rewrite bool_decide_eq_true. split; congruence. }
  repeat split; try apply Hown; try apply Hauth.
  - intros Hr. apply Hauth in Hr.
    pose proof (Hkeys _ _ H) as Hk. congruence.
  - intros ->. by apply Hauth.
Qed.

Lemma user_is_its_own_owner_witness :
  (∀ r, resource_is_authorized accounts (Some reader) (Some r) = true
        ↔ key r = key reader)
  ∧ resource_is_authorized accounts (Some reader) (Some reader) = true
  ∧ resource_is_authorized accounts (Some reader) (Some admin) = false.
Proof.
  assert (Hkeys : ∀ k e, datastore library !! k = Some e → key e = k).
  { assert (HF : bool_decide (map_Forall (fun k e => key e = k) (datastore library))
                 = true) by (vm_compute; reflexivity).
    apply bool_decide_eq_true in HF.
    intros k e Hk. exact (map_Forall_lookup_1 _ _ _ _ HF Hk). }
  destruct (user_is_its_own_owner accounts library reader eq_refl eq_refl Hkeys eq_refl)
    as (_ & Hauth & _).
  split; [exact Hauth |]. split; vm_compute; reflexivity.
Defined.

(** ** Catalog cache *)

Global Instance newer_first_total : Total newer_first.
Proof.
  intros a b. unfold newer_first.
  destruct (last_modified a), (last_modified b); try tauto. lia.
Qed.

Global Instance newer_first_trans : Transitive newer_first.
Proof.
  intros a b c. unfold newer_first.
  destruct (last_modified a), (last_modified b), (last_modified c); try tauto. lia.
Qed.

Lemma elem_of_query (kind : string) (w : World) (e : Entity) :
  e ∈ query kind w ↔ live kind w e.
Proof.
  unfold query, live. rewrite list_elem_of_filter, list_elem_of_fmap.
  split.
  - intros [Hk [[k e'] [-> Hin]]]. apply elem_of_map_to_list in Hin. eauto.
  - intros [Hk [k Hin]]. split; [exact Hk |].
    exists (k, e). split; [reflexivity |]. by apply elem_of_map_to_list.
Qed.

Lemma catalog_array_entries (l : list Entity) :
  Forall (fun e => is_Some (last_modified e)) l →
  ∃ array, catalog_array l = Ok array ∧ Forall2 entry_of l array.
Proof.
  induction 1 as [| e l [lm Hlm] _ (array & Harr & Hall)].
  - exists []. split; [reflexivity | constructor].
  - eexists. cbn [catalog_array]. unfold catalog_entry, last_modified_utc.
    rewrite Hlm, Harr. split; [reflexivity |].
    constructor; [| exact Hall]. split; [reflexivity |]. eauto.
Qed.

Lemma newest_first_sorted (l : list Entity) (n : nat) :
  StronglySorted newer_first (take n (merge_sort newer_first l)).
Proof.
  apply (StronglySorted_app_1_l _ _ (drop n (merge_sort newer_first l))).
  rewrite take_drop. apply StronglySorted_merge_sort; apply _.
Qed.

(** C4 (as the code has it): on a cache miss the catalog lists the stored
    instances of the class newest first, one dictionary of identifier and
    last-modified second per instance - up to 1000 of them, the limit of the
    query - stores the array under the class name and returns the stored
    array on later reads. *)
Theorem catalog_serialization_on_miss
    (c : Entity) (now : Time.datetime) (w : World)
    (Hmiss : catalog c = None)
    (Hstamped : ∀ k e, datastore w !! k = Some e → is_Some (last_modified e)) :
  catalog_rebuilt c now w.
Proof.
  unfold catalog_rebuilt. cbv zeta.
  set (kind := str (id_ c)).
  set (listed := take 1000 (merge_sort newer_first (query kind w))).
  assert (Hlive : ∀ e, e ∈ listed → live kind w e).
  { intros e He. apply elem_of_query.
    apply (subseteq_take 1000) in He. by rewrite merge_sort_Permutation in He. }
  destruct (catalog_array_entries listed) as (array & Harray & Hentries).
  { apply Forall_forall. intros e He.
    destruct (Hlive e He) as [_ [k Hk]]. eauto. }
  set (c' := set_last_modified now (set_catalog (Some array) c)).
  exists listed, array, c',
    (mkWorld (<[key c := c']> (datastore w)) (memcache w)).
  assert (Hread : ∀ now' w0, Catalog_serialization_of_type c' DataType.json now' w0
                             = (Ok (Some array, c'), w0)).
  { intros now' w0. unfold Catalog_serialization_of_type.
    destruct (decide (DataType.json = DataType.json)); [| done]. reflexivity. }
  split_and!.
  - unfold Catalog_serialization_of_type.
    destruct (decide (DataType.json = DataType.json)); [| done].
    rewrite Hmiss. unfold bind, query_newest_first, lift, ndb_put, ret.
    fold kind. fold listed. rewrite Harray. reflexivity.
  - reflexivity.
  - exact Hentries.
  - apply newest_first_sorted.
  - apply Hlive.
  - unfold listed. rewrite length_take.
    by rewrite (Permutation_length (merge_sort_Permutation newer_first _)).
  - intros Hfew. unfold listed. rewrite take_ge.
    + apply merge_sort_Permutation.
    + by rewrite (Permutation_length (merge_sort_Permutation newer_first _)).
  - reflexivity.
  - reflexivity.
  - cbn. apply lookup_insert_eq.
  - intros now'. apply Hread.
  - intros cls now' Hkey. unfold bind, Catalog_get, get_by_id, ret. cbn.
    unfold catalog_key in Hkey. rewrite <- Hkey, lookup_insert_eq. apply Hread.
Qed.

Lemma catalog_serialization_on_miss_witness :
  catalog_rebuilt empty_book_catalog (after_noon 5 0) library.
Proof.
  apply catalog_serialization_on_miss; [reflexivity |].
  assert (HF : bool_decide (map_Forall (fun _ e => is_Some (last_modified e))
                                       (datastore library)) = true)
    by (vm_compute; reflexivity).
  apply bool_decide_eq_true in HF.
  intros k e Hk. exact (map_Forall_lookup_1 _ _ _ _ HF Hk).
Defined.

(** the catalog of the library: the newer book first *)
Example library_catalog :
  (Catalog_serialization_of_type empty_book_catalog DataType.json
                                 (after_noon 5 0) library).1
  = Ok (Some [mkCatalogEntry (IdStr "emma") "2014-05-06T12:02:00";
              mkCatalogEntry (IdStr "moby") "2014-05-06T12:01:00"],
        set_last_modified (after_noon 5 0)
          (set_catalog (Some [mkCatalogEntry (IdStr "emma") "2014-05-06T12:02:00";
                              mkCatalogEntry (IdStr "moby") "2014-05-06T12:01:00"])
                       empty_book_catalog)).
Proof. vm_compute. reflexivity. Qed.

(** C4, counterexample to the claim as stated: of the 1001 stored books of
    [crowd] the catalog lists 1000; the oldest one has no entry. *)
Lemma catalog_omits_instances_beyond_1000 :
  ¬ (∀ (c : Entity) (now : Time.datetime) (w : World),
       catalog c = None →
       (∀ k e, datastore w !! k = Some e → is_Some (last_modified e)) →
       ∃ array c' w',
         Catalog_serialization_of_type c DataType.json now w
         = (Ok (Some array, c'), w')
         ∧ ∀ e, live (str (id_ c)) w e → ∃ entry, entry ∈ array ∧ entry_of e entry).
Proof.
  intros Hclaim.
  destruct (Hclaim empty_book_catalog (after_noon 30 0) crowd)
    as (array & c' & w' & Hrun & Hall); [reflexivity | |].
  { assert (HF : bool_decide (map_Forall (fun _ e => is_Some (last_modified e))
                                         (datastore crowd)) = true)
      by (vm_compute; reflexivity).
    apply bool_decide_eq_true in HF.
    intros k e Hk. exact (map_Forall_lookup_1 _ _ _ _ HF Hk). }
  assert (Hnone :
    match Catalog_serialization_of_type empty_book_catalog DataType.json
                                        (after_noon 30 0) crowd with
    | (Ok (Some a, _), _) =>
        existsb (fun entry => bool_decide (entry_id entry = IdStr "b0")) a
    | _ => true
    end = false) by (vm_compute; reflexivity).
  rewrite Hrun in Hnone.
  destruct (Hall (numbered_book 0)) as (entry & Hin & Hid & _).
  { split; [reflexivity |]. exists ("Book", IdStr "b0"). vm_compute. reflexivity. }
  apply not_true_iff_false in Hnone. apply Hnone.
  apply existsb_exists. exists entry. split.
  - by apply list_elem_of_In.
  - apply bool_decide_eq_true. exact Hid.
Qed.

(** *** Invalidation on mutation *)

Lemma cleared_fresh (cls : ResourceClass) (w : World) :
  cleared cls w → catalog_fresh cls w.
Proof. intros (c & Hc & Hnone) c' array Hc' Harr. congruence. Qed.

Lemma well_keyed_insert (w : World) (e : Entity) (mc : gmap string (list Ident)) :
  well_keyed w → well_keyed (mkWorld (<[key e := e]> (datastore w)) mc).
Proof.
  intros Hk k e'. cbn. rewrite lookup_insert.
  case_decide; [intros; simplify_eq; done | apply Hk].
Qed.

Lemma well_keyed_put (now : Time.datetime) (e : Entity) (w : World) :
  well_keyed w → well_keyed (ndb_put now e w).2.
Proof.
  intros Hk. unfold ndb_put. cbn [snd].
  change (key e) with (key (set_last_modified now e)).
  by apply well_keyed_insert.
Qed.

Lemma well_keyed_delete (k : Key) (w : World) (mc : gmap string (list Ident)) :
  well_keyed w → well_keyed (mkWorld (base.delete k (datastore w)) mc).
Proof.
  intros Hk k' e. cbn. rewrite lookup_delete.
  case_decide; [discriminate | apply Hk].
Qed.

Lemma Catalog_get_stored (cls : ResourceClass) (now : Time.datetime) (w : World) :
  well_keyed w →
  ∃ c w1, Catalog_get cls now w = (Ok c, w1)
          ∧ well_keyed w1
          ∧ datastore w1 !! catalog_key cls = Some c
          ∧ key c = catalog_key cls
          ∧ (w1 = w ∨ catalog c = None).
Proof.
  intros Hk. unfold Catalog_get, bind, get_by_id, ret.
  fold (catalog_key cls).
  destruct (datastore w !! catalog_key cls) as [c |] eqn:Hc.
  - exists c, w. split_and!; eauto.
  - unfold Catalog_new.
    set (c := set_class_module (module_name cls)
                (instance Catalog_kind (IdStr (class_name cls)))).
    exists (set_last_modified now c), (ndb_put now c w).2.
    split_and!; try reflexivity.
    + by apply well_keyed_put.
    + cbn. apply lookup_insert_eq.
    + by right.
Qed.

Lemma Catalog_invalidate_cleared (c : Entity) (now : Time.datetime) (w : World) :
  well_keyed w → datastore w !! key c = Some c →
  ∃ c' w1, Catalog_invalidate c now w = (Ok c', w1)
           ∧ well_keyed w1
           ∧ datastore w1 !! key c = Some c'
           ∧ catalog c' = None.
Proof.
  intros Hk Hc. unfold Catalog_invalidate.
  destruct (catalog c) as [array |] eqn:Harr.
  - exists (set_last_modified now (set_catalog None c)),
      (ndb_put now (set_catalog None c) w).2.
    split_and!; try reflexivity.
    + by apply well_keyed_put.
    + cbn. apply lookup_insert_eq.
  - exists c, w. by split_and!.
Qed.

Lemma invalidate_catalog_cleared (cls : ResourceClass) (now : Time.datetime)
    (w : World) :
  well_keyed w →
  ∃ w1, invalidate_catalog cls now w = (Ok tt, w1)
        ∧ well_keyed w1 ∧ cleared cls w1.
Proof.
  intros Hk. unfold invalidate_catalog, bind, ret.
  destruct (Catalog_get_stored cls now w Hk) as (c & w1 & -> & Hk1 & Hc & Hkey & _).
  rewrite <- Hkey in Hc.
  destruct (Catalog_invalidate_cleared c now w1 Hk1 Hc)
    as (c' & w2 & -> & Hk2 & Hc' & Hnone).
  exists w2. split_and!; [reflexivity | exact Hk2 |].
  exists c'. by rewrite <- Hkey.
Qed.

(** every mutation ends with the catalog of the class stored without text *)
Lemma mutation_clears (cls : ResourceClass) (now : Time.datetime) (op : Op)
    (w : World) :
  base cls = BasePublicResource → well_keyed w → is_mutation op = true →
  well_keyed (apply_op cls now op w).2 ∧ cleared cls (apply_op cls now op w).2.
Proof.
  intros Hpub Hk Hop.
  cut (∃ w', (apply_op cls now op w).2 = w' ∧ well_keyed w' ∧ cleared cls w').
  { intros (w' & -> & ? & ?). by split. }
  destruct op as [identifier | self | self |]; [| | | discriminate];
    unfold apply_op, Model.new, Model.put, Model.delete; rewrite Hpub.
  - destruct (invalidate_catalog_cleared cls now w Hk) as (w1 & Hinv & Hk1 & Hc1).
    unfold Resource_new, bind, lift, reset_ids, ret. rewrite Hinv.
    destruct (valid_identifier (base cls) identifier); cbn; eauto.
  - unfold bind, ret.
    pose proof (well_keyed_put now self w Hk) as Hk0.
    destruct (ndb_put now self w) as [[self' | e] w0] eqn:Hput;
      [| discriminate Hput].
    destruct (invalidate_catalog_cleared cls now w0 Hk0) as (w1 & Hinv & Hk1 & Hc1).
    rewrite Hinv. cbn. eauto.
  - unfold Resource_delete, bind, key_delete, reset_ids.
    destruct (invalidate_catalog_cleared cls now
                (mkWorld (base.delete (key self) (datastore w))
                         (base.delete (class_name cls ++ "_ids") (memcache w))))
      as (w1 & Hinv & Hk1 & Hc1); [by apply well_keyed_delete |].
    cbn [datastore memcache]. rewrite Hinv. cbn. eauto.
Qed.

(** writing an entity of another kind does not change what a query finds *)
Lemma query_insert_other (kind : string) (w : World) (e : Entity)
    (mc : gmap string (list Ident)) :
  well_keyed w → (key e).1 ≠ kind →
  query kind (mkWorld (<[key e := e]> (datastore w)) mc) ≡ₚ query kind w.
Proof.
  intros Hk Hkind. unfold query. cbn [datastore].
  destruct (datastore w !! key e) as [old |] eqn:Hold.
  - rewrite <- (map_to_list_delete (datastore w) (key e) old Hold).
    rewrite <- insert_delete_eq.
    rewrite map_to_list_insert by apply lookup_delete_eq.
    rewrite !fmap_cons. cbn [snd].
    rewrite !filter_cons_False; [reflexivity | | exact Hkind].
    by rewrite (Hk _ _ Hold).
  - rewrite map_to_list_insert by exact Hold.
    rewrite fmap_cons. cbn [snd]. by rewrite filter_cons_False.
Qed.

(** a read of the catalog leaves it fresh *)
Lemma read_keeps_fresh (cls : ResourceClass) (now : Time.datetime) (w : World) :
  class_name cls ≠ Catalog_kind → well_keyed w → catalog_fresh cls w →
  well_keyed (apply_op cls now OpRead w).2
  ∧ catalog_fresh cls (apply_op cls now OpRead w).2.
Proof.
  intros Hname Hk Hfresh.
  cut (∃ w', (apply_op cls now OpRead w).2 = w' ∧ well_keyed w' ∧ catalog_fresh cls w').
  { intros (w' & -> & ? & ?). by split. }
  unfold apply_op, bind, ret.
  destruct (Catalog_get_stored cls now w Hk) as (c & w1 & Hget & Hk1 & Hc & Hkey & Hor).
  rewrite Hget.
  assert (Hfresh1 : catalog_fresh cls w1).
  { destruct Hor as [-> | Hnone]; [exact Hfresh |].
    apply cleared_fresh. by exists c. }
  unfold Catalog_serialization_of_type.
  destruct (decide (DataType.json = DataType.json)); [| done].
  destruct (catalog c) as [cached |] eqn:Hcached.
  { unfold ret. cbn. eauto. }
  unfold bind, query_newest_first, lift, ret.
  assert (Hid : str (id_ c) = class_name cls).
  { unfold id_. rewrite Hkey. reflexivity. }
  rewrite Hid.
  destruct (catalog_array (take 1000 (merge_sort newer_first (query (class_name cls) w1))))
    as [array | err] eqn:Harray; [| cbn; eauto].
  unfold ndb_put. cbn [fst snd].
  set (c' := set_last_modified now (set_catalog (Some array) c)).
  change (key (set_catalog (Some array) c)) with (key c').
  eexists. split; [reflexivity |]. split; [by apply well_keyed_insert |].
  intros c2 array2 Hc2 Harray2. cbn [datastore] in Hc2.
  assert (Hkey' : key c' = catalog_key cls) by exact Hkey.
  rewrite Hkey', lookup_insert_eq in Hc2. injection Hc2 as <-.
  cbn in Harray2. injection Harray2 as <-.
  exists (merge_sort newer_first (query (class_name cls) w1)). split_and!.
  - rewrite merge_sort_Permutation. symmetry.
    apply query_insert_other; [exact Hk1 |].
    rewrite Hkey'. cbn. by apply not_eq_sym.
  - apply StronglySorted_merge_sort; apply _.
  - exact Harray.
Qed.

(** C8: for a publication class, every mutation of an instance - [new],
    [put] and [delete] - ends, within the same call, with the catalog of the
    class stored without text; and after any sequence of mutations and
    catalog reads the text the stored catalog holds, if it holds one, is the
    serialization of the instances stored at that moment: the catalog is
    fresh or empty, never stale. *)
Theorem catalog_cleared_by_every_mutation
    (cls : ResourceClass) (w : World)
    (Hpub : base cls = BasePublicResource)
    (Hname : class_name cls ≠ Catalog_kind)
    (Hkeys : well_keyed w)
    (Hfresh : catalog_fresh cls w) :
  (∀ now op, is_mutation op = true → cleared cls (apply_op cls now op w).2)
  ∧ (∀ ops, catalog_fresh cls (run_ops cls ops w))
  ∧ (∀ ops now op, is_mutation op = true →
                   cleared cls (run_ops cls (ops ++ [(now, op)]) w)).
Proof.
  assert (Hinv : ∀ ops w0, well_keyed w0 → catalog_fresh cls w0 →
                           well_keyed (run_ops cls ops w0)
                           ∧ catalog_fresh cls (run_ops cls ops w0)).
  { induction ops as [| [now op] ops IH]; intros w0 Hk0 Hf0; [by split |].
    cbn [run_ops]. destruct (is_mutation op) eqn:Hop.
    - destruct (mutation_clears cls now op w0 Hpub Hk0 Hop) as [Hk1 Hc1].
      apply IH; [exact Hk1 | by apply cleared_fresh].
    - destruct op; try discriminate.
      destruct (read_keeps_fresh cls now w0 Hname Hk0 Hf0) as [Hk1 Hf1].
      by apply IH. }
  split_and!.
  - intros now op Hop. by apply mutation_clears.
  - intros ops. by apply Hinv.
  - intros ops now op Hop.
    assert (Hrun : ∀ l w0, run_ops cls (l ++ [(now, op)]) w0
                           = (apply_op cls now op (run_ops cls l w0)).2).
    { induction l as [| [t o] l IHl]; intros w0; [reflexivity |].
      cbn [run_ops app]. apply IHl. }
    rewrite Hrun. apply mutation_clears; [exact Hpub | | exact Hop].
    by apply Hinv.
Qed.

Example stations_imported :
  let st := import_stations stations_feed two_stations in
  Importer.new_objects _ _ st = {["A" := 0%nat; "B" := 2%nat]}
  ∧ Importer.old_objects _ _ st = {["C" := 1%nat]}
  ∧ Importer.updated_objects _ _ st = {["B" := 2%nat]}
  ∧ names (Importer.sub _ _ st) !! 2%nat = Some "Bravo"
  ∧ next_object (Importer.sub _ _ st) = 3%nat.
Proof. vm_compute. repeat split. Qed.

(** ** Reconciliation importer *)

Section Reconciliation.

Context {K : Type} `{!EqDecision K, !Countable K} {Obj Sub : Type}.
Variable active : string -> bool.
Variable existing_objects_dictionary : Sub -> gmap K Obj.
Variable key_for_current_object : list string -> Sub -> option K.
Variable create_new_object : K -> list string -> Sub -> Obj * Sub.
Variable start_xml_element : string -> list (string * string) -> Sub -> Sub.
Variable end_xml_element : string -> list string -> Sub -> Sub.
Variable update_object : Obj -> string -> list string -> Sub -> bool * Sub.
Variable truthy : Sub -> Obj -> bool.

Local Abbreviation State := (Importer.State Obj Sub).
Local Abbreviation old_objects := (Importer.old_objects Obj Sub).
Local Abbreviation new_objects := (Importer.new_objects Obj Sub).
Local Abbreviation updated_objects := (Importer.updated_objects Obj Sub).
Local Abbreviation data := (Importer.data Obj Sub).
Local Abbreviation sub := (Importer.sub Obj Sub).
Local Abbreviation endElement :=
  (Importer.endElement Obj Sub active key_for_current_object create_new_object
                       end_xml_element update_object truthy).
Local Abbreviation step :=
  (Importer.step Obj Sub active key_for_current_object create_new_object
                 start_xml_element end_xml_element update_object truthy).
Local Abbreviation startDocument :=
  (Importer.startDocument Obj Sub existing_objects_dictionary).
Local Abbreviation run :=
  (Importer.run Obj Sub active existing_objects_dictionary key_for_current_object
                create_new_object start_xml_element end_xml_element update_object
                truthy).
Local Abbreviation feed_keys :=
  (Importer.feed_keys Obj Sub active key_for_current_object create_new_object
                      start_xml_element end_xml_element update_object truthy).
Local Abbreviation yielded_key :=
  (Importer.yielded_key Obj Sub active key_for_current_object).


(** From here on every object counts as true in a condition, as instances
    of ordinary classes do. *)
Hypothesis objects_truthy : ∀ s o, truthy s o = true.

(** what holds between the three dictionaries after the keys [ks] were
    yielded, [pre] being the population at the start *)
Definition reconciled (pre : gmap K Obj) (ks : list K) (st : State) : Prop :=
  dom (new_objects st) = list_to_set ks
  ∧ dom (old_objects st) = dom pre ∖ list_to_set ks
  ∧ updated_objects st ⊆ new_objects st.

Lemma reconciled_step (pre : gmap K Obj) (ks : list K) (st : State)
    (ev : Importer.Event) :
  reconciled pre ks st →
  reconciled pre (ks ++ option_list (yielded_key ev st)) (step st ev).
Proof.
  intros (Hnew & Hold & Hupd).
  destruct ev as [name attrs | name | chars];
    [rewrite app_nil_r; by split_and! | | rewrite app_nil_r; by split_and!].
  unfold reconciled, Importer.step, Importer.yielded_key, Importer.endElement.
  destruct (active name); [| rewrite app_nil_r; by split_and!].
  destruct (key_for_current_object (data st) (sub st)) as [key |];
    [| rewrite app_nil_r; by split_and!].
  cbn [option_list]. rewrite list_to_set_app_L.
  unfold Importer.pop_from_old_objects, Importer.is_true.
  destruct (old_objects st !! key) as [o |] eqn:Hpop.
  - (* an object that existed before and was not met yet *)
    rewrite !objects_truthy. cbn [Importer.sub Importer.data].
    destruct (update_object o name (data st) (sub st)) as [changed s'].
    cbn. rewrite dom_insert_L, dom_delete_L, Hnew, Hold.
    assert (Hfresh : new_objects st !! key = None).
    { apply not_elem_of_dom. rewrite Hnew. intros Hin.
      apply (elem_of_dom_2 (old_objects st)) in Hpop. set_solver. }
    split_and!; [set_solver | set_solver |].
    destruct changed.
    + by apply insert_mono.
    + apply insert_subseteq_r; [| exact Hupd].
      eapply lookup_weaken_None; eauto.
  - destruct (new_objects st !! key) as [o |] eqn:Hseen.
    + (* a key met before in this pass *)
      rewrite !objects_truthy.
      destruct (update_object o name (data st) (sub st)) as [changed s'].
      cbn. rewrite dom_insert_L, Hnew, Hold.
      assert (Hin : key ∈ (list_to_set ks : gset K)).
      { rewrite <- Hnew. by apply (elem_of_dom_2 _ _ o). }
      split_and!; [set_solver | set_solver |].
      rewrite (insert_id _ _ _ Hseen).
      destruct changed; [| exact Hupd].
      by apply insert_subseteq_l.
    + (* a key that is new *)
      destruct (create_new_object key (data st) (sub st)) as [o s1].
      destruct (update_object o name (data st) s1) as [changed s'].
      cbn. rewrite dom_insert_L, Hnew, Hold.
      assert (Hnot : key ∉ dom (old_objects st)) by by apply not_elem_of_dom.
      split_and!; [set_solver | set_solver |].
      destruct changed.
      * by apply insert_mono.
      * apply insert_subseteq_r; [| exact Hupd].
        eapply lookup_weaken_None; eauto.
Qed.

Lemma reconciled_fold (pre : gmap K Obj) (feed : list Importer.Event) :
  ∀ ks st, reconciled pre ks st →
           reconciled pre (ks ++ feed_keys feed st) (fold_left step feed st).
Proof.
  induction feed as [| ev feed IH]; intros ks st Hst; cbn [fold_left Importer.feed_keys].
  - by rewrite app_nil_r.
  - pose proof (reconciled_step pre ks st ev Hst) as Hstep.
    apply IH in Hstep.
    destruct (yielded_key ev st) as [key |]; cbn [option_list] in Hstep.
    + by rewrite <- app_assoc in Hstep.
    + by rewrite app_nil_r in Hstep.
Qed.


End Reconciliation.



Lemma catalog_cleared_by_every_mutation_witness :
  cleared Book (apply_op Book (after_noon 5 0) (OpDelete emma) library).2
  ∧ catalog_fresh Book
      (run_ops Book [(after_noon 5 0, OpRead);
                     (after_noon 6 0, OpPut (book_entity "ulysses" "Ulysses" noon));
                     (after_noon 7 0, OpRead);
                     (after_noon 8 0, OpDelete moby);
                     (after_noon 9 0, OpRead)] library).
Proof.
  assert (Hkeys : well_keyed library).
  { assert (HF : bool_decide (map_Forall (fun k e => key e = k) (datastore library))
                 = true) by (vm_compute; reflexivity).
    apply bool_decide_eq_true in HF.
    intros k e Hk. exact (map_Forall_lookup_1 _ _ _ _ HF Hk). }
  assert (Hfresh : catalog_fresh Book library).
  { intros c array Hc. vm_compute in Hc. discriminate. }
  assert (Hname : class_name Book ≠ Catalog_kind) by discriminate.
  destruct (catalog_cleared_by_every_mutation Book library eq_refl Hname Hkeys Hfresh)
    as (Hclear & Hinv & _).
  split; [by apply Hclear | apply Hinv].
Defined.

(** the catalog over a run: built on the first read, served as stored on
    the second, cleared by the put and rebuilt with the new book first *)
Example catalog_over_a_run :
  let read t w := (c <- Catalog_get Book t ;;
                   Catalog_serialization_of_type c DataType.json t) w in
  let ulysses := book_entity "ulysses" "Ulysses" noon in
  let '(r1, w1) := read (after_noon 5 0) library in
  let '(r2, w2) := read (after_noon 6 0) w1 in
  let w3 := (apply_op Book (after_noon 7 0) (OpPut ulysses) w2).2 in
  let '(r4, w4) := read (after_noon 8 0) w3 in
  let text r := match r with Ok (Some a, _) => map entry_id a | _ => [] end in
  text r1 = [IdStr "emma"; IdStr "moby"]
  ∧ r2 = r1 ∧ w2 = w1
  ∧ (catalog <$> datastore w3 !! catalog_key Book) = Some None
  ∧ text r4 = [IdStr "ulysses"; IdStr "emma"; IdStr "moby"].
Proof. vm_compute. repeat split. Qed.

(** * Further properties of the code *)

(** ** Decimal numbers and identifiers *)

Lemma of_chars_chars (s : string) : PyStr.of_chars (PyStr.chars s) = s.
Proof. induction s as [| c s IH]; cbn; [reflexivity | by rewrite IH]. Qed.

Lemma chars_of_chars (l : list ascii) : PyStr.chars (PyStr.of_chars l) = l.
Proof. induction l as [| c l IH]; cbn; [reflexivity | by rewrite IH]. Qed.

Lemma append_assoc (a b c : string) : (a ++ b) ++ c = a ++ (b ++ c).
Proof. apply chars_inj. by rewrite !chars_app, app_assoc. Qed.

Lemma append_nil_r (a : string) : a ++ "" = a.
Proof. apply chars_inj. by rewrite chars_app, app_nil_r. Qed.

Lemma of_chars_app (l1 l2 : list ascii) :
  PyStr.of_chars (l1 ++ l2) = PyStr.of_chars l1 ++ PyStr.of_chars l2.
Proof. apply chars_inj. by rewrite chars_app, !chars_of_chars. Qed.

Lemma digit_char_digit (d : Z) :
  0 <= d < 10 →
  PyStr.is_digit (PyStr.digit_char d) = true
  ∧ PyStr.byte_of (PyStr.digit_char d) - 48 = d.
Proof.
  intros Hd.
  assert (d = 0 ∨ d = 1 ∨ d = 2 ∨ d = 3 ∨ d = 4 ∨ d = 5 ∨ d = 6 ∨ d = 7 ∨ d = 8 ∨ d = 9)
    as [-> | [-> | [-> | [-> | [-> | [-> | [-> | [-> | [-> | ->]]]]]]]]] by lia;
    by vm_compute.
Qed.

Lemma digits_value_snoc (ds : list ascii) (c : ascii) :
  PyStr.digits_value (ds ++ [c])
  = 10 * PyStr.digits_value ds + (PyStr.byte_of c - 48).
Proof. unfold PyStr.digits_value. by rewrite fold_left_app. Qed.

(** the digits [digits_aux] puts in front of the accumulator: as many as the
    number needs, and they read back as the number *)
Lemma digits_aux_digits (fuel : nat) :
  ∀ (n : Z) (acc : string) (k : nat),
    0 <= n < 10 ^ Z.of_nat fuel → n < 10 ^ Z.of_nat k → (1 <= k)%nat → (1 <= fuel)%nat →
    ∃ ds, PyStr.digits_aux fuel n acc = PyStr.of_chars ds ++ acc
          ∧ forallb PyStr.is_digit ds = true
          ∧ PyStr.digits_value ds = n
          ∧ (1 <= length ds <= k)%nat.
Proof.
  induction fuel as [| fuel IH]; intros n acc k Hn Hk Hk1 Hf; [lia |].
  cbn [PyStr.digits_aux].
  destruct (digit_char_digit (n mod 10)) as [Hdigit Hvalue];
    [apply Z.mod_pos_bound; lia |].
  destruct (n / 10 =? 0) eqn:Hq.
  - apply Z.eqb_eq in Hq.
    exists [PyStr.digit_char (n mod 10)].
    split; [reflexivity |]. split; [cbn; by rewrite Hdigit |]. split; [| cbn; lia].
    unfold PyStr.digits_value. cbn. rewrite Hvalue.
    rewrite (Z.div_mod n 10) at 2 by lia. lia.
  - apply Z.eqb_neq in Hq.
    assert (Hbig : 10 <= n).
    { destruct (Z_lt_le_dec n 10) as [Hlt | Hge]; [| exact Hge].
      exfalso. apply Hq. apply Z.div_small. lia. }
    destruct fuel as [| fuel'].
    { exfalso. cbn in Hn. lia. }
    destruct k as [| [| k']]; [lia | cbn in Hk; lia |].
    destruct (IH (n / 10) (String (PyStr.digit_char (n mod 10)) acc) (S k'))
      as (ds & Heq & Hall & Hval & Hlen).
    + split; [apply Z.div_pos; lia |].
      apply Z.div_lt_upper_bound; [lia |].
      rewrite Nat2Z.inj_succ, Z.pow_succ_r in Hn by lia. lia.
    + apply Z.div_lt_upper_bound; [lia |].
      replace (Z.of_nat (S (S k'))) with (Z.succ (Z.of_nat (S k'))) in Hk by lia.
      rewrite Z.pow_succ_r in Hk by lia. lia.
    + lia.
    + lia.
    + exists (ds ++ [PyStr.digit_char (n mod 10)])%list.
      split; [| split; [| split]].
      * rewrite Heq, of_chars_app. cbn [PyStr.of_chars].
        by rewrite append_assoc.
      * rewrite forallb_app, Hall. cbn. by rewrite Hdigit.
      * rewrite digits_value_snoc, Hval, Hvalue.
        rewrite (Z.div_mod n 10) at 3 by lia. lia.
      * rewrite length_app. cbn. lia.
Qed.

Lemma pow10_log2 (n : Z) :
  0 <= n → n < 10 ^ Z.of_nat (Z.to_nat (Z.log2 n) + 1).
Proof.
  intros Hn. destruct (Z.eq_dec n 0) as [-> | Hpos]; [by cbn |].
  pose proof (Z.log2_spec n ltac:(lia)) as [_ Hlt].
  pose proof (Z.log2_nonneg n) as Hlog.
  replace (Z.of_nat (Z.to_nat (Z.log2 n) + 1)) with (Z.succ (Z.log2 n)) by lia.
  eapply Z.lt_le_trans; [exact Hlt |].
  apply Z.pow_le_mono_l. lia.
Qed.

(** [str(n)] for a natural number below [10 ^ k]: between one and [k]
    decimal digits that read back as [n] *)
Lemma str_of_int_digits (n : Z) (k : nat) :
  0 <= n < 10 ^ Z.of_nat k → (1 <= k)%nat →
  ∃ ds, PyStr.str_of_int n = PyStr.of_chars ds
        ∧ forallb PyStr.is_digit ds = true
        ∧ PyStr.digits_value ds = n
        ∧ (1 <= length ds <= k)%nat.
Proof.
  intros Hn Hk. unfold PyStr.str_of_int.
  destruct (n <? 0) eqn:Hneg; [apply Z.ltb_lt in Hneg; lia |].
  destruct (digits_aux_digits (Z.to_nat (Z.log2 n) + 1) n "" k)
    as (ds & Heq & Hall & Hval & Hlen); try lia.
  - split; [lia |]. apply pow10_log2. lia.
  - exists ds. split; [| done].
    by rewrite Heq, append_nil_r.
Qed.

Lemma str_of_int_natural (n : Z) :
  0 <= n →
  ∃ ds, PyStr.str_of_int n = PyStr.of_chars ds
        ∧ forallb PyStr.is_digit ds = true
        ∧ PyStr.digits_value ds = n.
Proof.
  intros Hn.
  destruct (str_of_int_digits n (Z.to_nat (Z.log2 n) + 1))
    as (ds & Heq & Hall & Hval & _); [| lia |].
  - split; [lia |]. by apply pow10_log2.
  - by exists ds.
Qed.

Lemma digits_value_bound (ds : list ascii) :
  forallb PyStr.is_digit ds = true →
  0 <= PyStr.digits_value ds < 10 ^ Z.of_nat (length ds).
Proof.
  induction ds as [| c ds IH] using rev_ind; intros Hall; [by cbn |].
  rewrite forallb_app in Hall. apply andb_true_iff in Hall as [Hds Hc].
  cbn in Hc. rewrite andb_true_r in Hc.
  unfold PyStr.is_digit, PyStr.in_range in Hc.
  apply andb_true_iff in Hc as [Hlo Hhi].
  apply Z.leb_le in Hlo, Hhi.
  specialize (IH Hds).
  rewrite digits_value_snoc, length_app. cbn [length].
  replace (Z.of_nat (length ds + 1)) with (Z.succ (Z.of_nat (length ds))) by lia.
  rewrite Z.pow_succ_r by lia. lia.
Qed.

Lemma int_of_digits_value (ds : list ascii) :
  forallb PyStr.is_digit ds = true →
  PyStr.int_of_digits (PyStr.of_chars ds) = PyStr.digits_value ds.
Proof.
  unfold PyStr.int_of_digits, PyStr.digits_value. rewrite chars_of_chars.
  generalize 0. induction ds as [| c ds IH]; intros acc Hall; [reflexivity |].
  cbn in Hall. apply andb_true_iff in Hall as [Hc Hds].
  cbn. rewrite Hc. by apply IH.
Qed.

Lemma at_end_spec (s : string) :
  at_end s = true ↔ s = "" ∨ s = String PyStr.newline "".
Proof.
  destruct s as [| c [| d r]]; cbn.
  - split; [by left | done].
  - rewrite Ascii.eqb_eq. split; [intros ->; by right | intros [H | H]; congruence].
  - split; [done | intros [H | H]; congruence].
Qed.

(** [p{0,n}$] matches exactly a run of at most [n] characters of [p] that is
    the whole string, or the whole string but a final newline *)
Lemma rep_end_spec (p : ascii → bool) (n : nat) :
  ∀ s, rep_end p n s = true ↔
       ∃ run tail, s = PyStr.of_chars run ++ tail
                   ∧ (length run <= n)%nat
                   ∧ forallb p run = true
                   ∧ (tail = "" ∨ tail = String PyStr.newline "").
Proof.
  induction n as [| n IH]; intros s.
  - cbn [rep_end]. rewrite orb_false_r, at_end_spec. split.
    + intros H. exists [], s. by cbn.
    + intros (run & tail & -> & Hlen & _ & Htail).
      destruct run; [exact Htail | cbn in Hlen; lia].
  - cbn [rep_end]. rewrite orb_true_iff, at_end_spec. split.
    + intros [H | H].
      * exists [], s. split_and!; [done | cbn; lia | done | done].
      * destruct s as [| c r]; [done |].
        apply andb_true_iff in H as [Hc Hr].
        apply IH in Hr as (run & tail & -> & Hlen & Hall & Htail).
        exists (c :: run), tail. split_and!; [done | cbn; lia | | done].
        cbn. by rewrite Hc.
    + intros (run & tail & -> & Hlen & Hall & Htail).
      destruct run as [| c run]; [by left |].
      right. cbn in Hall. apply andb_true_iff in Hall as [Hc Hrun].
      cbn [PyStr.of_chars]. change (String c (PyStr.of_chars run) ++ tail)
        with (String c (PyStr.of_chars run ++ tail)).
      lazy beta iota. rewrite Hc. cbn [andb]. apply IH.
      exists run, tail. split_and!; [done | cbn in Hlen; lia | done | done].
Qed.

(** [p{1,19}$], the shape of every identifier pattern after its lead *)
Lemma rep1_spec (p : ascii → bool) (t : string) :
  match t with
  | String c r => p c && rep_end p 18 r
  | EmptyString => false
  end = true ↔
  ∃ run tail, t = PyStr.of_chars run ++ tail ∧ (1 <= length run <= 19)%nat
              ∧ forallb p run = true
              ∧ (tail = "" ∨ tail = String PyStr.newline "").
Proof.
  split.
  - destruct t as [| c r]; [done |]. intros H.
    apply andb_true_iff in H as [Hc Hr].
    apply rep_end_spec in Hr as (run & tail & -> & Hlen & Hall & Htail).
    exists (c :: run), tail. split_and!; [done | cbn; lia | cbn; lia | | done].
    cbn. by rewrite Hc.
  - intros (run & tail & -> & [Hlo Hhi] & Hall & Htail).
    destruct run as [| c run]; [cbn in Hlo; lia |].
    cbn in Hall. apply andb_true_iff in Hall as [Hc Hrun].
    change (PyStr.of_chars (c :: run) ++ tail)
      with (String c (PyStr.of_chars run ++ tail)).
    lazy beta iota. rewrite Hc. cbn [andb]. apply rep_end_spec.
    exists run, tail. split_and!; [done | cbn in Hhi; lia | done | done].
Qed.

(** ** The identifiers a class accepts (rest_resources.py, [identifier_regex]
    and [valid_identifier]) *)

(** X1. What [identifier_regex.match] lets through: for every class, the
    strings made of the leading capital (catalogs only), then between one and
    nineteen characters of the class's alphabet, then nothing or one final
    newline; nothing else. *)
Theorem identifier_grammar (b : Base) (s : string) :
  regex_match (identifier_regex b) s = true ↔
  ∃ head run tail,
    s = head ++ PyStr.of_chars run ++ tail
    ∧ match Res.lead (identifier_regex b) with
      | None => head = ""
      | Some q => ∃ c, head = String c "" ∧ q c = true
      end
    ∧ (1 <= length run <= 19)%nat
    ∧ forallb (Res.body (identifier_regex b)) run = true
    ∧ (tail = "" ∨ tail = String PyStr.newline "").
Proof.
  unfold regex_match.
  destruct b; cbn [identifier_regex Res.lead Res.body max_rep Nat.sub].
  2: { (* catalogs: a capital first *)
    split.
    - destruct s as [| c r]; [done |]. intros H.
      apply andb_true_iff in H as [Hc Hr].
      apply rep1_spec in Hr as (run & tail & -> & Hlen & Hall & Htail).
      exists (String c ""), run, tail.
      split; [done |]. split; [by exists c |]. done.
    - intros (head & run & tail & -> & (c & -> & Hc) & Hlen & Hall & Htail).
      change (String c "" ++ PyStr.of_chars run ++ tail)
        with (String c (PyStr.of_chars run ++ tail)).
      lazy beta iota. rewrite Hc. cbn [andb]. apply rep1_spec. by exists run, tail. }
  all: rewrite rep1_spec; split;
    [ intros (run & tail & -> & Hlen & Hall & Htail);
      by exists "", run, tail
    | intros (head & run & tail & -> & -> & Hlen & Hall & Htail);
      by exists run, tail ].
Qed.

Lemma digits_pattern_natural (n : Z) :
  0 <= n →
  regex_match (mkPattern None PyStr.is_digit 19) (PyStr.str_of_int n)
  = (n <? 10 ^ 19).
Proof.
  intros Hn. unfold regex_match. cbn [Res.lead Res.body max_rep Nat.sub].
  destruct (n <? 10 ^ 19) eqn:Hrange.
  - apply Z.ltb_lt in Hrange.
    destruct (str_of_int_digits n 19) as (ds & -> & Hall & Hval & Hlen); [lia | lia |].
    apply rep1_spec. exists ds, "". rewrite append_nil_r.
    split; [done |]. split; [done |]. split; [done | by left].
  - apply Z.ltb_ge in Hrange.
    destruct (str_of_int_natural n Hn) as (ds & -> & Hall & Hval).
    apply not_true_is_false. intros H.
    apply rep1_spec in H as (run & tail & Heq & Hlen & Hrun & Htail).
    apply (f_equal PyStr.chars) in Heq.
    rewrite chars_app, !chars_of_chars in Heq. subst ds.
    destruct Htail as [-> | ->]; cbn [PyStr.chars] in *.
    + rewrite app_nil_r in *.
      pose proof (digits_value_bound run Hall) as [_ Hlt].
      assert (10 ^ Z.of_nat (length run) <= 10 ^ 19)
        by (apply Z.pow_le_mono_r; lia).
      lia.
    + rewrite forallb_app in Hall. apply andb_true_iff in Hall as [_ Hnl].
      by vm_compute in Hnl.
Qed.

Lemma digits_pattern_negative (n : Z) :
  n < 0 →
  regex_match (mkPattern None PyStr.is_digit 19) (PyStr.str_of_int n) = false.
Proof.
  intros Hn. unfold PyStr.str_of_int.
  destruct (n <? 0) eqn:Hneg; [| apply Z.ltb_ge in Hneg; lia].
  reflexivity.
Qed.

Lemma int_of_str_of_int (n : Z) :
  0 <= n → PyStr.int_of_digits (PyStr.str_of_int n) = n.
Proof.
  intros Hn. destruct (str_of_int_natural n Hn) as (ds & -> & Hall & Hval).
  by rewrite int_of_digits_value.
Qed.

(** X2. The integer ids of users and user resources: [valid_identifier]
    accepts an integer id exactly when it lies in [0, 10^19), and gives the
    same answer for it and for its decimal text (as it arrives in a URL or as
    the username of an Authorization header), namely the integer itself;
    outside the range both raise [NoValidIdentifierError]. *)
Theorem integer_identifier_normalized (n : Z) :
  let answer :=
    if (0 <=? n) && (n <? 10 ^ 19) then Ok (Some (IdInt n))
    else Raise NoValidIdentifierError in
  valid_identifier BaseUser (Some (IdInt n)) = answer
  ∧ valid_identifier BaseUser (Some (IdStr (PyStr.str_of_int n))) = answer
  ∧ valid_identifier BaseUserResource (Some (IdInt n)) = answer
  ∧ valid_identifier BaseUserResource (Some (IdStr (PyStr.str_of_int n))) = answer.
Proof.
  intros answer.
  assert (H : match Resource_valid_identifier BaseUser
                      (Some (IdStr (PyStr.str_of_int n))) with
              | Ok _ => Ok (Some (IdInt (PyStr.int_of_digits (PyStr.str_of_int n))))
              | Raise e => Raise e
              end = answer).
  { unfold Resource_valid_identifier, answer.
    cbn [identifier_regex Res.str].
    destruct (0 <=? n) eqn:Hsign; cbn [andb].
    - apply Z.leb_le in Hsign. rewrite digits_pattern_natural by exact Hsign.
      destruct (n <? 10 ^ 19); [| reflexivity].
      by rewrite int_of_str_of_int.
    - apply Z.leb_gt in Hsign. by rewrite digits_pattern_negative. }
  split_and!; exact H.
Qed.

(** ** Batches of tasks (gae.py, [issue_tasks]) *)

Lemma batches_concat {T : Type} (tasks : list T) (n : nat) :
  concat (map (fun batch => take 100 (drop (batch * 100) tasks)) (seq 0 n))
  = take (n * 100) tasks.
Proof.
  induction n as [| n IH]; [reflexivity |].
  rewrite seq_S, map_app, concat_app, IH. cbn [map concat Nat.add].
  rewrite app_nil_r, take_take_drop. f_equal. lia.
Qed.

Lemma batches_full {T : Type} (tasks : list T) (n : nat) :
  (n * 100 <= length tasks)%nat →
  length <$> map (fun batch => take 100 (drop (batch * 100) tasks)) (seq 0 n)
  = replicate n 100%nat.
Proof.
  induction n as [| n IH]; intros Hn; [reflexivity |].
  rewrite seq_S, map_app, fmap_app, IH by lia. cbn [map fmap list_fmap Nat.add].
  rewrite length_take, length_drop.
  replace (100 `min` (length tasks - n * 100))%nat with 100%nat by lia.
  change (S n) with (1 + n)%nat.
  rewrite Nat.add_comm, replicate_add. reflexivity.
Qed.

(** X3. [issue_tasks] hands every task to the queue exactly once and in
    order; nothing is added for an empty list; otherwise there are
    [len // 100] batches of a hundred followed by one batch with the
    remaining [len % 100] tasks, which is an empty batch when the number of
    tasks is a multiple of a hundred. *)
Theorem issue_tasks_batches {T : Type} (tasks : list T) :
  concat (Gae.issue_tasks tasks) = tasks
  ∧ match tasks with
    | [] => Gae.issue_tasks tasks = []
    | _ :: _ =>
        length <$> Gae.issue_tasks tasks
        = (replicate (length tasks / 100)%nat 100%nat
           ++ [(length tasks mod 100)%nat])%list
    end.
Proof.
  destruct tasks as [| t tasks]; [done |].
  unfold Gae.issue_tasks. set (l := t :: tasks). cbv zeta.
  split.
  - rewrite batches_concat. apply take_ge.
    pose proof (Nat.div_mod_eq (length l) 100).
    pose proof (Nat.mod_upper_bound (length l) 100). lia.
  - rewrite Nat.add_comm. change (1 + length l / 100)%nat with (S (length l / 100)).
    rewrite seq_S, map_app, fmap_app. cbn [Nat.add map fmap list_fmap].
    pose proof (Nat.div_mod_eq (length l) 100) as Hdm.
    pose proof (Nat.mod_upper_bound (length l) 100 ltac:(lia)) as Hlt.
    rewrite batches_full by lia.
    f_equal. rewrite length_take, length_drop. f_equal. lia.
Qed.

(** ** Writing markup (markup.py, [XMLElement.write] and [page_navigator]) *)

(** induction over a node and the nodes of its content *)
Lemma Node_content_ind (P : Markup.Node → Prop)
    (HText : ∀ s, P (Markup.Text s))
    (HElement : ∀ type attributes content,
        Forall P content → P (Markup.Element type attributes content)) :
  ∀ n, P n.
Proof.
  exact (fix IH (n : Markup.Node) : P n :=
           match n with
           | Markup.Text s => HText s
           | Markup.Element type attributes content =>
               HElement type attributes content
                 ((fix all (l : list Markup.Node) : Forall P l :=
                     match l with
                     | [] => List.Forall_nil P
                     | x :: r => @List.Forall_cons _ P x r (IH x) (all r)
                     end) content)
           end).
Qed.

Lemma list_max_exceeds (l : list nat) (m : nat) :
  (m < list_max l)%nat ↔ Exists (fun k => (m < k)%nat) l.
Proof.
  induction l as [| k l IH]; cbn [list_max fold_right].
  - rewrite Exists_nil. lia.
  - rewrite Exists_cons, <- IH. unfold list_max. lia.
Qed.




(** ** Minutes and their text (ffe_time.py, [string_from_minutes] and
    [minutes_from_string]) *)

Lemma is_digit_byte (c : ascii) :
  PyStr.is_digit c = true ↔ 48 <= PyStr.byte_of c <= 57.
Proof.
  unfold PyStr.is_digit, PyStr.in_range.
  rewrite andb_true_iff, !Z.leb_le. done.
Qed.

Lemma split_without (sep : ascii) (s : string) :
  sep ∉ PyStr.chars s → PyStr.split sep s = [s].
Proof.
  induction s as [| c s IH]; intros Hs; [reflexivity |].
  cbn [PyStr.chars] in Hs. apply not_elem_of_cons in Hs as [Hc Hs].
  cbn [PyStr.split]. destruct (Ascii.eqb_spec c sep) as [-> | _]; [done |].
  by rewrite (IH Hs).
Qed.

Lemma split_at_first (sep : ascii) (a b : string) :
  sep ∉ PyStr.chars a →
  PyStr.split sep (a ++ String sep b) = a :: PyStr.split sep b.
Proof.
  induction a as [| c a IH]; intros Ha.
  - change ("" ++ String sep b) with (String sep b).
    cbn [PyStr.split]. by rewrite Ascii.eqb_refl.
  - cbn [PyStr.chars] in Ha. apply not_elem_of_cons in Ha as [Hc Ha].
    change (String c a ++ String sep b) with (String c (a ++ String sep b)).
    cbn [PyStr.split]. destruct (Ascii.eqb_spec c sep) as [-> | _]; [done |].
    by rewrite (IH Ha).
Qed.

Lemma lstrip_head (c : ascii) (l : list ascii) :
  PyStr.is_space c = false → PyStr.lstrip (c :: l) = c :: l.
Proof. intros H. cbn. by rewrite H. Qed.

(** nothing is stripped from a text that neither starts nor ends with
    white space *)
Lemma strip_solid (c : ascii) (l : list ascii) (d : ascii) :
  PyStr.is_space c = false → PyStr.is_space d = false →
  last (c :: l) = Some d → PyStr.strip (c :: l) = c :: l.
Proof.
  intros Hc Hd Hlast. unfold PyStr.strip. rewrite (lstrip_head c l Hc).
  destruct (rev (c :: l)) as [| d' r] eqn:Hrev.
  - apply (f_equal (@length _)) in Hrev. rewrite length_rev in Hrev. done.
  - assert (d' = d) as ->.
    { rewrite <- (rev_involutive (c :: l)), Hrev in Hlast.
      cbn [rev] in Hlast. rewrite last_snoc in Hlast. congruence. }
    rewrite (lstrip_head d r Hd), <- Hrev. apply rev_involutive.
Qed.

Lemma digit_not_space (c : ascii) :
  PyStr.is_digit c = true → PyStr.is_space c = false.
Proof.
  rewrite is_digit_byte. intros H. unfold PyStr.is_space.
  apply orb_false_iff. split; [apply Z.eqb_neq; lia |].
  apply andb_false_iff. right. apply Z.leb_gt. lia.
Qed.

Lemma digits_last (ds : list ascii) (d : ascii) :
  forallb PyStr.is_digit ds = true → last ds = Some d → PyStr.is_digit d = true.
Proof.
  intros Hall Hlast. rewrite forallb_forall in Hall. apply Hall.
  apply list_elem_of_In. rewrite last_lookup in Hlast.
  by eapply list_elem_of_lookup_2.
Qed.

(** [int] reads a non-empty run of digits as its value *)
Lemma py_int_digits (ds : list ascii) :
  ds ≠ [] → forallb PyStr.is_digit ds = true →
  PyStr.py_int (PyStr.of_chars ds) = Some (PyStr.digits_value ds).
Proof.
  intros Hne Hall. unfold PyStr.py_int. rewrite chars_of_chars.
  destruct ds as [| c ds]; [done |].
  destruct (last (c :: ds)) as [d |] eqn:Hlast;
    [| by apply last_None in Hlast].
  pose proof (digits_last _ _ Hall Hlast) as Hd.
  assert (Hc : PyStr.is_digit c = true) by (cbn in Hall; by apply andb_true_iff in Hall as [? _]).
  rewrite (strip_solid c ds d) by auto using digit_not_space.
  destruct (Ascii.eqb_spec c "-") as [-> | _]; [by vm_compute in Hc |].
  destruct (Ascii.eqb_spec c "+") as [-> | _]; [by vm_compute in Hc |].
  by rewrite Hall.
Qed.

(** and a minus sign before the digits as the opposite *)
Lemma py_int_negative (ds : list ascii) :
  ds ≠ [] → forallb PyStr.is_digit ds = true →
  PyStr.py_int (String "-" (PyStr.of_chars ds)) = Some (- PyStr.digits_value ds).
Proof.
  intros Hne Hall. unfold PyStr.py_int. cbn [PyStr.chars]. rewrite chars_of_chars.
  destruct (last ds) as [d |] eqn:Hlast; [| by apply last_None in Hlast].
  pose proof (digits_last _ _ Hall Hlast) as Hd.
  rewrite (strip_solid "-" ds d); [| by vm_compute | by apply digit_not_space |].
  - cbn [Ascii.eqb Bool.eqb]. destruct ds as [| c ds]; [done |]. by rewrite Hall.
  - destruct ds; [done | exact Hlast].
Qed.

Lemma str_of_int_negative (n : Z) :
  n < 0 →
  ∃ ds, PyStr.str_of_int n = String "-" (PyStr.of_chars ds)
        ∧ ds ≠ []
        ∧ forallb PyStr.is_digit ds = true
        ∧ PyStr.digits_value ds = - n.
Proof.
  intros Hn. unfold PyStr.str_of_int.
  destruct (n <? 0) eqn:Hneg; [| apply Z.ltb_ge in Hneg; lia].
  destruct (digits_aux_digits (Z.to_nat (Z.log2 (- n)) + 1) (- n) ""
              (Z.to_nat (Z.log2 (- n)) + 1))
    as (ds & Heq & Hall & Hval & Hlen); try lia.
  - split; [lia |]. apply pow10_log2. lia.
  - apply pow10_log2. lia.
  - exists ds. rewrite Heq, append_nil_r. split_and!; try done.
    intros ->. cbn in Hlen. lia.
Qed.

(** [int(str(n))] is [n], for every integer *)
Lemma py_int_str_of_int (n : Z) : PyStr.py_int (PyStr.str_of_int n) = Some n.
Proof.
  destruct (Z_lt_le_dec n 0) as [Hneg | Hpos].
  - destruct (str_of_int_negative n Hneg) as (ds & -> & Hne & Hall & Hval).
    rewrite py_int_negative by done. f_equal. lia.
  - destruct (str_of_int_digits n (Z.to_nat (Z.log2 n) + 1))
      as (ds & -> & Hall & Hval & Hlen); [| lia |].
    + split; [lia |]. by apply pow10_log2.
    + rewrite py_int_digits; [by rewrite Hval | | done].
      intros ->. cbn in Hlen. lia.
Qed.

(** the characters of [str(n)]: digits, after a minus sign for a negative
    number *)
Lemma str_of_int_chars (n : Z) (c : ascii) :
  c ∈ PyStr.chars (PyStr.str_of_int n) → c = "-"%char ∨ PyStr.is_digit c = true.
Proof.
  destruct (Z_lt_le_dec n 0) as [Hneg | Hpos].
  - destruct (str_of_int_negative n Hneg) as (ds & -> & Hne & Hall & Hval).
    cbn [PyStr.chars]. rewrite chars_of_chars, elem_of_cons.
    intros [-> | Hin]; [by left | right].
    rewrite forallb_forall in Hall. by apply Hall, list_elem_of_In.
  - destruct (str_of_int_natural n Hpos) as (ds & -> & Hall & Hval).
    rewrite chars_of_chars. intros Hin. right.
    rewrite forallb_forall in Hall. by apply Hall, list_elem_of_In.
Qed.

(** ['%02d' % r] for [0 <= r < 100]: two digits that read back as [r] *)
Lemma fmt_02d_digits (r : Z) :
  0 <= r < 100 →
  ∃ d1 d2, PyStr.fmt_0d 2 r = PyStr.of_chars [d1; d2]
           ∧ PyStr.is_digit d1 = true ∧ PyStr.is_digit d2 = true
           ∧ PyStr.digits_value [d1; d2] = r.
Proof.
  intros Hr. unfold PyStr.fmt_0d.
  destruct (r <? 10 ^ Z.of_nat 2) eqn:Hlt; [| apply Z.ltb_ge in Hlt; cbn in Hlt; lia].
  exists (PyStr.digit_char ((r / 10) mod 10)), (PyStr.digit_char (r mod 10)).
  destruct (digit_char_digit ((r / 10) mod 10)) as [H1 V1];
    [apply Z.mod_pos_bound; lia |].
  destruct (digit_char_digit (r mod 10)) as [H2 V2];
    [apply Z.mod_pos_bound; lia |].
  split_and!; try done.
  unfold PyStr.digits_value. cbn [fold_left]. rewrite V1, V2.
  rewrite (Z.mod_small (r / 10) 10).
  - rewrite (Z.div_mod r 10) at 3 by lia. lia.
  - split; [apply Z.div_pos; lia | apply Z.div_lt_upper_bound; lia].
Qed.

(** X6. [minutes_from_string] reads back what [string_from_minutes] writes,
    for every integer number of minutes (a negative number of minutes is
    written with a negative hour and a minute between 00 and 59). *)
Theorem minutes_round_trip (minutes : Z) :
  Clock.minutes_from_string (Clock.string_from_minutes minutes) = Some minutes.
Proof.
  unfold Clock.minutes_from_string, Clock.string_from_minutes.
  destruct (fmt_02d_digits (minutes mod 60)) as (d1 & d2 & -> & H1 & H2 & Hval);
    [pose proof (Z.mod_pos_bound minutes 60); lia |].
  change (":" ++ PyStr.of_chars [d1; d2]) with (String ":" (PyStr.of_chars [d1; d2])).
  rewrite split_at_first, split_without.
  - rewrite py_int_str_of_int, py_int_digits, Hval; [| done | cbn; by rewrite H1, H2].
    f_equal. rewrite (Z.div_mod minutes 60) at 3 by lia. lia.
  - rewrite chars_of_chars, !not_elem_of_cons. split_and!.
    + intros <-. by vm_compute in H1.
    + intros <-. by vm_compute in H2.
    + apply not_elem_of_nil.
  - intros Hin. apply str_of_int_chars in Hin as [Hin | Hin]; by vm_compute in Hin.
Qed.

(** ** Parameter lists (ffe_utils.py, [paramslist_from_dict] and
    [dict_from_paramslist]) *)

Lemma is_token_spec (p : ascii → bool) (s : string) :
  is_token p s = true ↔ PyStr.chars s ≠ [] ∧ forallb p (PyStr.chars s) = true.
Proof.
  unfold is_token. rewrite andb_true_iff, negb_true_iff.
  destruct s; cbn; [split; intros [? ?]; done |].
  split; intros [_ ?]; done.
Qed.

Lemma span_run (p : ascii → bool) (l : list ascii) (c : ascii) (r : list ascii) :
  forallb p l = true → p c = false →
  Utils.span p (l ++ c :: r) = (l, c :: r).
Proof.
  intros Hl Hc. induction l as [| x l IH]; cbn.
  - by rewrite Hc.
  - cbn in Hl. apply andb_true_iff in Hl as [Hx Hl]. by rewrite Hx, (IH Hl).
Qed.

Lemma findall_skip (l rest : list ascii) :
  Utils.findall (length l) (l ++ rest) = Utils.findall 0 rest.
Proof. induction l as [| c l IH]; [by destruct rest | exact IH]. Qed.

(** the text written for one parameter, as characters *)
Lemma printed_param_chars (k v : string) :
  PyStr.chars (k ++ "=" ++ PyStr.quoted v)
  = (PyStr.chars k ++ "="%char :: PyStr.quote :: PyStr.chars v ++ [PyStr.quote])%list.
Proof.
  unfold PyStr.quoted. rewrite chars_app.
  change (PyStr.chars ("=" ++ String PyStr.quote (v ++ String PyStr.quote "")))
    with ("="%char :: PyStr.quote :: PyStr.chars (v ++ String PyStr.quote "")).
  by rewrite chars_app.
Qed.

Lemma match_param_printed (k v : string) (rest : list ascii) :
  plain_param k v →
  Utils.match_param
    (PyStr.chars k ++ "="%char :: PyStr.quote :: PyStr.chars v ++ PyStr.quote :: rest)
  = Some (k, v, (length (PyStr.chars k) + 1 + 0 + 1 + length (PyStr.chars v) + 1)%nat).
Proof.
  intros [Hk Hv]. apply is_token_spec in Hk as [Hk0 Hk], Hv as [Hv0 Hv].
  unfold Utils.match_param.
  rewrite (span_run PyStr.is_word) by done.
  destruct (PyStr.chars k) as [| k0 kr] eqn:Ek; [done |].
  rewrite Ascii.eqb_refl.
  change (Utils.skip_optional " " (PyStr.quote :: ?r)) with (0%nat, PyStr.quote :: r).
  cbn [Utils.skip_optional]. rewrite Ascii.eqb_refl.
  rewrite (span_run Utils.is_value_char) by done.
  destruct (PyStr.chars v) as [| v0 vr] eqn:Ev; [done |].
  cbn [Utils.skip_optional]. rewrite Ascii.eqb_refl.
  by rewrite <- Ek, <- Ev, !of_chars_chars.
Qed.

Lemma findall_printed (k v : string) (rest : list ascii) :
  plain_param k v →
  Utils.findall 0 (PyStr.chars (k ++ "=" ++ PyStr.quoted v) ++ rest)
  = (k, v) :: Utils.findall 0 rest.
Proof.
  intros Hkv. rewrite printed_param_chars.
  rewrite <- !app_assoc. cbn [app]. rewrite <- app_assoc. cbn [app].
  pose proof (match_param_printed k v rest Hkv) as Hmatch.
  destruct Hkv as [Hk _]. apply is_token_spec in Hk as [Hk0 _].
  destruct (PyStr.chars k) as [| k0 kr] eqn:Ek; [done |].
  cbn [app Utils.findall]. cbn [app] in Hmatch. rewrite Hmatch.
  f_equal.
  set (tail := (kr ++ "="%char :: PyStr.quote :: PyStr.chars v ++ [PyStr.quote])%list).
  assert (Htail : (kr ++ "="%char :: PyStr.quote :: PyStr.chars v ++ PyStr.quote :: rest
                   = tail ++ rest)%list).
  { subst tail. rewrite <- !app_assoc. cbn [app]. by rewrite <- app_assoc. }
  assert (Hlen : (length (k0 :: kr) + 1 + 0 + 1 + length (PyStr.chars v) + 1 - 1
                  = length tail)%nat).
  { subst tail. rewrite length_app. cbn [length]. rewrite length_app. cbn [length]. lia. }
  rewrite Htail, Hlen. apply findall_skip.
Qed.

Lemma findall_separator (s : list ascii) :
  Utils.findall 0 (PyStr.chars ", " ++ s) = Utils.findall 0 s.
Proof. reflexivity. Qed.

(** reading what was written gives the items back, in order *)
Lemma findall_paramslist (items : list (string * string)) :
  Forall (fun kv => plain_param kv.1 kv.2) items →
  Utils.findall 0 (PyStr.chars (Utils.paramslist_from_dict items)) = items.
Proof.
  unfold Utils.paramslist_from_dict.
  induction items as [| [k v] items IH]; intros Hall; [reflexivity |].
  apply Forall_cons in Hall as [Hkv Hall]. specialize (IH Hall).
  destruct items as [| kv' items].
  - cbn [map PyStr.join fst snd].
    rewrite <- (app_nil_r (PyStr.chars _)), findall_printed by done. done.
  - change (PyStr.join ", " (map _ ((k, v) :: kv' :: items)))
      with ((k ++ "=" ++ PyStr.quoted v) ++ ", "
            ++ PyStr.join ", " (map (fun kv => kv.1 ++ "=" ++ PyStr.quoted kv.2)
                                    (kv' :: items))).
    rewrite chars_app, findall_printed by done.
    rewrite chars_app, findall_separator. by rewrite IH.
Qed.

Lemma dict_of_pairs_items (m : gmap string string) :
  Utils.dict_of_pairs (map_to_list m) = m.
Proof.
  unfold Utils.dict_of_pairs.
  rewrite <- fold_left_rev_right.
  change (fold_right _ ∅ (rev (map_to_list m)))
    with (list_to_map (M := gmap string string) (rev (map_to_list m))).
  rewrite <- (list_to_map_to_list m) at 2.
  apply list_to_map_proper.
  - rewrite <- Permutation_rev. apply NoDup_fst_map_to_list.
  - symmetry. apply Permutation_rev.
Qed.



(** ** What a parameter list can hold *)

Lemma span_prefix (p : ascii → bool) (s : list ascii) :
  forallb p (Utils.span p s).1 = true.
Proof.
  induction s as [| c s IH]; [reflexivity |]. cbn.
  destruct (p c) eqn:Hc; [| reflexivity].
  destruct (Utils.span p s) as [a b]. cbn in *. by rewrite Hc.
Qed.

Lemma match_param_value (s : list ascii) (k v : string) (n : nat) :
  Utils.match_param s = Some (k, v, n) →
  forallb Utils.is_value_char (PyStr.chars v) = true.
Proof.
  unfold Utils.match_param.
  destruct (Utils.span PyStr.is_word s) as [k0 r1].
  destruct k0 as [| k0 kr]; [done |]. destruct r1 as [| e r2]; [done |].
  destruct (Ascii.eqb e "="); [| done].
  destruct (Utils.skip_optional " " r2) as [n1 r3].
  destruct (Utils.skip_optional PyStr.quote r3) as [n2 r4].
  pose proof (span_prefix Utils.is_value_char r4) as Hv.
  destruct (Utils.span Utils.is_value_char r4) as [v0 r5].
  destruct v0 as [| v0 vr]; [done |].
  destruct (Utils.skip_optional PyStr.quote r5) as [n3 r6].
  intros [= <- <- <-].
  change (String v0 (PyStr.of_chars vr)) with (PyStr.of_chars (v0 :: vr)).
  by rewrite chars_of_chars.
Qed.

Lemma findall_values (s : list ascii) :
  ∀ skip, Forall (fun kv => forallb Utils.is_value_char (PyStr.chars kv.2) = true)
                 (Utils.findall skip s).
Proof.
  induction s as [| c s IH]; intros skip; [constructor |].
  cbn [Utils.findall]. destruct skip as [| skip]; [| apply IH].
  destruct (Utils.match_param (c :: s)) as [[[k v] n] |] eqn:Hm; [| apply IH].
  constructor; [| apply IH]. exact (match_param_value _ _ _ _ Hm).
Qed.

Lemma dict_of_pairs_Forall (P : string → string → Prop) (l : list (string * string)) :
  Forall (fun kv => P kv.1 kv.2) l → map_Forall P (Utils.dict_of_pairs l).
Proof.
  unfold Utils.dict_of_pairs. generalize (∅ : gmap string string) (map_Forall_empty P).
  induction l as [| [k v] l IH]; intros m Hm Hl; [exact Hm |].
  apply Forall_cons in Hl as [Hkv Hl]. cbn [fold_left].
  apply IH; [| exact Hl]. by apply map_Forall_insert_2.
Qed.

(** every value read from a parameter list is made of word characters,
    [.], [@] and [/] *)
Lemma dict_from_paramslist_values (paramslist key value : string) :
  Utils.dict_from_paramslist paramslist !! key = Some value →
  forallb Utils.is_value_char (PyStr.chars value) = true.
Proof.
  intros Hlookup.
  exact (dict_of_pairs_Forall
           (fun _ v => forallb Utils.is_value_char (PyStr.chars v) = true) _
           (findall_values _ 0) key value Hlookup).
Qed.

(** ** Digest authentication (rest_interface.py, [authenticate] and
    [require_authentication]; ffe_utils.py, [auth_header]) *)

Lemma valid_identifier_error (b : Base) (identifier : option Ident) (e : Error) :
  valid_identifier b identifier = Raise e → e = NoValidIdentifierError.
Proof.
  unfold valid_identifier, Resource_valid_identifier.
  destruct b, identifier as [i |]; repeat case_match; congruence.
Qed.

(** [cls.get] answers with what is stored, or raises [NoValidIdentifierError];
    the stores stay as they are *)
Lemma get_outcomes (cls : ResourceClass) (i : Ident) (w : World) :
  (∃ r, Model.get cls i w = (Ok r, w))
  ∨ Model.get cls i w = (Raise NoValidIdentifierError, w).
Proof.
  unfold Model.get, bind, lift, get_by_id, ret.
  destruct (valid_identifier (base cls) (Some i)) as [[i' |] | e] eqn:Hvalid.
  - left. by eexists.
  - left. by eexists.
  - right. by rewrite (valid_identifier_error _ _ _ Hvalid).
Qed.

Lemma authenticate_needs_plain_path (h : Handler) (now : Time.datetime)
    (req : Request) (w : World) :
  forallb Utils.is_value_char (PyStr.chars (path req)) = false →
  ∃ user, authenticate h now req w = (Ok (false, user), w).
Proof.
  intros Hpath. unfold authenticate.
  destruct (authorization req) as [auth_header |]; [| by eexists].
  destruct (String.eqb auth_header ""); [by eexists |]. cbv zeta.
  destruct (Utils.dict_from_paramslist auth_header !! "username"); [| by eexists].
  destruct (Utils.dict_from_paramslist auth_header !! "nonce"); [| by eexists].
  destruct (Utils.dict_from_paramslist auth_header !! "cnonce"); [| by eexists].
  destruct (Utils.dict_from_paramslist auth_header !! "nc"); [| by eexists].
  destruct (Utils.dict_from_paramslist auth_header !! "realm"); [| by eexists].
  destruct (Utils.dict_from_paramslist auth_header !! "qop"); [| by eexists].
  destruct (Utils.dict_from_paramslist auth_header !! "uri") as [uri |] eqn:Huri;
    [| by eexists].
  destruct (Utils.dict_from_paramslist auth_header !! "opaque"); [| by eexists].
  destruct (Utils.dict_from_paramslist auth_header !! "response"); [| by eexists].
  destruct (negb (String.eqb _ (realm (user_class h)))); [by eexists |].
  destruct (negb (opaque_is_current _ _ now)); [by eexists |].
  assert (Hne : String.eqb uri (path req) = false).
  { apply not_true_is_false. intros Heq. apply String.eqb_eq in Heq. subst uri.
    apply dict_from_paramslist_values in Huri. congruence. }
  unfold bind, try_except.
  destruct (get_outcomes (user_class h) (IdStr s) w) as [[[user |] ->] | ->].
  - rewrite Hne. by eexists.
  - by eexists.
  - rewrite decide_True by done. by eexists.
Qed.



Lemma hex_char_word (d : Z) : 0 <= d < 16 → PyStr.is_word (MD5.hex_char d) = true.
Proof.
  intros Hd.
  assert (d = 0 ∨ d = 1 ∨ d = 2 ∨ d = 3 ∨ d = 4 ∨ d = 5 ∨ d = 6 ∨ d = 7 ∨ d = 8
          ∨ d = 9 ∨ d = 10 ∨ d = 11 ∨ d = 12 ∨ d = 13 ∨ d = 14 ∨ d = 15)
    as H by lia.
  repeat (destruct H as [-> | H]; [by vm_compute |]). subst. by vm_compute.
Qed.

Lemma le_bytes_range (n : nat) :
  ∀ x, Forall (fun b => 0 <= b < 256) (MD5.le_bytes n x).
Proof.
  induction n as [| n IH]; intros x; cbn [MD5.le_bytes]; constructor; [| apply IH].
  change 255 with (Z.ones 8). rewrite Z.land_ones by lia.
  apply Z.mod_pos_bound. lia.
Qed.

Lemma hex_words (bs : list Z) :
  Forall (fun b => 0 <= b < 256) bs →
  forallb PyStr.is_word (PyStr.chars (MD5.hex bs)) = true.
Proof.
  induction 1 as [| b bs Hb _ IH]; [reflexivity |].
  cbn [MD5.hex PyStr.chars forallb]. rewrite IH, !andb_true_r.
  apply andb_true_iff. split; apply hex_char_word.
  - rewrite Z.shiftr_div_pow2 by lia. change (2 ^ 4) with 16.
    split; [apply Z.div_pos; lia | apply Z.div_lt_upper_bound; lia].
  - change 15 with (Z.ones 4). rewrite Z.land_ones by lia.
    apply Z.mod_pos_bound. lia.
Qed.

(** an MD5 hash is a non-empty word of hexadecimal digits *)
Lemma md5_hash_token (components : list string) :
  is_token PyStr.is_word (Utils.md5_hash components) = true.
Proof.
  apply is_token_spec. unfold Utils.md5_hash, MD5.hexdigest, MD5.digest.
  destruct (MD5.chunks _ _ _) as [[[a b] c] d].
  split.
  - cbn [MD5.le_bytes app MD5.hex PyStr.chars]. done.
  - apply hex_words. rewrite !Forall_app. split_and!; apply le_bytes_range.
Qed.

Lemma word_value_char (c : ascii) :
  PyStr.is_word c = true → Utils.is_value_char c = true.
Proof. intros H. unfold Utils.is_value_char. by rewrite H. Qed.

Lemma digit_word (c : ascii) : PyStr.is_digit c = true → PyStr.is_word c = true.
Proof.
  intros H. unfold PyStr.is_word. unfold PyStr.is_digit in H. rewrite H.
  by rewrite !orb_true_r.
Qed.

Lemma token_weaken (p q : ascii → bool) (s : string) :
  (∀ c, p c = true → q c = true) → is_token p s = true → is_token q s = true.
Proof.
  intros Hpq. rewrite !is_token_spec. intros [Hne Hall]. split; [exact Hne |].
  rewrite forallb_forall in *. auto.
Qed.

Lemma str_of_int_token (n : Z) :
  0 <= n → is_token PyStr.is_digit (PyStr.str_of_int n) = true.
Proof.
  intros Hn.
  destruct (str_of_int_digits n (Z.to_nat (Z.log2 n) + 1))
    as (ds & -> & Hall & Hval & Hlen); [| lia |].
  - split; [lia |]. by apply pow10_log2.
  - apply is_token_spec. rewrite chars_of_chars. split; [| done].
    intros ->. cbn in Hlen. lia.
Qed.

Lemma findall_digest (l : list ascii) :
  Utils.findall 0 (PyStr.chars "Digest " ++ l) = Utils.findall 0 l.
Proof. reflexivity. Qed.

(** reading a [Digest] header written from a dictionary of plain parameters *)
Lemma digest_header_read (dictionary : gmap string string) :
  map_Forall plain_param dictionary →
  Utils.dict_from_paramslist
    ("Digest " ++ Utils.paramslist_from_dict (map_to_list dictionary))
  = dictionary.
Proof.
  intros Hplain. unfold Utils.dict_from_paramslist.
  rewrite chars_app, findall_digest, findall_paramslist; [apply dict_of_pairs_items |].
  apply Forall_forall. intros [k v] Hin. apply elem_of_map_to_list in Hin.
  exact (Hplain k v Hin).
Qed.

Ltac find_param :=
  repeat (rewrite lookup_insert_ne by (intros ?; discriminate));
  rewrite lookup_insert_eq.

(** X9. The challenge and its answer fit together.  For a stored user with
    a password hash and an id in [0, 10^19), a realm and a request path made
    of word characters, [.], [@] and [/], and a nonce drawn from the natural
    numbers: the header [auth_header] builds from the challenge of
    [require_authentication] is accepted by [authenticate] for that user, at
    every time whose twelve-minute bucket - or that of five minutes earlier -
    is the bucket of the challenge, and the stores stay as they are. *)
Theorem digest_handshake
    (h : Handler) (w : World) (issued now : Time.datetime) (rnd : Z)
    (user : Entity) (n : Z) (secret : string) (req : Request) :
  base (user_class h) = BaseUser →
  0 <= rnd →
  0 <= n < 10 ^ 19 →
  key user = (class_name (user_class h), IdInt n) →
  datastore w !! key user = Some user →
  ha1 user = Some secret →
  is_token Utils.is_value_char (realm (user_class h)) = true →
  is_token Utils.is_value_char (path req) = true →
  bucket now = bucket issued
  ∨ bucket (now - Time.timedelta_minutes 5) = bucket issued →
  ∃ challenge header,
    require_authentication h issued rnd w
    = (Ok (mkResponse 401 [("WWW-Authenticate", challenge)] (Some "text/html") None), w)
    ∧ auth_header (method req) (path req) challenge user = Ok header
    ∧ authenticate h now (answered req header) w = (Ok (true, Some user), w).
Proof.
  intros Hbase Hrnd Hn Hkey Hstored Hha1 Hrealm Hpath Hbucket.
  set (cls := user_class h) in *.
  set (nonce := PyStr.str_of_int rnd).
  set (opaque := opaque_from_nonce nonce issued).
  set (items := [("realm", realm cls); ("qop", "auth"); ("nonce", nonce);
                 ("opaque", opaque)]).
  assert (Hnonce : is_token Utils.is_value_char nonce = true).
  { apply (token_weaken PyStr.is_digit); [| by apply str_of_int_token].
    intros c Hc. by apply word_value_char, digit_word. }
  assert (Hhash : ∀ l, is_token Utils.is_value_char (Utils.md5_hash l) = true).
  { intros l. apply (token_weaken PyStr.is_word); [| apply md5_hash_token].
    apply word_value_char. }
  assert (Hitems : Forall (fun kv => plain_param kv.1 kv.2) items).
  { repeat constructor; cbn [fst snd]; try done. apply Hhash. }
  assert (Hchallenge :
    Utils.dict_from_paramslist ("Digest " ++ Utils.paramslist_from_dict items)
    = Utils.dict_of_pairs items).
  { unfold Utils.dict_from_paramslist.
    by rewrite chars_app, findall_digest, findall_paramslist. }
  set (ha2 := Utils.md5_hash [method req; path req]).
  set (response :=
    Utils.md5_hash [secret; nonce; "00000001"; "0a4f113b"; "auth"; ha2]).
  set (params :=
    <["response" := response]>
      (<["cnonce" := "0a4f113b"]>
         (<["nc" := "00000001"]>
            (<["uri" := path req]>
               (<["username" := username user]> (Utils.dict_of_pairs items)))))).
  assert (Husername : username user = PyStr.str_of_int n).
  { unfold username, id_. by rewrite Hkey. }
  assert (Hplain : map_Forall plain_param params).
  { subst params.
    apply map_Forall_insert_2; [split; [reflexivity | apply Hhash] |].
    apply map_Forall_insert_2; [split; reflexivity |].
    apply map_Forall_insert_2; [split; reflexivity |].
    apply map_Forall_insert_2; [split; [reflexivity | exact Hpath] |].
    apply map_Forall_insert_2; [split; [reflexivity |] |].
    - rewrite Husername. apply (token_weaken PyStr.is_digit); [| apply str_of_int_token; lia].
      intros c Hc. by apply word_value_char, digit_word.
    - by apply dict_of_pairs_Forall. }
  exists ("Digest " ++ Utils.paramslist_from_dict items),
         ("Digest " ++ Utils.paramslist_from_dict (map_to_list params)).
  split_and!.
  - reflexivity.
  - unfold auth_header. rewrite Hchallenge.
    unfold Utils.dict_of_pairs, items. cbn [fold_left fst snd].
    find_param. find_param. unfold md5_hash_ha1. rewrite Hha1. reflexivity.
  - unfold authenticate, answered. cbn [authorization path method].
    replace (String.eqb ("Digest " ++ Utils.paramslist_from_dict (map_to_list params)) "")
      with false by reflexivity.
    cbv zeta. rewrite (digest_header_read params Hplain).
    assert (Hlookups :
      params !! "username" = Some (username user)
      ∧ params !! "nonce" = Some nonce
      ∧ params !! "cnonce" = Some "0a4f113b"
      ∧ params !! "nc" = Some "00000001"
      ∧ params !! "realm" = Some (realm cls)
      ∧ params !! "qop" = Some "auth"
      ∧ params !! "uri" = Some (path req)
      ∧ params !! "opaque" = Some opaque
      ∧ params !! "response" = Some response).
    { subst params. unfold Utils.dict_of_pairs, items. cbn [fold_left fst snd].
      split_and!; by find_param. }
    destruct Hlookups as (-> & -> & -> & -> & -> & -> & -> & -> & ->).
    rewrite String.eqb_refl. cbn [negb].
    subst opaque. rewrite (opaque_is_current_here nonce issued now Hbucket). cbn [negb].
    unfold try_except, Model.get, bind, lift, get_by_id.
    fold cls. rewrite Hbase, Husername.
    unfold valid_identifier, Resource_valid_identifier. cbn [Res.str identifier_regex].
    rewrite digits_pattern_natural by lia.
    replace (n <? 10 ^ 19) with true by (symmetry; apply Z.ltb_lt; lia).
    rewrite int_of_str_of_int by lia. lazy beta iota.
    rewrite <- Hkey, Hstored.
    rewrite String.eqb_refl. cbn [negb].
    unfold md5_hash_ha1. rewrite Hha1. unfold ret.
    fold ha2. fold response. by rewrite String.eqb_refl.
Qed.

Lemma digest_handshake_witness :
  ∃ challenge header,
    require_authentication books noon 123456 library
    = (Ok (mkResponse 401 [("WWW-Authenticate", challenge)] (Some "text/html") None),
       library)
    ∧ auth_header "PUT" "/api/books/moby" challenge admin = Ok header
    ∧ authenticate books (after_noon 3 0) (answered replayed_put header) library
      = (Ok (true, Some admin), library).
Proof.
  apply (digest_handshake books library noon (after_noon 3 0) 123456 admin 1
           (Utils.md5_hash ["1"; "tests@firstflamingo.com"; "secret"]) replayed_put).
  - reflexivity.
  - lia.
  - lia.
  - reflexivity.
  - vm_compute. reflexivity.
  - reflexivity.
  - reflexivity.
  - reflexivity.
  - left. vm_compute. reflexivity.
Defined.

(** ** Storing, fetching and deleting (rest_resources.py, [put], [get],
    [delete], [all_ids]) *)

(** invalidating the catalog of a class touches the catalog of that class
    and nothing else *)
Lemma invalidate_catalog_frame (cls : ResourceClass) (now : Time.datetime)
    (w : World) :
  well_keyed w →
  ∃ w1, invalidate_catalog cls now w = (Ok tt, w1)
        ∧ well_keyed w1
        ∧ memcache w1 = memcache w
        ∧ ∀ k, k ≠ catalog_key cls → datastore w1 !! k = datastore w !! k.
Proof.
  intros Hk. unfold invalidate_catalog, bind, ret, Catalog_get, get_by_id.
  fold (catalog_key cls). unfold bind, ret.
  destruct (datastore w !! catalog_key cls) as [c |] eqn:Hc.
  - pose proof (Hk _ _ Hc) as Hkey.
    unfold Catalog_invalidate. destruct (catalog c).
    + eexists. split; [reflexivity |]. split_and!.
      * by apply well_keyed_put.
      * reflexivity.
      * intros k Hne. cbn. rewrite Hkey. by rewrite lookup_insert_ne.
    + exists w. by split_and!.
  - unfold Catalog_new, Catalog_invalidate. cbn.
    eexists. split; [reflexivity |]. split_and!.
    + apply (well_keyed_insert w
               (set_last_modified now
                  (set_class_module (module_name cls)
                     (instance Catalog_kind (IdStr (class_name cls)))))
               (memcache w) Hk).
    + reflexivity.
    + intros k Hne. cbn. by rewrite lookup_insert_ne.
Qed.

Lemma put_stores (cls : ResourceClass) (self : Entity) (now : Time.datetime)
    (w : World) :
  well_keyed w →
  ∃ w1, Model.put cls self now w = (Ok (set_last_modified now self), w1)
        ∧ well_keyed w1
        ∧ memcache w1 = memcache w
        ∧ (key self ≠ catalog_key cls →
           datastore w1 !! key self = Some (set_last_modified now self))
        ∧ ∀ k, k ≠ key self → k ≠ catalog_key cls →
               datastore w1 !! k = datastore w !! k.
Proof.
  intros Hk.
  assert (Hplain : ∃ w1, ndb_put now self w = (Ok (set_last_modified now self), w1)
        ∧ well_keyed w1
        ∧ memcache w1 = memcache w
        ∧ datastore w1 !! key self = Some (set_last_modified now self)
        ∧ ∀ k, k ≠ key self → datastore w1 !! k = datastore w !! k).
  { eexists. split; [reflexivity |]. split_and!.
    - by apply well_keyed_put.
    - reflexivity.
    - cbn. apply lookup_insert_eq.
    - intros k Hne. cbn. by rewrite lookup_insert_ne. }
  destruct Hplain as (w0 & Hput & Hk0 & Hmem0 & Hself0 & Hother0).
  unfold Model.put.
  destruct (base cls);
    try (exists w0; split_and!; [exact Hput | exact Hk0 | exact Hmem0
                               | intros _; exact Hself0
                               | intros k Hne _; by apply Hother0]).
  unfold bind, ret. rewrite Hput.
  destruct (invalidate_catalog_frame cls now w0 Hk0) as (w1 & -> & Hk1 & Hmem1 & Hother1).
  exists w1. split_and!; [reflexivity | exact Hk1 | congruence | |].
  - intros Hne. by rewrite Hother1.
  - intros k Hne Hne'. rewrite Hother1 by done. by apply Hother0.
Qed.

Lemma delete_removes (cls : ResourceClass) (self : Entity) (now : Time.datetime)
    (w : World) :
  well_keyed w →
  ∃ w2, Model.delete cls self now w = (Ok tt, w2)
        ∧ well_keyed w2
        ∧ memcache w2 = base.delete (class_name cls ++ "_ids") (memcache w)
        ∧ (key self ≠ catalog_key cls → datastore w2 !! key self = None)
        ∧ ∀ k, k ≠ key self → k ≠ catalog_key cls →
               datastore w2 !! k = datastore w !! k.
Proof.
  intros Hk.
  set (w0 := mkWorld (base.delete (key self) (datastore w))
                     (base.delete (class_name cls ++ "_ids") (memcache w))).
  assert (Hplain : Resource_delete cls self w = (Ok tt, w0)) by reflexivity.
  assert (Hk0 : well_keyed w0) by (by apply well_keyed_delete).
  unfold Model.delete.
  destruct (base cls);
    try (exists w0; split_and!;
         [exact Hplain | exact Hk0 | reflexivity
         | intros _; cbn; apply lookup_delete_eq
         | intros k Hne _; cbn; by rewrite lookup_delete_ne]).
  unfold bind. rewrite Hplain.
  destruct (invalidate_catalog_frame cls now w0 Hk0) as (w1 & -> & Hk1 & Hmem1 & Hother1).
  exists w1. split_and!; [reflexivity | exact Hk1 | by rewrite Hmem1 | |].
  - intros Hne. rewrite Hother1 by done. cbn. apply lookup_delete_eq.
  - intros k Hne Hne'. rewrite Hother1 by done. cbn. by rewrite lookup_delete_ne.
Qed.

Lemma instance_not_catalog (cls : ResourceClass) (i : Ident) :
  class_name cls ≠ Catalog_kind → ((class_name cls, i) : Key) ≠ catalog_key cls.
Proof. intros Hne Heq. apply Hne. by injection Heq. Qed.

(** X10. What is put can be fetched, and what is deleted is gone: for an
    instance whose key carries the class name and the identifier as
    [valid_identifier] returns it, [put] stores the instance stamped with
    the time of the call, [get] with any spelling of the identifier then
    returns exactly that, and after [delete] the same [get] returns None.
    (Classes other than the catalog itself.) *)
Theorem put_get_delete (cls : ResourceClass) (self : Entity)
    (identifier i : Ident) (now later : Time.datetime) (w : World) :
  well_keyed w →
  class_name cls ≠ Catalog_kind →
  valid_identifier (base cls) (Some identifier) = Ok (Some i) →
  key self = (class_name cls, i) →
  ∃ w1 w2,
    Model.put cls self now w = (Ok (set_last_modified now self), w1)
    ∧ Model.get cls identifier w1 = (Ok (Some (set_last_modified now self)), w1)
    ∧ Model.delete cls (set_last_modified now self) later w1 = (Ok tt, w2)
    ∧ Model.get cls identifier w2 = (Ok None, w2).
Proof.
  intros Hk Hname Hvalid Hkey.
  pose proof (instance_not_catalog cls i Hname) as Hnc.
  destruct (put_stores cls self now w Hk) as (w1 & Hput & Hk1 & _ & Hself & _).
  destruct (delete_removes cls (set_last_modified now self) later w1 Hk1)
    as (w2 & Hdel & _ & _ & Hgone & _).
  exists w1, w2. split_and!; [exact Hput | | exact Hdel |].
  - unfold Model.get, bind, lift, get_by_id. rewrite Hvalid.
    rewrite <- Hkey. by rewrite Hself by (by rewrite Hkey).
  - unfold Model.get, bind, lift, get_by_id. rewrite Hvalid.
    rewrite <- Hkey.
    change (key self) with (key (set_last_modified now self)).
    by rewrite Hgone by (cbn [set_last_modified key]; by rewrite Hkey).
Qed.

Lemma library_well_keyed : well_keyed library.
Proof.
  assert (HF : bool_decide (map_Forall (fun k e => key e = k) (datastore library))
               = true) by (vm_compute; reflexivity).
  apply bool_decide_eq_true in HF.
  intros k e Hk. exact (map_Forall_lookup_1 _ _ _ _ HF Hk).
Qed.

Lemma put_get_delete_witness :
  ∃ w1 w2,
    Model.put Book (book_entity "ulysses" "Ulysses" noon) (after_noon 1 0) library
    = (Ok (set_last_modified (after_noon 1 0) (book_entity "ulysses" "Ulysses" noon)), w1)
    ∧ Model.get Book (IdStr "ulysses") w1
      = (Ok (Some (set_last_modified (after_noon 1 0)
                     (book_entity "ulysses" "Ulysses" noon))), w1)
    ∧ Model.delete Book (set_last_modified (after_noon 1 0)
                           (book_entity "ulysses" "Ulysses" noon))
                   (after_noon 2 0) w1
      = (Ok tt, w2)
    ∧ Model.get Book (IdStr "ulysses") w2 = (Ok None, w2).
Proof.
  apply (put_get_delete Book (book_entity "ulysses" "Ulysses" noon)
           (IdStr "ulysses") (IdStr "ulysses") (after_noon 1 0) (after_noon 2 0) library).
  - exact library_well_keyed.
  - discriminate.
  - reflexivity.
  - reflexivity.
Defined.

(** the ids a keys-only query of a kind yields are those of the keys stored
    under the kind *)
Lemma elem_of_stored_ids (kind : string) (w : World) (i : Ident) :
  i ∈ stored_ids kind w ↔ is_Some (datastore w !! ((kind, i) : Key)).
Proof.
  unfold stored_ids. rewrite list_elem_of_fmap. split.
  - intros ([kind' j] & -> & Hin). apply list_elem_of_filter in Hin as [Hkind Hin].
    cbn in Hkind. subst kind'. cbn [snd].
    apply list_elem_of_fmap in Hin as ([k e] & Hk & Hin). cbn in Hk. subst k.
    apply elem_of_map_to_list in Hin. by exists e.
  - intros [e He]. exists (kind, i). split; [reflexivity |].
    apply list_elem_of_filter. split; [reflexivity |].
    apply list_elem_of_fmap. exists ((kind, i), e). split; [reflexivity |].
    by apply elem_of_map_to_list.
Qed.

(** X11. After [delete] the list of ids is computed afresh: the next
    [all_ids] returns exactly the identifiers of the instances of the class
    that were stored before, but for the deleted one, and keeps that list in
    the cache, from which a non-empty list is served again as it is. *)
Theorem all_ids_after_delete (cls : ResourceClass) (self : Entity) (i : Ident)
    (now : Time.datetime) (w : World) :
  well_keyed w →
  class_name cls ≠ Catalog_kind →
  key self = (class_name cls, i) →
  ∃ w2 ids w3,
    Model.delete cls self now w = (Ok tt, w2)
    ∧ all_ids cls w2 = (Ok ids, w3)
    ∧ (∀ j, j ∈ ids ↔ j ≠ i ∧ is_Some (datastore w !! ((class_name cls, j) : Key)))
    ∧ datastore w3 = datastore w2
    ∧ memcache w3 !! (class_name cls ++ "_ids") = Some ids
    ∧ (ids ≠ [] → all_ids cls w3 = (Ok ids, w3)).
Proof.
  intros Hk Hname Hkey.
  destruct (delete_removes cls self now w Hk) as (w2 & Hdel & Hk2 & Hmem & Hgone & Hother).
  exists w2, (stored_ids (class_name cls) w2),
    (mkWorld (datastore w2)
             (<[class_name cls ++ "_ids" := stored_ids (class_name cls) w2]> (memcache w2))).
  split_and!.
  - exact Hdel.
  - unfold all_ids. rewrite Hmem, lookup_delete_eq. reflexivity.
  - intros j. rewrite elem_of_stored_ids.
    destruct (decide (j = i)) as [-> | Hne].
    + rewrite <- Hkey, Hgone by (rewrite Hkey; by apply instance_not_catalog).
      split; [intros [? ?]; done | intros [? _]; done].
    + rewrite Hother.
      * split; [by intros ? | by intros [_ ?]].
      * rewrite Hkey. congruence.
      * by apply instance_not_catalog.
  - reflexivity.
  - cbn. apply lookup_insert_eq.
  - intros Hne. unfold all_ids. cbn [memcache]. rewrite lookup_insert_eq.
    destruct (stored_ids (class_name cls) w2); [done | reflexivity].
Qed.

Lemma all_ids_after_delete_witness :
  ∃ w2 ids w3,
    Model.delete Book emma (after_noon 3 0) library = (Ok tt, w2)
    ∧ all_ids Book w2 = (Ok ids, w3)
    ∧ (∀ j, j ∈ ids ↔ j ≠ IdStr "emma"
                       ∧ is_Some (datastore library !! (("Book", j) : Key)))
    ∧ datastore w3 = datastore w2
    ∧ memcache w3 !! "Book_ids" = Some ids
    ∧ (ids ≠ [] → all_ids Book w3 = (Ok ids, w3)).
Proof.
  apply (all_ids_after_delete Book emma (IdStr "emma") (after_noon 3 0) library).
  - exact library_well_keyed.
  - discriminate.
  - reflexivity.
Defined.

Lemma new_resets (cls : ResourceClass) (identifier r : option Ident)
    (now : Time.datetime) (w w0 : World) :
  well_keyed w →
  Model.new cls identifier now w = (Ok r, w0) →
  well_keyed w0
  ∧ memcache w0 = base.delete (class_name cls ++ "_ids") (memcache w)
  ∧ ∀ k, k ≠ catalog_key cls → datastore w0 !! k = datastore w !! k.
Proof.
  intros Hk.
  assert (Hplain : ∀ ident w' w0',
            well_keyed w' → Resource_new cls ident w' = (Ok r, w0') →
            well_keyed w0'
            ∧ memcache w0' = base.delete (class_name cls ++ "_ids") (memcache w')
            ∧ datastore w0' = datastore w').
  { intros ident w' w0' Hk'. unfold Resource_new, bind, lift, reset_ids, ret.
    destruct (valid_identifier (base cls) ident); [| discriminate].
    intros [= <- <-]. by split_and!. }
  unfold Model.new. destruct (base cls).
  - intros H. apply Hplain in H as (? & ? & ->); done.
  - intros H. apply Hplain in H as (? & ? & ->); done.
  - unfold bind.
    destruct (invalidate_catalog_frame cls now w Hk) as (w1 & -> & Hk1 & Hmem1 & Hother1).
    intros H. apply Hplain in H as (? & ? & Hd); [| done].
    split_and!; [done | congruence |]. intros k Hne. rewrite Hd. by apply Hother1.
  - intros H. apply Hplain in H as (? & ? & ->); done.
  - destruct identifier; [discriminate |].
    intros H. apply Hplain in H as (? & ? & ->); done.
Qed.

(** X12. A new instance is listed: after [new] with an identifier and [put]
    of the instance it names, [all_ids] returns the identifier of the new
    instance together with those of the instances of the class stored
    before, and no other. *)
Theorem all_ids_after_new_and_put (cls : ResourceClass) (identifier : option Ident)
    (i : Ident) (self : Entity) (now : Time.datetime) (w w0 : World) :
  well_keyed w →
  class_name cls ≠ Catalog_kind →
  Model.new cls identifier now w = (Ok (Some i), w0) →
  key self = (class_name cls, i) →
  ∃ w1 ids w2,
    Model.put cls self now w0 = (Ok (set_last_modified now self), w1)
    ∧ all_ids cls w1 = (Ok ids, w2)
    ∧ ∀ j, j ∈ ids ↔ j = i ∨ is_Some (datastore w !! ((class_name cls, j) : Key)).
Proof.
  intros Hk Hname Hnew Hkey.
  destruct (new_resets cls identifier (Some i) now w w0 Hk Hnew) as (Hk0 & Hmem0 & Hother0).
  destruct (put_stores cls self now w0 Hk0) as (w1 & Hput & Hk1 & Hmem1 & Hself & Hother1).
  exists w1, (stored_ids (class_name cls) w1),
    (mkWorld (datastore w1)
             (<[class_name cls ++ "_ids" := stored_ids (class_name cls) w1]> (memcache w1))).
  split_and!.
  - exact Hput.
  - unfold all_ids. rewrite Hmem1, Hmem0, lookup_delete_eq. reflexivity.
  - intros j. rewrite elem_of_stored_ids.
    destruct (decide (j = i)) as [-> | Hne].
    + rewrite <- Hkey, Hself by (rewrite Hkey; by apply instance_not_catalog).
      split; [by left | by eexists].
    + rewrite Hother1, Hother0.
      * split; [by right | by intros [? | ?]].
      * by apply instance_not_catalog.
      * rewrite Hkey. congruence.
      * by apply instance_not_catalog.
Qed.

Lemma all_ids_after_new_and_put_witness :
  ∃ w0 w1 ids w2,
    Model.new Book (Some (IdStr "ulysses")) (after_noon 1 0) library
    = (Ok (Some (IdStr "ulysses")), w0)
    ∧ Model.put Book (instance "Book" (IdStr "ulysses")) (after_noon 1 0) w0
      = (Ok (set_last_modified (after_noon 1 0) (instance "Book" (IdStr "ulysses"))), w1)
    ∧ all_ids Book w1 = (Ok ids, w2)
    ∧ ∀ j, j ∈ ids ↔ j = IdStr "ulysses"
                      ∨ is_Some (datastore library !! (("Book", j) : Key)).
Proof.
  eexists. 
  assert (Hnew : Model.new Book (Some (IdStr "ulysses")) (after_noon 1 0) library
                 = (Ok (Some (IdStr "ulysses")),
                    (Model.new Book (Some (IdStr "ulysses")) (after_noon 1 0) library).2))
    by reflexivity.
  destruct (all_ids_after_new_and_put Book (Some (IdStr "ulysses")) (IdStr "ulysses")
              (instance "Book" (IdStr "ulysses")) (after_noon 1 0) library _
              library_well_keyed ltac:(discriminate) Hnew eq_refl)
    as (w1 & ids & w2 & H1 & H2 & H3).
  exists w1, ids, w2. split; [exact Hnew |]. by split_and!.
Defined.

(** ** The handlers (rest_interface.py, [delete], [get], [put]) *)

(** what [resource] finds is stored under the class name and the validated
    identifier *)
Lemma resource_found (cls : ResourceClass) (p : Parsed) (w w' : World) (r : Entity) :
  resource cls p w = (Ok (Some r), w') →
  ∃ given i, resource_id p = Some given
             ∧ valid_resource_id p = true
             ∧ valid_identifier (base cls) (Some given) = Ok (Some i)
             ∧ datastore w !! ((class_name cls, i) : Key) = Some r.
Proof.
  unfold resource. destruct (valid_resource_id p) eqn:Hvalid; [| discriminate].
  destruct (resource_id p) as [given |]; [| discriminate].
  unfold Model.get, bind, lift, get_by_id, ret.
  destruct (valid_identifier (base cls) (Some given)) as [[i |] | e] eqn:Hi;
    [| discriminate | discriminate].
  intros [= Hr <-]. by exists given, i.
Qed.

(** X13. DELETE, once the request is authenticated: a path that names no
    stored resource is answered 404 and a resource the user is not
    authorized for 401, the stores staying as they are; otherwise the answer
    is 204, the resource is gone - the same path finds nothing, so that a
    second DELETE is answered 404 -, the cached list of ids of the class is
    dropped, and no other instance is touched. *)
Theorem delete_outcomes (h : Handler) (now : Time.datetime) (rnd : Z)
    (req : Request) (w : World) (user : option Entity) (p : Parsed)
    (found : option Entity) :
  well_keyed w →
  class_name (resource_class h) ≠ Catalog_kind →
  authenticate h now req w = (Ok (true, user), w) →
  parse_request_path (resource_class h) (path req) = Ok p →
  resource (resource_class h) p w = (Ok found, w) →
  match found with
  | None => Handler.delete h now rnd req w = (Ok (error 404), w)
  | Some r =>
      if resource_is_authorized h user found then
        ∃ w', Handler.delete h now rnd req w = (Ok (mkResponse 204 [] None None), w')
              ∧ resource (resource_class h) p w' = (Ok None, w')
              ∧ (∀ now' rnd' user',
                    authenticate h now' req w' = (Ok (true, user'), w') →
                    Handler.delete h now' rnd' req w' = (Ok (error 404), w'))
              ∧ memcache w' !! (class_name (resource_class h) ++ "_ids") = None
              ∧ ∀ k, k ≠ key r → k ≠ catalog_key (resource_class h) →
                     datastore w' !! k = datastore w !! k
      else Handler.delete h now rnd req w = (Ok (error 401), w)
  end.
Proof.
  intros Hk Hname Hauth Hpath Hres.
  set (cls := resource_class h) in *.
  assert (Hdelete : ∀ now rnd w user found,
            authenticate h now req w = (Ok (true, user), w) →
            resource cls p w = (Ok found, w) →
            Handler.delete h now rnd req w
            = match found with
              | Some r =>
                  if negb (resource_is_authorized h user found) then (Ok (error 401), w)
                  else (Model.delete cls r now ;;; ret (mkResponse 204 [] None None)) w
              | None => (Ok (error 404), w)
              end).
  { intros now0 rnd0 w0 user0 found0 Hauth0 Hres0.
    unfold Handler.delete. fold cls. unfold bind at 1 2 3, lift.
    rewrite Hauth0. cbn [fst snd negb]. rewrite Hpath, Hres0.
    destruct found0; [| reflexivity].
    by destruct (resource_is_authorized h user0 (Some e)). }
  rewrite (Hdelete now rnd w user found Hauth Hres).
  destruct found as [r |]; [| reflexivity].
  destruct (resource_is_authorized h user (Some r)); [| reflexivity].
  cbn [negb].
  destruct (resource_found cls p w w r Hres) as (given & i & Hgiven & Hvalid & Hi & Hstored).
  pose proof (Hk _ _ Hstored) as Hkey.
  destruct (delete_removes cls r now w Hk) as (w' & Hdel & Hk' & Hmem & Hgone & Hother).
  assert (Hres' : resource cls p w' = (Ok None, w')).
  { unfold resource. rewrite Hvalid, Hgiven.
    unfold Model.get, bind, lift, get_by_id. rewrite Hi.
    rewrite <- Hkey, Hgone; [reflexivity |].
    rewrite Hkey. by apply instance_not_catalog. }
  exists w'. split_and!.
  - unfold bind. by rewrite Hdel.
  - exact Hres'.
  - intros now' rnd' user' Hauth'.
    by rewrite (Hdelete now' rnd' w' user' None Hauth' Hres').
  - rewrite Hmem. apply lookup_delete_eq.
  - exact Hother.
Qed.

Lemma delete_outcomes_witness :
  ∃ w', Handler.delete books (after_noon 3 0) 7 delete_moby library
        = (Ok (mkResponse 204 [] None None), w')
        ∧ resource Book (mkParsed false true (Some (IdStr "moby"))) w' = (Ok None, w').
Proof.
  assert (Hauth : authenticate books (after_noon 3 0) delete_moby library
                  = (Ok (true, Some admin), library)) by (vm_compute; reflexivity).
  assert (Hpath : parse_request_path (resource_class books) (path delete_moby)
                  = Ok (mkParsed false true (Some (IdStr "moby"))))
    by (vm_compute; reflexivity).
  assert (Hres : resource (resource_class books)
                          (mkParsed false true (Some (IdStr "moby"))) library
                 = (Ok (Some moby), library)) by (vm_compute; reflexivity).
  assert (Hname : class_name (resource_class books) ≠ Catalog_kind) by discriminate.
  pose proof (delete_outcomes books (after_noon 3 0) 7 delete_moby library
                (Some admin) (mkParsed false true (Some (IdStr "moby"))) (Some moby)
                library_well_keyed Hname Hauth Hpath Hres) as H.
  assert (Hallowed : resource_is_authorized books (Some admin) (Some moby) = true)
    by reflexivity.
  cbv beta iota in H. rewrite Hallowed in H.
  destruct H as (w' & Hdel & Hgone & _).
  exists w'. split; [exact Hdel | exact Hgone].
Defined.

(** X14. Conditional GET of an instance: when the request may read the
    resource (the class is a publication, or the user is authenticated and
    authorized) and carries an [If-Modified-Since] header that parses, the
    stored [last_modified], cut to whole seconds, is compared with it: a
    stored second not after the header is answered 304 without content and
    without touching the stores; a later one goes on to content negotiation
    (406, or the resource written with status 200). *)
Theorem get_if_modified_since
    (utc_from_rfc1123 : string → Exc Time.datetime) (h : Handler)
    (now : Time.datetime) (rnd : Z) (req : Request) (w : World)
    (user : option Entity) (p : Parsed) (r : Entity) (lm t : Time.datetime)
    (header : string) :
  is_publication (base (resource_class h)) = true
  ∨ (authenticate h now req w = (Ok (true, user), w)
     ∧ resource_is_authorized h user (Some r) = true) →
  parse_request_path (resource_class h) (path req) = Ok p →
  resource (resource_class h) p w = (Ok (Some r), w) →
  last_modified r = Some lm →
  truthy_header (if_modified_since req) = Some header →
  utc_from_rfc1123 header = Ok t →
  Handler.get utc_from_rfc1123 h now rnd req w
  = if Time.replace_microsecond_0 lm <=? t
    then (Ok (mkResponse 304 [] None None), w)
    else match output_data_type (writable_data_types (resource_class h)) req with
         | None => (Ok (error 406), w)
         | Some data_type => write_output (resource_class h) r data_type 200 w
         end.
Proof.
  intros Hallowed Hpath Hres Hstored Hheader Ht.
  set (cls := resource_class h) in *.
  destruct (resource_found cls p w w r Hres) as (given & i & _ & Hvalid & _ & _).
  assert (Hclass : valid_class_url p = false).
  { destruct (parse_request_path_total cls (path req)) as (p' & Hp' & Hexcl).
    rewrite Hpath in Hp'. injection Hp' as <-.
    destruct (valid_class_url p) eqn:Hc; [| reflexivity].
    exfalso. apply Hexcl. by split. }
  unfold Handler.get. fold cls.
  assert (Hgate :
    (let pub := is_publication (base cls) in
     ∃ a, (if pub then ret (true, None) else authenticate h now req) w = (Ok a, w)
          ∧ negb (pub || a.1) = false
          ∧ negb (pub || resource_is_authorized h a.2 (Some r)) = false)).
  { cbv zeta. destruct Hallowed as [Hpub | [Hauth Hauthorized]].
    - rewrite Hpub. by exists (true, None).
    - destruct (is_publication (base cls)).
      + by exists (true, None).
      + exists (true, user). cbn [fst snd orb]. by rewrite Hauthorized. }
  cbv zeta in Hgate. destruct Hgate as (a & Ha & Hgate1 & Hgate2).
  cbv zeta. unfold bind at 1. rewrite Ha, Hgate1.
  unfold bind at 1, lift. rewrite Hpath, Hclass. cbn [andb].
  unfold bind at 1, ret at 1. unfold bind at 1. rewrite Hres, Hvalid.
  cbn [fmap option_fmap option_map]. rewrite Hgate2, Hheader.
  unfold bind, lift, not_modified_after, last_modified_utc, Time.mark_utc.
  cbn [target_entity]. rewrite Hstored, Ht.
  destruct (Time.replace_microsecond_0 lm <=? t); [reflexivity |].
  by destruct (output_data_type (writable_data_types cls) req).
Qed.

Lemma get_if_modified_since_witness :
  Handler.get strptime_rfc1123 accounts (after_noon 3 0) 7
              (get_own_account "Tue, 06 May 2014 12:00:00 GMT") library
  = (Ok (mkResponse 304 [] None None), library).
Proof.
  assert (Hauth : authenticate accounts (after_noon 3 0)
                    (get_own_account "Tue, 06 May 2014 12:00:00 GMT") library
                  = (Ok (true, Some reader), library)) by (vm_compute; reflexivity).
  assert (Hallowed : resource_is_authorized accounts (Some reader) (Some reader) = true)
    by (vm_compute; reflexivity).
  assert (Hpath : parse_request_path (resource_class accounts)
                    (path (get_own_account "Tue, 06 May 2014 12:00:00 GMT"))
                  = Ok (mkParsed false true (Some (IdInt 2))))
    by (vm_compute; reflexivity).
  assert (Hres : resource (resource_class accounts)
                          (mkParsed false true (Some (IdInt 2))) library
                 = (Ok (Some reader), library)) by (vm_compute; reflexivity).
  assert (Ht : strptime_rfc1123 "Tue, 06 May 2014 12:00:00 GMT" = Ok noon)
    by (vm_compute; reflexivity).
  rewrite (get_if_modified_since strptime_rfc1123 accounts (after_noon 3 0) 7
             (get_own_account "Tue, 06 May 2014 12:00:00 GMT") library
             (Some reader) (mkParsed false true (Some (IdInt 2))) reader noon noon
             "Tue, 06 May 2014 12:00:00 GMT"
             (or_intror (conj Hauth Hallowed)) Hpath Hres eq_refl eq_refl Ht).
  reflexivity.
Defined.

(** a successful [authenticate] has found the user *)
Lemma authenticate_true_user (h : Handler) (now : Time.datetime) (req : Request)
    (w w' : World) (user : option Entity) :
  authenticate h now req w = (Ok (true, user), w') → ∃ u, user = Some u.
Proof.
  unfold authenticate, bind, lift, ret, try_except.
  intros H. repeat case_match; simplify_eq; eauto.
Qed.

(** X15. PUT and DELETE change the stores only for an authenticated user
    who is authorized for what the path names: if either leaves the stores
    other than it found them, then [authenticate] accepted the request for a
    stored user, and [resource_is_authorized] holds for that user and the
    resource found at the path (for a path that names nothing, that is an
    administrator creating a publication). *)
Theorem stores_change_only_when_authorized
    (utc_from_rfc1123 : string → Exc Time.datetime) (h : Handler)
    (now : Time.datetime) (rnd : Z) (req : Request) (w : World) :
  (Handler.put utc_from_rfc1123 h now rnd req w).2 ≠ w
  ∨ (Handler.delete h now rnd req w).2 ≠ w →
  ∃ user p found,
    authenticate h now req w = (Ok (true, Some user), w)
    ∧ parse_request_path (resource_class h) (path req) = Ok p
    ∧ resource (resource_class h) p w = (Ok found, w)
    ∧ resource_is_authorized h (Some user) found = true.
Proof.
  set (cls := resource_class h).
  pose proof (authenticate_readonly h now req w) as Hro.
  destruct (authenticate h now req w) as [[[authenticated user] | e] w1] eqn:Hauth;
    cbn in Hro; subst w1.
  2: { intros [H | H]; exfalso; apply H.
       - unfold Handler.put, bind. by rewrite Hauth.
       - unfold Handler.delete, bind. by rewrite Hauth. }
  destruct authenticated.
  2: { intros [H | H]; exfalso; apply H.
       - unfold Handler.put, bind. by rewrite Hauth.
       - unfold Handler.delete, bind. by rewrite Hauth. }
  destruct (authenticate_true_user h now req w w user Hauth) as [u ->].
  destruct (parse_request_path cls (path req)) as [p | e] eqn:Hpath.
  2: { intros [H | H]; exfalso; apply H.
       - unfold Handler.put, bind, lift. fold cls. rewrite Hauth. cbn [fst negb].
         destruct (input_data_type cls req); [| reflexivity]. by rewrite Hpath.
       - unfold Handler.delete, bind, lift. fold cls. rewrite Hauth. cbn [fst negb].
         by rewrite Hpath. }
  pose proof (resource_readonly cls p w) as Hro.
  destruct (resource cls p w) as [[found | e] w1] eqn:Hres; cbn in Hro; subst w1.
  2: { intros [H | H]; exfalso; apply H.
       - unfold Handler.put, bind, lift. fold cls. rewrite Hauth. cbn [fst negb].
         destruct (input_data_type cls req); [| reflexivity]. by rewrite Hpath, Hres.
       - unfold Handler.delete, bind, lift. fold cls. rewrite Hauth. cbn [fst negb].
         by rewrite Hpath, Hres. }
  intros Hchanged. exists u, p, found.
  split; [reflexivity |]. split; [reflexivity |]. split; [exact Hres |].
  destruct (resource_is_authorized h (Some u) found) eqn:Hallowed; [reflexivity |].
  exfalso. destruct Hchanged as [H | H]; apply H.
  - unfold Handler.put, bind at 1, lift. fold cls. rewrite Hauth. cbn [fst snd negb].
    destruct (input_data_type cls req); [| reflexivity].
    unfold bind at 1. rewrite Hpath. unfold bind at 1. rewrite Hres.
    destruct found as [r |].
    + by rewrite Hallowed.
    + destruct (is_publication (base cls)); [| reflexivity].
      cbn in Hallowed. destruct (has_admin_privileges (user_class h) u); [done |].
      reflexivity.
  - unfold Handler.delete, bind at 1, lift. fold cls. rewrite Hauth. cbn [fst snd negb].
    unfold bind at 1. rewrite Hpath. unfold bind at 1. rewrite Hres.
    destruct found as [r |]; [| reflexivity].
    by rewrite Hallowed.
Qed.

Lemma stores_change_only_when_authorized_witness :
  ∃ user p found,
    authenticate books (after_noon 3 0) delete_moby library
    = (Ok (true, Some user), library)
    ∧ parse_request_path (resource_class books) (path delete_moby) = Ok p
    ∧ resource (resource_class books) p library = (Ok found, library)
    ∧ resource_is_authorized books (Some user) found = true.
Proof.
  apply (stores_change_only_when_authorized strptime_rfc1123 books (after_noon 3 0) 7
           delete_moby library).
  right. intros Heq.
  apply (f_equal (fun w => datastore w !! (("Book", IdStr "moby") : Key))) in Heq.
  vm_compute in Heq. discriminate Heq.
Defined.

(** ** Users and their passwords (rest_resources.py,
    [User.update_with_dictionary]) *)





(** ** The media type of a request (rest_interface.py, [input_data_type]) *)

Lemma split_head (sep : ascii) (s : string) :
  ∃ media rest,
    s = media ++ rest
    ∧ (sep ∉ PyStr.chars media)
    ∧ (rest = "" ∨ ∃ parameters, rest = String sep parameters)
    ∧ nth 0 (PyStr.split sep s) "" = media.
Proof.
  induction s as [| c s (media & rest & Hs & Hmedia & Hrest & Hnth)].
  - exists "", "". split_and!; [done | apply not_elem_of_nil | by left | done].
  - cbn [PyStr.split]. destruct (Ascii.eqb_spec c sep) as [-> | Hne].
    + exists "", (String sep s).
      split_and!; [done | apply not_elem_of_nil | right; by eexists | done].
    + exists (String c media), rest. split_and!.
      * change (String c media ++ rest) with (String c (media ++ rest)). by rewrite <- Hs.
      * cbn [PyStr.chars]. by apply not_elem_of_cons.
      * exact Hrest.
      * destruct (PyStr.split sep s) as [| first others]; cbn in *; by subst.
Qed.

Lemma split_head_unique (sep : ascii) (media rest : string) :
  sep ∉ PyStr.chars media →
  rest = "" ∨ (∃ parameters, rest = String sep parameters) →
  nth 0 (PyStr.split sep (media ++ rest)) "" = media.
Proof.
  intros Hmedia [-> | [parameters ->]].
  - by rewrite append_nil_r, split_without.
  - by rewrite split_at_first.
Qed.

Lemma type_for_string_spec (media : string) (data_type : nat) :
  DataType.type_for_string media = Some data_type ↔ DataType.s !! data_type = Some media.
Proof.
  unfold DataType.type_for_string, DataType.s. cbn [DataType.scan].
  destruct (String.eqb_spec media "application/xml") as [-> | Hxml].
  - split; [by intros [= <-] |]. intros H.
    destruct data_type as [| [| ?]]; cbn in H; [done | discriminate | discriminate].
  - destruct (String.eqb_spec media "application/json") as [-> | Hjson].
    + split; [by intros [= <-] |]. intros H.
      destruct data_type as [| [| ?]]; cbn in H; [discriminate | done | discriminate].
    + split; [discriminate |]. intros H.
      destruct data_type as [| [| ?]]; cbn in H; [congruence | congruence | discriminate].
Qed.

(** X18. What [input_data_type] reads from [Content-Type]: the text before
    the first [;] (the whole header when there is none), compared as it
    stands with the names of the data types; the type is returned when the
    name is that of a data type the class reads, and None in every other
    case - no header, an unknown name, blanks around the name, a type the
    class does not read. *)
Theorem input_data_type_reads (cls : ResourceClass) (req : Request) (data_type : nat) :
  input_data_type cls req = Some data_type ↔
  ∃ media rest,
    content_type req = Some (media ++ rest)
    ∧ (";"%char ∉ PyStr.chars media)
    ∧ (rest = "" ∨ ∃ parameters, rest = String ";" parameters)
    ∧ DataType.s !! data_type = Some media
    ∧ data_type ∈ readable_data_types cls.
Proof.
  unfold input_data_type. split.
  - destruct (content_type req) as [type_string |]; [| discriminate].
    destruct (split_head ";" type_string) as (media & rest & -> & Hmedia & Hrest & ->).
    destruct (DataType.type_for_string media) as [dt |] eqn:Htype; [| discriminate].
    destruct (bool_decide (dt ∈ readable_data_types cls)) eqn:Hreadable; [| discriminate].
    intros [= ->]. exists media, rest. split_and!; try done.
    + by apply type_for_string_spec.
    + by apply bool_decide_eq_true in Hreadable.
  - intros (media & rest & -> & Hmedia & Hrest & Htype & Hreadable).
    rewrite split_head_unique by done.
    apply type_for_string_spec in Htype. rewrite Htype.
    by rewrite bool_decide_eq_true_2.
Qed.

(** ** Reading publications (rest_interface.py, [get]) *)

(** X19. Publications are read without credentials: for a publication
    class, [get] answers the same, and leaves the same stores, whatever
    [Authorization] header the request carries, and it never answers 401. *)
Theorem public_get_ignores_credentials
    (utc_from_rfc1123 : string → Exc Time.datetime) (h : Handler)
    (now : Time.datetime) (rnd : Z) (req : Request) (w : World) :
  is_publication (base (resource_class h)) = true →
  (∀ header,
      Handler.get utc_from_rfc1123 h now rnd (answered req header) w
      = Handler.get utc_from_rfc1123 h now rnd req w)
  ∧ ∀ resp w',
      Handler.get utc_from_rfc1123 h now rnd req w = (Ok resp, w') →
      status_int resp ≠ 401.
Proof.
  intros Hpub. split.
  - intros header. unfold Handler.get. rewrite Hpub. reflexivity.
  - intros resp w' Hget.
    unfold Handler.get, write_output, write_output_catalog in Hget.
    unfold bind, lift, ret in Hget.
    rewrite Hpub in Hget. cbn [orb negb andb fst snd] in Hget.
    run_handler Hget; simplify_eq; cbn; discriminate.
Qed.

Lemma public_get_ignores_credentials_witness :
  Handler.get strptime_rfc1123 books (after_noon 5 0) 0
              (answered get_moby "Digest username=2") library
  = Handler.get strptime_rfc1123 books (after_noon 5 0) 0 get_moby library.
Proof.
  apply (public_get_ignores_credentials strptime_rfc1123 books (after_noon 5 0) 0
           get_moby library).
  reflexivity.
Defined.

(** ** From the path to the resource (rest_interface.py,
    [parse_request_path] and [resource]) *)

Lemma int_of_digits_run (run : list ascii) (tail : string) :
  forallb PyStr.is_digit run = true →
  tail = "" ∨ tail = String PyStr.newline "" →
  PyStr.int_of_digits (PyStr.of_chars run ++ tail) = PyStr.digits_value run.
Proof.
  intros Hrun [-> | ->].
  - rewrite append_nil_r. by apply int_of_digits_value.
  - rewrite <- (int_of_digits_value run Hrun).
    unfold PyStr.int_of_digits. rewrite chars_app, fold_left_app. reflexivity.
Qed.

(** a validated identifier passes validation again, unchanged *)
Lemma valid_identifier_idempotent (b : Base) (given i : Ident) :
  valid_identifier b (Some given) = Ok (Some i) →
  valid_identifier b (Some i) = Ok (Some i).
Proof.
  assert (Hnumber : ∀ b', identifier_regex b' = mkPattern None PyStr.is_digit 19 →
            match Resource_valid_identifier b' (Some (IdStr (str given))) with
            | Ok _ => Ok (Some (IdInt (PyStr.int_of_digits (str given))))
            | Raise e => Raise e
            end = Ok (Some i) →
            match Resource_valid_identifier b' (Some (IdStr (str i))) with
            | Ok _ => Ok (Some (IdInt (PyStr.int_of_digits (str i))))
            | Raise e => Raise e
            end = Ok (Some i)).
  { intros b' Hpattern. unfold Resource_valid_identifier. rewrite Hpattern.
    cbn [str]. destruct (regex_match _ (str given)) eqn:Hmatch; [| discriminate].
    intros [= <-].
    unfold regex_match in Hmatch. cbn [Res.lead Res.body max_rep Nat.sub] in Hmatch.
    apply rep1_spec in Hmatch as (run & tail & -> & Hlen & Hrun & Htail).
    rewrite (int_of_digits_run run tail Hrun Htail).
    pose proof (digits_value_bound run Hrun) as [Hlo Hhi].
    assert (10 ^ Z.of_nat (length run) <= 10 ^ 19)
      by (apply Z.pow_le_mono_r; lia).
    cbn [str]. rewrite digits_pattern_natural by lia.
    replace (PyStr.digits_value run <? 10 ^ 19) with true
      by (symmetry; apply Z.ltb_lt; lia).
    by rewrite int_of_str_of_int. }
  destruct b; cbn [valid_identifier].
  - unfold Resource_valid_identifier. destruct (regex_match _ (str given)) eqn:Hm;
      [| discriminate]. intros [= <-]. by rewrite Hm.
  - unfold Resource_valid_identifier. destruct (regex_match _ (str given)) eqn:Hm;
      [| discriminate]. intros [= <-]. by rewrite Hm.
  - unfold Resource_valid_identifier. destruct (regex_match _ (str given)) eqn:Hm;
      [| discriminate]. intros [= <-]. by rewrite Hm.
  - by apply Hnumber.
  - by apply Hnumber.
Qed.


(** ** The HTTP date of a modification (ffe_time.py, [rfc1123_from_utc] and
    [utc_from_rfc1123]) *)

Lemma year_of_era (doe : Z) :
  0 <= doe < 146097 →
  let yoe := (doe - doe / 1460 + doe / 36524 - doe / 146096) / 365 in
  let doy := doe - (365 * yoe + yoe / 4 - yoe / 100) in
  0 <= yoe < 400 ∧ 0 <= doy < 366.
Proof.
  intros Hdoe. cbv zeta. Z.div_mod_to_equations. lia.
Qed.

Lemma month_of_year_day (doy : Z) :
  0 <= doy < 366 →
  let mp := (5 * doy + 2) / 153 in
  let d := doy - (153 * mp + 2) / 5 + 1 in
  0 <= mp < 12 ∧ 1 <= d <= 31.
Proof.
  intros Hdoy. cbv zeta. Z.div_mod_to_equations. lia.
Qed.

(** the date of a day count is a date, and counts back to the day *)
Lemma civil_round_trip (days : Z) :
  let '(y, m, d) := Time.civil_from_days days in
  days_from_civil y m d = days ∧ 1 <= m <= 12 ∧ 1 <= d <= 31.
Proof.
  unfold Time.civil_from_days.
  set (z := days + 719468).
  set (era := z / 146097).
  set (doe := z - era * 146097).
  assert (Hdoe : 0 <= doe < 146097).
  { subst doe era. Z.div_mod_to_equations. lia. }
  destruct (year_of_era doe Hdoe) as [Hyoe Hdoy]. cbv zeta in Hyoe, Hdoy.
  set (yoe := (doe - doe / 1460 + doe / 36524 - doe / 146096) / 365) in *.
  set (doy := doe - (365 * yoe + yoe / 4 - yoe / 100)) in *.
  destruct (month_of_year_day doy Hdoy) as [Hmp Hd]. cbv zeta in Hmp, Hd.
  set (mp := (5 * doy + 2) / 153) in *.
  set (d := doy - (153 * mp + 2) / 5 + 1) in *.
  cbv zeta.
  set (m := if mp <? 10 then mp + 3 else mp - 9).
  assert (Hm : (mp < 10 ∧ m = mp + 3) ∨ (10 <= mp ∧ m = mp - 9)).
  { subst m. destruct (Z.ltb_spec mp 10); [left | right]; lia. }
  assert (Hera : (yoe + era * 400) / 400 = era).
  { Z.div_mod_to_equations. lia. }
  split; [| lia].
  unfold days_from_civil.
  destruct Hm as [[Hlt ->] | [Hge ->]].
  - replace (mp + 3 <=? 2) with false by (symmetry; apply Z.leb_gt; lia).
    replace (2 <? mp + 3) with true by (symmetry; apply Z.ltb_lt; lia).
    cbv zeta. rewrite Z.add_0_r, Hera.
    replace (mp + 3 - 3) with mp by lia.
    replace (yoe + era * 400 - era * 400) with yoe by lia.
    subst d doy doe z. lia.
  - replace (mp - 9 <=? 2) with true by (symmetry; apply Z.leb_le; lia).
    replace (2 <? mp - 9) with false by (symmetry; apply Z.ltb_ge; lia).
    cbv zeta.
    replace (yoe + era * 400 + 1 - 1) with (yoe + era * 400) by lia.
    rewrite Hera.
    replace (mp - 9 + 9) with mp by lia.
    replace (yoe + era * 400 - era * 400) with yoe by lia.
    subst d doy doe z. lia.
Qed.

(** ['%0<w>d' % n] for [0 <= n < 10 ^ w]: [w] digits that read back as [n] *)
Lemma zero_pad_digits (w : nat) :
  ∀ n, 0 <= n < 10 ^ Z.of_nat w →
       ∃ ds, PyStr.zero_pad w n = PyStr.of_chars ds
             ∧ length ds = w
             ∧ forallb PyStr.is_digit ds = true
             ∧ PyStr.digits_value ds = n.
Proof.
  induction w as [| w IH]; intros n Hn.
  - exists []. cbn in Hn. split_and!; try done. unfold PyStr.digits_value. cbn. lia.
  - rewrite Nat2Z.inj_succ, Z.pow_succ_r in Hn by lia.
    destruct (IH (n / 10)) as (ds & Heq & Hlen & Hall & Hval).
    { split; [apply Z.div_pos; lia | apply Z.div_lt_upper_bound; lia]. }
    destruct (digit_char_digit (n mod 10)) as [Hdigit Hvalue];
      [apply Z.mod_pos_bound; lia |].
    exists (ds ++ [PyStr.digit_char (n mod 10)])%list. split_and!.
    + cbn [PyStr.zero_pad]. by rewrite Heq, of_chars_app.
    + rewrite length_app. cbn. lia.
    + rewrite forallb_app, Hall. cbn. by rewrite Hdigit.
    + rewrite digits_value_snoc, Hval, Hvalue.
      rewrite (Z.div_mod n 10) at 3 by lia. lia.
Qed.

Lemma fmt_0d_two (n : Z) :
  0 <= n < 100 →
  ∃ d1 d2, PyStr.fmt_0d 2 n = String d1 (String d2 "")
           ∧ PyStr.is_digit d1 = true ∧ PyStr.is_digit d2 = true
           ∧ PyStr.int_of_digits (String d1 (String d2 "")) = n.
Proof.
  intros Hn. unfold PyStr.fmt_0d.
  replace (n <? 10 ^ Z.of_nat 2) with true by (symmetry; apply Z.ltb_lt; cbn; lia).
  destruct (zero_pad_digits 2 n) as (ds & -> & Hlen & Hall & Hval); [cbn; lia |].
  destruct ds as [| d1 [| d2 [| ? ?]]]; try discriminate Hlen.
  exists d1, d2. cbn in Hall.
  apply andb_true_iff in Hall as [H1 H2]. rewrite andb_true_r in H2.
  split_and!; try done.
  rewrite <- Hval. apply (int_of_digits_value [d1; d2]). cbn. by rewrite H1, H2.
Qed.

Lemma fmt_0d_four (n : Z) :
  0 <= n < 10000 →
  ∃ d1 d2 d3 d4,
    PyStr.fmt_0d 4 n = String d1 (String d2 (String d3 (String d4 "")))
    ∧ PyStr.is_digit d1 = true ∧ PyStr.is_digit d2 = true
    ∧ PyStr.is_digit d3 = true ∧ PyStr.is_digit d4 = true
    ∧ PyStr.int_of_digits (String d1 (String d2 (String d3 (String d4 "")))) = n.
Proof.
  intros Hn. unfold PyStr.fmt_0d.
  replace (n <? 10 ^ Z.of_nat 4) with true by (symmetry; apply Z.ltb_lt; cbn; lia).
  destruct (zero_pad_digits 4 n) as (ds & -> & Hlen & Hall & Hval); [cbn; lia |].
  destruct ds as [| d1 [| d2 [| d3 [| d4 [| ? ?]]]]]; try discriminate Hlen.
  exists d1, d2, d3, d4. cbn in Hall.
  apply andb_true_iff in Hall as [H1 Hall].
  apply andb_true_iff in Hall as [H2 Hall].
  apply andb_true_iff in Hall as [H3 H4]. rewrite andb_true_r in H4.
  split_and!; try done.
  rewrite <- Hval. apply (int_of_digits_value [d1; d2; d3; d4]).
  cbn. by rewrite H1, H2, H3, H4.
Qed.

Lemma weekday_name (k : Z) :
  0 <= k < 7 →
  ∃ a b c, nth (Z.to_nat k) Time.weekday_names "" = String a (String b (String c ""))
           ∧ index_of Time.weekday_names (String a (String b (String c ""))) = Some k.
Proof.
  intros Hk.
  assert (k = 0 ∨ k = 1 ∨ k = 2 ∨ k = 3 ∨ k = 4 ∨ k = 5 ∨ k = 6)
    as [-> | [-> | [-> | [-> | [-> | [-> | ->]]]]]] by lia;
    do 3 eexists; split; reflexivity.
Qed.

Lemma month_name (k : Z) :
  0 <= k < 12 →
  ∃ a b c, nth (Z.to_nat k) Time.month_names "" = String a (String b (String c ""))
           ∧ index_of Time.month_names (String a (String b (String c ""))) = Some k.
Proof.
  intros Hk.
  assert (k = 0 ∨ k = 1 ∨ k = 2 ∨ k = 3 ∨ k = 4 ∨ k = 5 ∨ k = 6 ∨ k = 7 ∨ k = 8
          ∨ k = 9 ∨ k = 10 ∨ k = 11)
    as [-> | [-> | [-> | [-> | [-> | [-> | [-> | [-> | [-> | [-> | [-> | ->]]]]]]]]]]]
    by lia;
    do 3 eexists; split; reflexivity.
Qed.

(** what [rfc1123_from_utc] writes for a time in a year of four digits, the
    parser of ['%a, %d %b %Y %H:%M:%S GMT'] reads back as that time cut to
    whole seconds *)
Lemma rfc1123_parses_back (t : Time.datetime) :
  0 <= Time.year t < 10000 →
  strptime_rfc1123 (Time.rfc1123_from_utc t) = Ok (Time.replace_microsecond_0 t).
Proof.
  intros Hyear.
  pose proof (civil_round_trip (Time.epoch_days t)) as Hcivil.
  unfold Time.rfc1123_from_utc, Time.year, Time.month, Time.day in *.
  destruct (Time.civil_from_days (Time.epoch_days t)) as [[y m] d].
  cbn [fst snd] in *. destruct Hcivil as (Hdays & Hm & Hd).
  destruct (weekday_name (Time.weekday t)) as (wa & wb & wc & -> & Hweekday).
  { unfold Time.weekday. apply Z.mod_pos_bound. lia. }
  destruct (month_name (m - 1)) as (ma & mb & mc & -> & Hmonth); [lia |].
  destruct (fmt_0d_two d) as (d1 & d2 & -> & Hd1 & Hd2 & Hday); [lia |].
  destruct (fmt_0d_four y) as (y1 & y2 & y3 & y4 & -> & Hy1 & Hy2 & Hy3 & Hy4 & Hy);
    [lia |].
  destruct (fmt_0d_two (Time.hour t)) as (h1 & h2 & -> & Hh1 & Hh2 & Hhour).
  { unfold Time.hour. pose proof (Z.mod_pos_bound (Time.epoch_seconds t / 3600) 24). lia. }
  destruct (fmt_0d_two (Time.minute t)) as (n1 & n2 & -> & Hn1 & Hn2 & Hminute).
  { unfold Time.minute. pose proof (Z.mod_pos_bound (Time.epoch_seconds t / 60) 60). lia. }
  destruct (fmt_0d_two (Time.second t)) as (s1 & s2 & -> & Hs1 & Hs2 & Hsecond).
  { unfold Time.second. pose proof (Z.mod_pos_bound (Time.epoch_seconds t) 60). lia. }
  cbv [String.append].
  unfold strptime_rfc1123.
  cbv -[PyStr.is_digit PyStr.int_of_digits index_of days_from_civil Z.leb Z.ltb Z.mul
        Z.add Time.weekday_names Time.month_names Time.replace_microsecond_0 andb].
  rewrite Hd1, Hd2, Hy1, Hy2, Hy3, Hy4, Hh1, Hh2, Hn1, Hn2, Hs1, Hs2.
  rewrite Hday, Hy, Hhour, Hminute, Hsecond, Hweekday, Hmonth.
  replace (1 <=? d) with true by (symmetry; apply Z.leb_le; lia).
  replace (d <=? 31) with true by (symmetry; apply Z.leb_le; lia).
  replace (Time.hour t <? 24) with true.
  2: { symmetry. apply Z.ltb_lt. unfold Time.hour.
       pose proof (Z.mod_pos_bound (Time.epoch_seconds t / 3600) 24). lia. }
  replace (Time.minute t <? 60) with true.
  2: { symmetry. apply Z.ltb_lt. unfold Time.minute.
       pose proof (Z.mod_pos_bound (Time.epoch_seconds t / 60) 60). lia. }
  replace (Time.second t <? 62) with true.
  2: { symmetry. apply Z.ltb_lt. unfold Time.second.
       pose proof (Z.mod_pos_bound (Time.epoch_seconds t) 60). lia. }
  cbn [andb]. f_equal.
  replace (m - 1 + 1) with m by lia. rewrite Hdays.
  unfold Time.epoch_days, Time.hour, Time.minute, Time.second,
    Time.replace_microsecond_0, Time.epoch_seconds, Time.us_per_second.
  Z.div_mod_to_equations. lia.
Qed.

(** X21. The [Last-Modified] header names the stored second.  For a
    resource last modified in a year of four digits, [last_modified_http]
    gives a text that the parser of [utc_from_rfc1123] reads back as
    [last_modified] cut to whole seconds, which is [last_modified_utc]; so a
    request that echoes the header as [If-Unmodified-Since] or
    [If-Modified-Since] finds the resource not modified after it. *)
Theorem last_modified_header_round_trip (r : Entity) (lm : Time.datetime) :
  last_modified r = Some lm →
  0 <= Time.year lm < 10000 →
  ∃ header,
    last_modified_http r = Ok header
    ∧ strptime_rfc1123 header = Ok (Time.replace_microsecond_0 lm)
    ∧ strptime_rfc1123 header = last_modified_utc r
    ∧ not_modified_after strptime_rfc1123 r header = Ok true.
Proof.
  intros Hstored Hyear. exists (Time.rfc1123_from_utc lm).
  pose proof (rfc1123_parses_back lm Hyear) as Hparse.
  unfold last_modified_http, not_modified_after, last_modified_utc, Time.mark_utc.
  rewrite Hstored, Hparse. split_and!; try reflexivity.
  by rewrite Z.leb_refl.
Qed.

Lemma last_modified_header_round_trip_witness :
  ∃ header,
    last_modified_http moby = Ok header
    ∧ strptime_rfc1123 header = Ok (Time.replace_microsecond_0 (after_noon 1 0 + 250000))
    ∧ strptime_rfc1123 header = last_modified_utc moby
    ∧ not_modified_after strptime_rfc1123 moby header = Ok true.
Proof.
  apply (last_modified_header_round_trip moby (after_noon 1 0 + 250000)).
  - reflexivity.
  - replace (Time.year (after_noon 1 0 + 250000)) with 2014 by (vm_compute; reflexivity).
    lia.
Defined.

(** ** Month names (ffe_time.py, [index_for_string], [number_for_nl_month]
    and [nl_month_for_number]) *)

(** [index_for_string] finds the first place of the string *)
Lemma index_for_string_from_spec (array : list string) :
  ∀ (start : nat) (s : string) (index : nat),
    Clock.index_for_string_from start s array = Some index ↔
    ∃ i, index = (start + i)%nat ∧ array !! i = Some s
         ∧ ∀ j, (j < i)%nat → array !! j ≠ Some s.
Proof.
  induction array as [| a array IH]; intros start s index; cbn [Clock.index_for_string_from].
  - split; [discriminate | intros (i & _ & Hi & _); discriminate].
  - destruct (String.eqb_spec s a) as [-> | Hne].
    + split.
      * intros [= <-]. exists 0%nat. split_and!; [lia | done | intros j Hj; lia].
      * intros (i & -> & Hi & Hfirst). destruct i as [| i]; [f_equal; lia |].
        exfalso. apply (Hfirst 0%nat); [lia | done].
    + rewrite IH. split.
      * intros (i & -> & Hi & Hfirst). exists (S i). split_and!; [lia | done |].
        intros [| j] Hj; cbn; [congruence | apply Hfirst; lia].
      * intros (i & -> & Hi & Hfirst). destruct i as [| i]; [cbn in Hi; congruence |].
        exists i. split_and!; [lia | done |].
        intros j Hj. apply (Hfirst (S j)). lia.
Qed.

(** X22. Month names and month numbers: [number_for_nl_month] answers [n]
    for a name exactly when [nl_month_for_number] answers that name for [n];
    the numbers in play are 1 to 12, and any other string has no number. *)
Theorem nl_month_round_trip (number : Z) (month : string) :
  Clock.nl_month_for_number number = Some month
  ↔ Clock.number_for_nl_month month = Some number.
Proof.
  unfold Clock.nl_month_for_number, Clock.number_for_nl_month, Clock.index_for_string.
  split.
  - destruct ((0 <? number) && (number <=? 12)) eqn:Hrange; [| discriminate].
    apply andb_true_iff in Hrange as [Hlo Hhi].
    apply Z.ltb_lt in Hlo. apply Z.leb_le in Hhi.
    assert (number = 1 ∨ number = 2 ∨ number = 3 ∨ number = 4 ∨ number = 5
            ∨ number = 6 ∨ number = 7 ∨ number = 8 ∨ number = 9 ∨ number = 10
            ∨ number = 11 ∨ number = 12)
      as [-> | [-> | [-> | [-> | [-> | [-> | [-> | [-> | [-> | [-> | [-> | ->]]]]]]]]]]]
      by lia;
      intros [= <-]; reflexivity.
  - destruct (Clock.index_for_string_from 0 month Clock.MONTHS_NL) as [index |] eqn:Hindex;
      [| discriminate].
    intros [= <-].
    apply index_for_string_from_spec in Hindex as (i & -> & Hi & _).
    assert (Hbound : (i < 12)%nat).
    { apply lookup_lt_Some in Hi. exact Hi. }
    replace ((0 <? Z.of_nat (0 + i) + 1) && (Z.of_nat (0 + i) + 1 <=? 12)) with true.
    + replace (Z.to_nat (Z.of_nat (0 + i) + 1 - 1)) with i by lia. exact Hi.
    + symmetry. apply andb_true_iff. split; [apply Z.ltb_lt | apply Z.leb_le]; lia.
Qed.

(** ** Daylight saving time (ffe_time.py, [CET]) *)

Lemma epoch_days_midnight (y m d : Z) :
  Time.epoch_days (Zone.midnight y m d) = days_from_civil y m d.
Proof.
  unfold Time.epoch_days, Time.epoch_seconds, Zone.midnight, Time.us_per_second.
  generalize (days_from_civil y m d). intros D. Z.div_mod_to_equations. lia.
Qed.

Lemma april_after_march (y : Z) :
  days_from_civil y 4 1 = days_from_civil y 3 25 + 7
  ∧ days_from_civil y 3 31 = days_from_civil y 3 25 + 6.
Proof. unfold days_from_civil. cbn. Z.div_mod_to_equations. lia. Qed.

Lemma november_after_october (y : Z) :
  days_from_civil y 11 1 = days_from_civil y 10 25 + 7
  ∧ days_from_civil y 10 31 = days_from_civil y 10 25 + 6.
Proof. unfold days_from_civil. cbn. Z.div_mod_to_equations. lia. Qed.

(** the Sunday before a day: one to seven days earlier *)
Lemma sunday_before (D : Z) :
  let w := (D + 3) mod 7 in
  (D - (w + 1) + 3) mod 7 = 6 ∧ 1 <= w + 1 <= 7.
Proof. cbv zeta. Z.div_mod_to_equations. lia. Qed.

Lemma day_of_month (y m d k : Z) :
  days_from_civil y m (d + k) = days_from_civil y m d + k.
Proof. unfold days_from_civil. lia. Qed.

Lemma last_sunday (y m : Z) :
  days_from_civil y (m + 1) 1 = days_from_civil y m 25 + 7 →
  let d := Zone.midnight y (m + 1) 1 in
  let switch := d - Zone.timedelta_days (Time.weekday d + 1) in
  ∃ day, 25 <= day <= 31
         ∧ switch = Zone.midnight y m day
         ∧ Time.weekday switch = 6.
Proof.
  intros Hnext. cbv zeta.
  set (D := days_from_civil y (m + 1) 1) in *.
  assert (Hw : Time.weekday (Zone.midnight y (m + 1) 1) = (D + 3) mod 7).
  { unfold Time.weekday. by rewrite epoch_days_midnight. }
  rewrite Hw.
  destruct (sunday_before D) as [Hsunday Hback]. cbv zeta in Hsunday, Hback.
  set (w := (D + 3) mod 7) in *.
  exists (25 + (7 - (w + 1))).
  assert (Hswitch : Zone.midnight y (m + 1) 1 - Zone.timedelta_days (w + 1)
                    = Zone.midnight y m (25 + (7 - (w + 1)))).
  { unfold Zone.midnight, Zone.timedelta_days. rewrite day_of_month. fold D. lia. }
  split; [lia |]. split; [exact Hswitch |].
  rewrite Hswitch. unfold Time.weekday. rewrite epoch_days_midnight, day_of_month.
  rewrite <- Hsunday. f_equal. lia.
Qed.

(** X23. Daylight saving time as [CET] has it: in the year of a wall-clock
    time, [dston] is 00:00 on the last Sunday of March and [dstoff] is 00:00
    on the last Sunday of October, and the offset from UTC is two hours from
    [dston] up to, but not including, [dstoff], and one hour otherwise. *)
Theorem cet_daylight_saving_period (dt : Time.datetime) :
  let y := Time.year dt in
  (∃ day, 25 <= day <= 31
          ∧ Zone.dston y = Zone.midnight y 3 day
          ∧ Time.weekday (Zone.dston y) = 6)
  ∧ (∃ day, 25 <= day <= 31
            ∧ Zone.dstoff y = Zone.midnight y 10 day
            ∧ Time.weekday (Zone.dstoff y) = 6)
  ∧ Zone.CET_utcoffset dt
    = if decide (Zone.dston y <= dt < Zone.dstoff y)
      then Zone.timedelta_hours 2
      else Zone.timedelta_hours 1.
Proof.
  cbv zeta. split_and!.
  - apply (last_sunday (Time.year dt) 3). apply april_after_march.
  - apply (last_sunday (Time.year dt) 10). apply november_after_october.
  - unfold Zone.CET_utcoffset, Zone.CET_dst.
    destruct (Z.leb_spec (Zone.dston (Time.year dt)) dt);
      destruct (Z.ltb_spec dt (Zone.dstoff (Time.year dt)));
      cbn [andb]; case_decide; try lia; unfold Zone.timedelta_hours; lia.
Qed.

Lemma new_year_monotone (a b : Z) :
  a <= b → days_from_civil a 1 1 <= days_from_civil b 1 1.
Proof.
  intros Hab. unfold days_from_civil. cbn [Z.leb Z.ltb Z.compare Pos.compare
    Pos.compare_cont]. cbv zeta. Z.div_mod_to_equations. lia.
Qed.

Lemma within_year (y m d : Z) :
  1 <= m <= 12 → 1 <= d <= 31 →
  days_from_civil y 1 1 <= days_from_civil y m d < days_from_civil (y + 1) 1 1.
Proof.
  intros Hm Hd. unfold days_from_civil.
  cbn [Z.leb Z.ltb Z.compare Pos.compare Pos.compare_cont]. cbv zeta.
  replace (y + 1 - 1) with y by lia.
  destruct (Z.leb_spec m 2); destruct (Z.ltb_spec 2 m); try lia;
    Z.div_mod_to_equations; lia.
Qed.

(** the year of a time *)
Lemma year_of_range (t : Time.datetime) (y : Z) :
  Zone.midnight y 1 1 <= t < Zone.midnight (y + 1) 1 1 → Time.year t = y.
Proof.
  intros Hrange.
  assert (HD : days_from_civil y 1 1 <= Time.epoch_days t < days_from_civil (y + 1) 1 1).
  { revert Hrange.
    unfold Zone.midnight, Time.epoch_days, Time.epoch_seconds, Time.us_per_second.
    generalize (days_from_civil y 1 1) (days_from_civil (y + 1) 1 1). intros A B.
    Z.div_mod_to_equations. lia. }
  pose proof (civil_round_trip (Time.epoch_days t)) as Hcivil.
  unfold Time.year.
  destruct (Time.civil_from_days (Time.epoch_days t)) as [[y0 m0] d0].
  destruct Hcivil as (Hdays & Hm & Hd). cbn [fst snd].
  pose proof (within_year y0 m0 d0 Hm Hd) as Hwithin. rewrite Hdays in Hwithin.
  destruct (Z.lt_trichotomy y0 y) as [Hlt | [Heq | Hgt]]; [| exact Heq |].
  - pose proof (new_year_monotone (y0 + 1) y ltac:(lia)). lia.
  - pose proof (new_year_monotone (y + 1) y0 ltac:(lia)). lia.
Qed.

Lemma year_range (t : Time.datetime) :
  Zone.midnight (Time.year t) 1 1 <= t < Zone.midnight (Time.year t + 1) 1 1.
Proof.
  pose proof (civil_round_trip (Time.epoch_days t)) as Hcivil.
  unfold Time.year.
  destruct (Time.civil_from_days (Time.epoch_days t)) as [[y0 m0] d0].
  destruct Hcivil as (Hdays & Hm & Hd). cbn [fst snd].
  pose proof (within_year y0 m0 d0 Hm Hd) as Hwithin. rewrite Hdays in Hwithin.
  revert Hwithin.
  unfold Zone.midnight, Time.epoch_days, Time.epoch_seconds, Time.us_per_second.
  generalize (days_from_civil y0 1 1) (days_from_civil (y0 + 1) 1 1). intros A B.
  Z.div_mod_to_equations. lia.
Qed.

(** where the switches of a year lie in it *)
Lemma switches_in_year (y : Z) :
  Zone.midnight y 1 1 + Zone.timedelta_hours 1 <= Zone.dston y
  ∧ Zone.dston y + Zone.timedelta_hours 1 <= Zone.dstoff y
  ∧ Zone.dstoff y + Zone.timedelta_hours 1 <= Zone.midnight (y + 1) 1 1.
Proof.
  destruct (last_sunday y 3 (proj1 (april_after_march y)))
    as (day & Hday & Hon & _).
  destruct (last_sunday y 10 (proj1 (november_after_october y)))
    as (day' & Hday' & Hoff & _).
  cbv zeta in Hon, Hoff.
  change (3 + 1) with 4 in Hon. change (10 + 1) with 11 in Hoff.
  unfold Zone.dston, Zone.dstoff. cbv zeta. rewrite Hon, Hoff.
  pose proof (within_year y 12 31 ltac:(lia) ltac:(lia)) as [_ Hend].
  assert (H1 : days_from_civil y 3 day = days_from_civil y 1 1 + 59 + (day - 1)
               ∨ days_from_civil y 3 day = days_from_civil y 1 1 + 60 + (day - 1)).
  { unfold days_from_civil.
    cbn [Z.leb Z.ltb Z.compare Pos.compare Pos.compare_cont]. cbv zeta.
    Z.div_mod_to_equations. lia. }
  assert (H2 : days_from_civil y 10 day' = days_from_civil y 3 day + 214 + (day' - day)).
  { unfold days_from_civil.
    cbn [Z.leb Z.ltb Z.compare Pos.compare Pos.compare_cont]. cbv zeta.
    Z.div_mod_to_equations. lia. }
  assert (H3 : days_from_civil y 12 31 = days_from_civil y 10 day' + 92 - day').
  { unfold days_from_civil.
    cbn [Z.leb Z.ltb Z.compare Pos.compare Pos.compare_cont]. cbv zeta.
    Z.div_mod_to_equations. lia. }
  unfold Zone.midnight, Zone.timedelta_hours, Time.us_per_second. lia.
Qed.

Lemma cet_dst_values (t : Time.datetime) :
  (Zone.dston (Time.year t) <= t < Zone.dstoff (Time.year t)
   ∧ Zone.CET_dst t = Zone.timedelta_hours 1)
  ∨ (¬ Zone.dston (Time.year t) <= t < Zone.dstoff (Time.year t)
     ∧ Zone.CET_dst t = 0).
Proof.
  unfold Zone.CET_dst.
  destruct (Z.leb_spec (Zone.dston (Time.year t)) t);
    destruct (Z.ltb_spec t (Zone.dstoff (Time.year t))); cbn [andb];
    [left | right | right | right]; split; try reflexivity; lia.
Qed.

Lemma same_year (t t' : Time.datetime) :
  Zone.midnight (Time.year t) 1 1 <= t' < Zone.midnight (Time.year t + 1) 1 1 →
  Time.year t' = Time.year t.
Proof. apply year_of_range. Qed.

(** X24. Converting between UTC and CET and back.  From UTC to CET and back
    gives the time one started from, except in the last hour before [dstoff]
    (wall-clock time, at the standard offset), where it gives one hour
    more; from CET to UTC and back gives the wall-clock time one started
    from, except in the first hour from [dston], where it gives one hour
    less. *)
Theorem cet_utc_round_trips (a_time : Time.datetime) :
  Zone.utc_from_cet (Zone.cet_from_utc a_time)
  = (let standard := a_time + Zone.timedelta_hours 1 in
     let off := Zone.dstoff (Time.year standard) in
     if decide (off - Zone.timedelta_hours 1 <= standard < off)
     then a_time + Zone.timedelta_hours 1
     else a_time)
  ∧ Zone.cet_from_utc (Zone.utc_from_cet a_time)
    = (let on := Zone.dston (Time.year a_time) in
       if decide (on <= a_time < on + Zone.timedelta_hours 1)
       then a_time - Zone.timedelta_hours 1
       else a_time).
Proof.
  assert (Hhour : Zone.timedelta_hours 1 = 3600000000) by reflexivity.
  assert (Hfrom : ∀ u, Zone.cet_from_utc u
                       = u + Zone.timedelta_hours 1
                         + Zone.CET_dst (u + Zone.timedelta_hours 1)).
  { intros u. unfold Zone.cet_from_utc, Zone.astimezone, Zone.fromutc,
      Zone.UTC_utcoffset, Zone.CET_utcoffset. cbv zeta.
    rewrite Z.sub_0_r.
    replace (Zone.timedelta_hours 1 + Zone.CET_dst u - Zone.CET_dst u =? 0) with false
      by (symmetry; apply Z.eqb_neq; lia).
    f_equal; [lia | f_equal; lia]. }
  assert (Hto : ∀ t, Zone.utc_from_cet t
                     = t - Zone.timedelta_hours 1 - Zone.CET_dst t).
  { intros t. unfold Zone.utc_from_cet, Zone.astimezone, Zone.fromutc,
      Zone.UTC_utcoffset, Zone.UTC_dst, Zone.CET_utcoffset. cbv zeta.
    change (0 - 0 =? 0) with true. lazy beta iota. lia. }
  split; cbv zeta.
  - rewrite Hfrom, Hto.
    set (s := a_time + Zone.timedelta_hours 1).
    pose proof (year_range s) as Hyear.
    pose proof (switches_in_year (Time.year s)) as (Hjan & Hmid & Hdec).
    destruct (cet_dst_values s) as [[Hin ->] | [Hout ->]].
    + assert (Hsame : Time.year (s + Zone.timedelta_hours 1) = Time.year s).
      { apply same_year. lia. }
      destruct (cet_dst_values (s + Zone.timedelta_hours 1)) as [[Hin' ->] | [Hout' ->]];
        rewrite Hsame in *; case_decide; subst s; lia.
    + rewrite Z.add_0_r.
      destruct (cet_dst_values s) as [[Hin' ->] | [Hout' ->]]; [contradiction |].
      case_decide; subst s; lia.
  - rewrite Hto, Hfrom.
    pose proof (year_range a_time) as Hyear.
    pose proof (switches_in_year (Time.year a_time)) as (Hjan & Hmid & Hdec).
    destruct (cet_dst_values a_time) as [[Hin ->] | [Hout ->]].
    + replace (a_time - Zone.timedelta_hours 1 - Zone.timedelta_hours 1
               + Zone.timedelta_hours 1) with (a_time - Zone.timedelta_hours 1) by lia.
      assert (Hsame : Time.year (a_time - Zone.timedelta_hours 1) = Time.year a_time).
      { apply same_year. lia. }
      destruct (cet_dst_values (a_time - Zone.timedelta_hours 1))
        as [[Hin' ->] | [Hout' ->]];
        rewrite Hsame in *; case_decide; lia.
    + replace (a_time - Zone.timedelta_hours 1 - 0 + Zone.timedelta_hours 1)
        with a_time by lia.
      destruct (cet_dst_values a_time) as [[Hin' ->] | [Hout' ->]]; [contradiction |].
      case_decide; lia.
Qed.
